(** * Any_to_Any: the upload / routing / cleanup glue of [server.js]

    A shallow embedding of the Express server of the repository: the
    multer upload configuration, the four conversion helpers, the
    [POST /convert] handler and the start-up port negotiation, followed by
    the properties of the specification that concern them.

    The converters themselves (LibreOffice, poppler, pdf-lib's decoders),
    the clock and the operating system are outside the repository; they are
    fields of a [Host] record, and every function of the server takes the
    host it runs on as its first argument. *)

From Stdlib Require Import ZArith String Ascii List Bool Lia.
From Stdlib Require Import DecimalString DecimalPos DecimalZ.
From stdpp Require Import base option gmap strings.

Local Open Scope Z_scope.
Local Open Scope string_scope.

(** ** JavaScript values and strings

    A string is a sequence of code units below 256, that is, text of
    ISO-8859-1: the names multer hands over (it decodes them as latin1), the
    values of HTTP headers, and the form fields and paths that stay in this
    range. On such text the operations below are JavaScript's. The arrows of
    the message of line 204, the only characters of the program's own text
    outside this range, stand as the bytes of their UTF-8 form, the form in
    which the message is sent. *)

Module JS.

(** [String(n)] and template interpolation of an integer. *)
Definition show (n : Z) : string := NilZero.string_of_int (Z.to_int n).

(** The two kinds of value [PORT] and [p] take in [start]: a number (the
    literal 3000) or a string (an environment variable). *)
Inductive value :=
| Num (n : Z)
| Str (s : string).

(** [Number(v)]: the empty string is 0 and a decimal integer is itself; any
    other string counts as NaN here ([None]). *)
Definition toNumber (v : value) : option Z :=
  match v with
  | Num n => Some n
  | Str s => if String.eqb s "" then Some 0 else Z.of_int <$> NilZero.int_of_string s
  end.

Definition toString (v : value) : string :=
  match v with
  | Num n => show n
  | Str s => s
  end.

(** [a + b]: addition of two numbers, concatenation as soon as one side is
    a string. *)
Definition add (a b : value) : value :=
  match a, b with
  | Num x, Num y => Num (x + y)
  | _, _ => Str (toString a +:+ toString b)
  end.

(** [a < b]: code-unit order on two strings, numeric order otherwise
    (false when a side is NaN). *)
Definition lt (a b : value) : bool :=
  match a, b with
  | Str s, Str t => String.ltb s t
  | _, _ =>
      match toNumber a, toNumber b with
      | Some x, Some y => Z.ltb x y
      | _, _ => false
      end
  end.

(** [s.toLowerCase()]: the letters A-Z and, above them, U+00C0-U+00DE
    without the multiplication sign U+00D7 move up by 32; no other code unit
    below 256 changes. *)
Definition lower (c : ascii) : ascii :=
  let n := nat_of_ascii c in
  if ((65 <=? n)%nat && (n <=? 90)%nat)
     || ((192 <=? n)%nat && (n <=? 222)%nat && negb (n =? 215)%nat)
  then ascii_of_nat (n + 32) else c.

Fixpoint toLowerCase (s : string) : string :=
  match s with
  | EmptyString => EmptyString
  | String c r => String (lower c) (toLowerCase r)
  end.

(** [s.trim()]: the white space and line terminators of JavaScript below
    256 are the space, the tab, the line feed, the vertical tab, the form
    feed, the carriage return and the no-break space U+00A0. *)
Definition is_space (c : ascii) : bool :=
  let n := nat_of_ascii c in
  (n =? 32)%nat || ((9 <=? n)%nat && (n <=? 13)%nat) || (n =? 160)%nat.

Fixpoint trimStart (s : string) : string :=
  match s with
  | String c r => if is_space c then trimStart r else s
  | EmptyString => EmptyString
  end.

Definition trim (s : string) : string :=
  String.rev (trimStart (String.rev (trimStart s))).

(** [xs.includes(x)] on an array of strings. *)
Definition includes (xs : list string) (x : string) : bool :=
  existsb (String.eqb x) xs.

(** Truthiness of a variable that holds [null] or a string. *)
Definition truthy (v : option string) : bool :=
  match v with
  | Some s => negb (String.eqb s "")
  | None => false
  end.

(** [v || d] for such a variable. *)
Definition or_else (v : option string) (d : string) : string :=
  if truthy v then default d v else d.

End JS.

(** ** Errors, files and documents *)

(** A JavaScript [Error]: its message, the [code] Node attaches to system
    errors and the [status] an HTTP framework looks for. *)
Record Error := mkError {
  message : string;
  code : option string;
  status : option Z
}.

(** [new Error(msg)] *)
Definition new_Error (msg : string) : Error := mkError msg None None.

(** A node of the file system: a file with its bytes, or a directory. *)
Inductive Node :=
| File (data : string)
| Dir.

Abbreviation FS := (gmap string Node).

(** pdf-lib's objects, as far as [imageToPdf] builds them. *)
Inductive Codec := Png | Jpg.

Record Image := mkImage {
  image_codec : Codec;
  image_data : string;
  image_width : Z;
  image_height : Z
}.

Record DrawOp := mkDraw {
  draw_image : Image;
  draw_x : Z;
  draw_y : Z;
  draw_width : Z;
  draw_height : Z
}.

Record Page := mkPage {
  page_width : Z;
  page_height : Z;
  page_content : list DrawOp
}.

Abbreviation PDFDocument := (list Page).

(** The options object handed to pdf-poppler's [convert]. *)
Record PopplerOpts := mkOpts {
  format : string;
  out_dir : string;
  out_prefix : string;
  page : Z
}.

(** The conversion helpers of [server.js]. *)
Inductive Operation := OfficeToPdf | PdfToJpg | PdfToDocx | ImageToPdf.

(** What the server asks of the outside, in the order it asks. [Enter] is a
    ghost event: it marks the call of a conversion helper and corresponds to
    no statement of the program. *)
Inductive Event :=
| Enter (op : Operation) (input output : string)
| LibreConvert (document : string) (fmt : string)
| ExecFile (cmd : string) (args : list string) (timeout : option Z)
| PopplerConvert (file : string) (opts : PopplerOpts)
| Embed (c : Codec) (data : string)
| Listen (p : JS.value)
| ConsoleLog (msg : string)
| ConsoleError (msg : string)
| Exit (exit_code : Z).

(** ** The host

    Everything [server.js] takes from the machine it runs on: the constants
    Node evaluates at load time, the clock, and the behaviour of the
    converters. A converter may change the file system in any way; it either
    returns or fails with an error. *)
Record Host := mkHost {
  dirname : string;                         (* __dirname *)
  platform : string;                        (* process.platform *)
  env : string -> option string;            (* process.env *)
  clock : nat -> Z;                         (* the n-th reading of Date.now() *)
  (* require('pdf-poppler'): [None] when loading throws, otherwise the
     module's [convert] property, [None] when it has none *)
  pdf_poppler : option (option (string -> PopplerOpts -> FS -> option Error * FS));
  (* libreoffice-convert: convert(buffer, format, filter) *)
  libre_convert : string -> string -> Error + string;
  (* child_process.execFile(cmd, args, { timeout }) *)
  exec_file : string -> list string -> option Z -> FS -> option Error * FS;
  (* pdf-lib: doc.embedPng, doc.embedJpg (width and height), doc.save *)
  embed_png : string -> Error + Z * Z;
  embed_jpg : string -> Error + Z * Z;
  pdf_save : PDFDocument -> string;
  (* paths whose removal fails (busy, not permitted) *)
  remove_fails : string -> option Error;
  (* app.listen(p): [None] when the server listens, the error otherwise *)
  listen : JS.value -> option Error
}.

(** ** Effects

    An [async] function is a computation over a state that may throw. The
    state of the process is the file system, the trace of events, and the
    number of clock readings taken so far. *)
Record World := mkWorld {
  fs : FS;
  trace : list Event;
  ticks : nat
}.

Inductive Result (A : Type) :=
| Ok (a : A)
| Throw (e : Error).
Arguments Ok {A} a.
Arguments Throw {A} e.

Definition M (S A : Type) : Type := S -> Result A * S.

Definition ret {S A} (a : A) : M S A := fun s => (Ok a, s).

Definition bind {S A B} (m : M S A) (k : A -> M S B) : M S B :=
  fun s => match m s with
           | (Ok a, s') => k a s'
           | (Throw e, s') => (Throw e, s')
           end.

Definition throw {S A} (e : Error) : M S A := fun s => (Throw e, s).

(** [try { m } catch (err) { h err }] *)
Definition try_catch {S A} (m : M S A) (h : Error -> M S A) : M S A :=
  fun s => match m s with
           | (Ok a, s') => (Ok a, s')
           | (Throw e, s') => h e s'
           end.

(** [try { m } finally { f }]: [f] runs on both outcomes; an error of [f]
    replaces the outcome of [m]. *)
Definition try_finally {S A} (m : M S A) (f : M S unit) : M S A :=
  fun s => match m s with
           | (r, s') => match f s' with
                        | (Ok _, s'') => (r, s'')
                        | (Throw e, s'') => (Throw e, s'')
                        end
           end.

(** [m.catch(() => {})] *)
Definition swallow {S} (m : M S unit) : M S unit :=
  try_catch m (fun _ => ret tt).

Declare Scope js_scope.
Delimit Scope js_scope with js.
Notation "x <- m ;; k" := (bind m (fun x => k))
  (at level 100, m at next level, right associativity) : js_scope.
Notation "m ;; k" := (bind m (fun _ => k))
  (at level 100, right associativity) : js_scope.
Local Open Scope js_scope.

Definition modify_fs (f : FS -> FS) : M World unit :=
  fun w => (Ok tt, mkWorld (f (fs w)) (trace w) (ticks w)).

Definition read_fs : M World FS := fun w => (Ok (fs w), w).

Definition emit (e : Event) : M World unit :=
  fun w => (Ok tt, mkWorld (fs w) (trace w ++ [e]) (ticks w)).

(** [console.error(...)] *)
Definition console_error (msg : string) : M World unit := emit (ConsoleError msg).

(** [console.log(...)] *)
Definition console_log (msg : string) : M World unit := emit (ConsoleLog msg).

(** ** Node's [path] module

    The functions of [path] the server calls, on paths that do not end in a
    separator. The separator is the host's: a backslash on Windows (where a
    slash separates too), a slash elsewhere. *)
Module Path.

Definition win32 (h : Host) : bool := String.eqb (platform h) "win32".

Definition sep (h : Host) : string := if win32 h then "\" else "/".

Definition is_sep (h : Host) (c : ascii) : bool :=
  Ascii.eqb c "/" || (win32 h && Ascii.eqb c "\").

(** [path.join(dir, name)] for a directory and a name inside it. *)
Definition join (h : Host) (dir name : string) : string :=
  dir +:+ sep h +:+ name.

(** The part of a path after its last separator. *)
Fixpoint last_segment (h : Host) (p : string) : string :=
  match p with
  | EmptyString => EmptyString
  | String c r =>
      if existsb (is_sep h) (list_ascii_of_string r) then last_segment h r
      else if is_sep h c then r
      else p
  end.

(** The suffix of [s] that starts at its last dot, if it has a dot. *)
Fixpoint from_last_dot (s : string) : option string :=
  match s with
  | EmptyString => None
  | String c r =>
      match from_last_dot r with
      | Some e => Some e
      | None => if Ascii.eqb c "." then Some s else None
      end
  end.

(** [path.extname(p)]: from the last dot of the last segment to its end;
    empty when there is no dot, when the only dot opens the segment, and
    for the segment [..]. *)
Definition extname (h : Host) (p : string) : string :=
  let seg := last_segment h p in
  match from_last_dot seg with
  | None => ""
  | Some e =>
      if String.eqb e seg || String.eqb seg ".." then "" else e
  end.

(** [s] without its ending [suffix], when it ends in it. *)
Fixpoint strip_suffix (s suffix : string) : option string :=
  if String.eqb s suffix then Some ""
  else match s with
       | EmptyString => None
       | String c r => String c <$> strip_suffix r suffix
       end.

(** [path.basename(p, ext)]: the last segment, without [ext] when it ends
    in it and is longer. *)
Definition basename_ext (h : Host) (p ext : string) : string :=
  let seg := last_segment h p in
  if String.eqb ext "" then seg
  else if String.eqb ext p then ""
  else match strip_suffix seg ext with
       | Some "" => seg
       | Some stem => stem
       | None => seg
       end.

(** [path.basename(p)] *)
Definition basename (h : Host) (p : string) : string := last_segment h p.

End Path.

(** ** The file system calls ([fs-extra]) and the clock

    Paths are keys of a finite map; the directory a path lies in is not
    required to exist. A call fails where the map decides it: reading a path
    that is missing or a directory, writing over a directory, making a
    directory where a file is. Removal fails where the host says so. *)
Module Fs.
Section WithHost.
Variable h : Host.

Definition system_error (c : string) (p : string) : Error :=
  mkError (c +:+ ": " +:+ p) (Some c) None.

(** [p] is [dir] itself or lies below it. *)
Definition inside (dir p : string) : bool :=
  String.eqb p dir || String.prefix (dir +:+ Path.sep h) p.

Definition prune (dir : string) (f : FS) : FS :=
  filter (fun kv : string * Node => inside dir kv.1 = false) f.

(** The nodes at and below [src], renamed to sit at and below [dst]. *)
Definition graft (src dst : string) (f : FS) : FS :=
  list_to_map
    (omap (fun kv : string * Node =>
             if inside src kv.1
             then Some (dst +:+ String.substring (String.length src)
                                 (String.length kv.1 - String.length src) kv.1,
                        kv.2)
             else None)
          (map_to_list f)).

Definition ensureDir (p : string) : M World unit :=
  f <- read_fs ;;
  match f !! p with
  | Some (File _) => throw (system_error "EEXIST" p)
  | _ => modify_fs (insert p Dir)
  end.

Definition pathExists (p : string) : M World bool :=
  f <- read_fs ;;
  ret (match f !! p with Some _ => true | None => false end).

(** [fs.existsSync] *)
Definition existsSync (f : FS) (p : string) : bool :=
  match f !! p with Some _ => true | None => false end.

(** [fs.readFile], [fs.readFileSync] *)
Definition readFile (p : string) : M World string :=
  f <- read_fs ;;
  match f !! p with
  | Some (File d) => ret d
  | Some Dir => throw (system_error "EISDIR" p)
  | None => throw (system_error "ENOENT" p)
  end.

Definition writeFile (p : string) (d : string) : M World unit :=
  f <- read_fs ;;
  match f !! p with
  | Some Dir => throw (system_error "EISDIR" p)
  | _ => modify_fs (insert p (File d))
  end.

(** [fs.remove(p)]: the path and everything below it; a path that does
    not exist is not an error. *)
Definition remove (p : string) : M World unit :=
  match remove_fails h p with
  | Some e => throw e
  | None => modify_fs (prune p)
  end.

Definition copy (src dst : string) : M World unit :=
  f <- read_fs ;;
  match f !! src with
  | None => throw (system_error "ENOENT" src)
  | Some (File d) => modify_fs (insert dst (File d))
  | Some Dir => modify_fs (fun f => graft src dst f ∪ f)
  end.

(** [fs.move(src, dst, { overwrite: true })] *)
Definition move (src dst : string) : M World unit :=
  f <- read_fs ;;
  match f !! src with
  | None => throw (system_error "ENOENT" src)
  | Some (File d) => modify_fs (fun f => insert dst (File d) (delete src (prune dst f)))
  | Some Dir => modify_fs (fun f => graft src dst f ∪ prune src (prune dst f))
  end.

(** [Date.now()] *)
Definition Date_now : M World Z :=
  fun w => (Ok (clock h (ticks w)), mkWorld (fs w) (trace w) (S (ticks w))).

End WithHost.
End Fs.

(** ** pdf-lib *)
Module PdfLib.
Section WithHost.
Variable h : Host.

(** [PDFDocument.create()] *)
Definition create : PDFDocument := [].

Definition decoder (c : Codec) : string -> Error + Z * Z :=
  match c with
  | Png => embed_png h
  | Jpg => embed_jpg h
  end.

Definition embed (c : Codec) (data : string) : M World Image :=
  emit (Embed c data) ;;
  match decoder c data with
  | inl e => throw e
  | inr (w, ht) => ret (mkImage c data w ht)
  end.

(** [doc.embedPng(bytes)] and [doc.embedJpg(bytes)] *)
Definition embedPng := embed Png.
Definition embedJpg := embed Jpg.

(** [doc.addPage([width, height])]: the document with the new page at its
    end, and the index of that page. *)
Definition addPage (doc : PDFDocument) (size : Z * Z) : PDFDocument * nat :=
  ((doc ++ [mkPage size.1 size.2 []])%list, length doc).

(** [page.drawImage(image, { x, y, width, height })] on the page at
    index [i]. *)
Definition drawImage (doc : PDFDocument) (i : nat) (d : DrawOp) : PDFDocument :=
  alter (fun pg => mkPage (page_width pg) (page_height pg) (page_content pg ++ [d])%list) i doc.

(** [doc.save()] *)
Definition save (doc : PDFDocument) : string := pdf_save h doc.

End WithHost.
End PdfLib.

(** ** HTTP: what multer and Express hand to and take from the handler *)

(** The [file] part of a multipart request. *)
Record Upload := mkUpload {
  originalname : string;
  mimetype : string;
  size : Z;
  content : string
}.

(** A [POST /convert] request as it arrives. *)
Record HttpRequest := mkHttp {
  part_file : option Upload;
  part_targetFormat : option string
}.

(** [req.file] and [req.body.targetFormat], as multer leaves them. *)
Record StoredFile := mkStored {
  file_originalname : string;
  file_mimetype : string;
  file_path : string;
  file_size : Z
}.

Record Req := mkReq {
  req_file : option StoredFile;
  req_body_targetFormat : option string
}.

Inductive Response :=
| Json (code : Z) (error : string)           (* res.status(code).json({ error }) *)
| Download (filename : string) (body : string)  (* res.download: 200 and the file *)
| DefaultError (code : Z) (err : Error)      (* the framework's own error page *)
| NoResponse.                                (* nothing was sent *)

Definition status_of (r : Response) : option Z :=
  match r with
  | Json c _ => Some c
  | Download _ _ => Some 200
  | DefaultError c _ => Some c
  | NoResponse => None
  end.

(** The body is a JSON object with an [error] field. *)
Definition json_error_body (r : Response) : option string :=
  match r with
  | Json _ e => Some e
  | _ => None
  end.

(** ** [server.js] *)
Section Server.
Variable h : Host.

(** lines 16-22: the module's [convert], or [null]. *)
Definition pdfConvertPoppler :
  option (string -> PopplerOpts -> FS -> option Error * FS) :=
  match pdf_poppler h with
  | Some (Some convert) => Some convert
  | Some None => None
  | None => None
  end.

Definition isLinux : bool := String.eqb (platform h) "linux".

(** [process.env.PORT || 3000] *)
Definition PORT : JS.value :=
  if JS.truthy (env h "PORT") then JS.Str (default "" (env h "PORT")) else JS.Num 3000.

Definition UPLOADS_DIR : string := Path.join h (dirname h) "uploads".
Definition OUTPUTS_DIR : string := Path.join h (dirname h) "outputs".

Definition ensureDirs : M World unit :=
  Fs.ensureDir UPLOADS_DIR ;;
  Fs.ensureDir OUTPUTS_DIR.

(** lines 44-46: the stored name, for the reading [now] of the clock. *)
Definition unique_name (originalname : string) (now : Z) : string :=
  let ext := Path.extname h originalname in
  let base := Path.basename_ext h originalname ext in
  base +:+ "-" +:+ JS.show now +:+ ext.

(** lines 41-49: the [filename] callback of the disk storage. *)
Definition storage_filename (file : Upload) : M World string :=
  now <- Fs.Date_now h ;;
  ret (unique_name (originalname file) now).

Definition limits_fileSize : Z := 20 * 1024 * 1024.

Definition allowed_mimetypes : list string :=
  [ "application/vnd.openxmlformats-officedocument.wordprocessingml.document";
    "application/vnd.openxmlformats-officedocument.presentationml.presentation";
    "application/vnd.openxmlformats-officedocument.spreadsheetml.sheet";
    "application/pdf";
    "image/jpeg";
    "image/png" ].

(** lines 54-65: [cb(null, true)] or [cb(new Error(...))]. *)
Definition fileFilter (file : Upload) : Result bool :=
  if JS.includes allowed_mimetypes (mimetype file) then Ok true
  else Throw (new_Error "File type not supported. Use DOCX, PPTX, XLSX, PDF, JPG, or PNG.").

(** [execFileAsync(cmd, args, { timeout })] *)
Definition execFileAsync (cmd : string) (args : list string) (timeout : option Z)
  : M World unit :=
  emit (ExecFile cmd args timeout) ;;
  fun w =>
    let (r, f) := exec_file h cmd args timeout (fs w) in
    (match r with None => Ok tt | Some e => Throw e end,
     mkWorld f (trace w) (ticks w)).

(** [pdfConvertPoppler(file, opts)], for the function [convert] the
    variable holds. *)
Definition call_poppler
    (convert : string -> PopplerOpts -> FS -> option Error * FS)
    (file : string) (opts : PopplerOpts) : M World unit :=
  emit (PopplerConvert file opts) ;;
  fun w =>
    let (r, f) := convert file opts (fs w) in
    (match r with None => Ok tt | Some e => Throw e end,
     mkWorld f (trace w) (ticks w)).

(** [libreConvert(buffer, format, undefined)] *)
Definition libreConvert (buffer : string) (fmt : string) : M World string :=
  emit (LibreConvert buffer fmt) ;;
  match libre_convert h buffer fmt with
  | inl e => throw e
  | inr pdf => ret pdf
  end.

(** lines 71-77 *)
Definition officeToPdf (inputPath outputPath : string) : M World unit :=
  emit (Enter OfficeToPdf inputPath outputPath) ;;
  let ext := JS.toLowerCase (Path.extname h inputPath) in
  let allowed := [".docx"; ".pptx"; ".xlsx"] in
  if negb (JS.includes allowed ext)
  then throw (new_Error ("Unsupported office format: " +:+ ext))
  else
    buffer <- Fs.readFile inputPath ;;
    pdfBuffer <- libreConvert buffer ".pdf" ;;
    Fs.writeFile outputPath pdfBuffer.

Definition no_output_jpg : Error :=
  new_Error "PDF to JPG conversion produced no output.".

Definition not_available : Error :=
  new_Error "PDF to JPG not available on this system. Install poppler-utils (Linux) or use Windows/Mac.".

(** lines 80-101 *)
Definition pdfToJpg (inputPath outputDir : string) : M World string :=
  emit (Enter PdfToJpg inputPath outputDir) ;;
  Fs.ensureDir outputDir ;;
  let prefix := Path.join h outputDir "page" in
  if isLinux then
    execFileAsync "pdftoppm" ["-jpeg"; "-f"; "1"; "-l"; "1"; inputPath; prefix] None ;;
    let firstPage := Path.join h outputDir "page-1.jpg" in
    found <- Fs.pathExists firstPage ;;
    if negb found then throw no_output_jpg
    else ret firstPage
  else
    match pdfConvertPoppler with
    | Some convert =>
        let opts := mkOpts "jpeg" outputDir "page" 1 in
        call_poppler convert inputPath opts ;;
        let firstPage := Path.join h outputDir "page-1.jpg" in
        found <- Fs.pathExists firstPage ;;
        if negb found then throw no_output_jpg
        else ret firstPage
    | None => throw not_available
    end.

(** lines 104-118: the first candidate that exists, in order. *)
Definition getLibreOfficeCommand (f : FS) : string :=
  if String.eqb (platform h) "win32" then
    let prog := JS.or_else (env h "PROGRAMFILES") "C:\Program Files" in
    let prog86 := JS.or_else (env h "ProgramFiles(x86)") "C:\Program Files (x86)" in
    let candidates :=
      [ Path.join h (Path.join h (Path.join h prog "LibreOffice") "program") "soffice.exe";
        Path.join h (Path.join h (Path.join h prog86 "LibreOffice") "program") "soffice.exe" ] in
    match List.find (Fs.existsSync f) candidates with
    | Some p => p
    | None => "soffice"
    end
  else "libreoffice".

Definition no_output_docx : Error :=
  new_Error "PDF to DOCX produced no output. Is LibreOffice installed?".

(** lines 121-148 *)
Definition pdfToDocx (inputPath outputDir : string) : M World string :=
  emit (Enter PdfToDocx inputPath outputDir) ;;
  Fs.ensureDir outputDir ;;
  let baseName := Path.basename_ext h inputPath (Path.extname h inputPath) in
  now <- Fs.Date_now h ;;
  let tempDir := Path.join h OUTPUTS_DIR ("lo_" +:+ JS.show now) in
  Fs.ensureDir tempDir ;;
  let tempPdf := Path.join h tempDir "in.pdf" in
  let tempDocx := Path.join h tempDir "in.docx" in
  try_finally
    (Fs.copy h inputPath tempPdf ;;
     f <- read_fs ;;
     let liboCmd := getLibreOfficeCommand f in
     execFileAsync liboCmd
       ["--headless"; "--infilter=writer_pdf_import"; "--convert-to"; "docx";
        "--outdir"; tempDir; tempPdf]
       (Some 60000) ;;
     found <- Fs.pathExists tempDocx ;;
     if negb found then throw no_output_docx
     else
       let docxPath := Path.join h outputDir (baseName +:+ ".docx") in
       Fs.move h tempDocx docxPath ;;
       ret docxPath)
    (swallow (Fs.remove h tempDir)).

(** lines 151-164 *)
Definition imageToPdf (inputPath outputPath : string) : M World unit :=
  emit (Enter ImageToPdf inputPath outputPath) ;;
  let ext := JS.toLowerCase (Path.extname h inputPath) in
  imageBytes <- Fs.readFile inputPath ;;
  let doc := PdfLib.create in
  image <- (if String.eqb ext ".png"
            then PdfLib.embedPng h imageBytes
            else PdfLib.embedJpg h imageBytes) ;;
  let width := image_width image in
  let height := image_height image in
  let (doc, page) := PdfLib.addPage doc (width, height) in
  let doc := PdfLib.drawImage doc page (mkDraw image 0 0 width height) in
  let pdfBytes := PdfLib.save h doc in
  Fs.writeFile outputPath pdfBytes.

End Server.

(** ** The [POST /convert] handler (lines 167-232) *)

(** The three [let] variables of the handler, which its [try] block assigns
    and its [catch] block and download callback read, next to the state of
    the process. *)
Record Frame := mkFrame {
  uploadPath : option string;
  outputPath : option string;
  outputDirForPdf : option string;
  world : World
}.

Definition lift {A} (m : M World A) : M Frame A :=
  fun fr =>
    let (r, w) := m (world fr) in
    (r, mkFrame (uploadPath fr) (outputPath fr) (outputDirForPdf fr) w).

Definition set_uploadPath (p : string) : M Frame unit :=
  fun fr => (Ok tt, mkFrame (Some p) (outputPath fr) (outputDirForPdf fr) (world fr)).

Definition set_outputPath (p : string) : M Frame unit :=
  fun fr => (Ok tt, mkFrame (uploadPath fr) (Some p) (outputDirForPdf fr) (world fr)).

Definition set_outputDirForPdf (p : string) : M Frame unit :=
  fun fr => (Ok tt, mkFrame (uploadPath fr) (outputPath fr) (Some p) (world fr)).

Definition frame : M Frame Frame := fun fr => (Ok fr, fr).

(** Runs a handler on fresh variables, all [null]. *)
Definition with_frame {A} (m : M Frame A) : M World A :=
  fun w => let (r, fr) := m (mkFrame None None None w) in (r, world fr).

Section Handler.
Variable h : Host.

(** [if (v && (await fs.pathExists(v))) await fs.remove(v);] *)
Definition remove_if_exists (v : option string) : M World unit :=
  if JS.truthy v then
    found <- Fs.pathExists (default "" v) ;;
    if found then Fs.remove h (default "" v) else ret tt
  else ret tt.

(** The clean-up block, written out twice in the source: in the download
    callback (lines 211-217) and in the [catch] block (lines 221-227). *)
Definition cleanup : M Frame unit :=
  try_catch
    (fr <- frame ;;
     lift (remove_if_exists (uploadPath fr)) ;;
     lift (remove_if_exists (outputPath fr)) ;;
     lift (remove_if_exists (outputDirForPdf fr)))
    (fun e => lift (console_error ("Cleanup error: " +:+ message e))).

(** The test of [send], with which [res.download] serves the file, for a
    dot file: under its default options a path whose last segment starts
    with a dot and is longer than the dot is not served. *)
Definition dotfile (p : string) : bool :=
  match Path.basename h p with
  | String c (String _ _) => Ascii.eqb c "."
  | _ => false
  end.

(** [res.download(path, filename, callback)]: the file is sent, then the
    callback runs; when the file is a dot file or cannot be read, the
    callback runs with the error and the handler, whose callback does not
    look at it, sends nothing. *)
Definition res_download (p filename : string) (callback : M Frame unit)
  : M Frame Response :=
  sent <- lift (if dotfile p then ret None
                else try_catch (d <- Fs.readFile p ;; ret (Some d)) (fun _ => ret None)) ;;
  callback ;;
  ret (match sent with
       | Some d => Download filename d
       | None => NoResponse
       end).

Definition unsupported_message (ext targetFormat : string) : string :=
  "Unsupported conversion: " +:+ ext +:+ " → " +:+ targetFormat +:+
  ". Supported: DOCX/PPTX/XLSX→PDF, PDF→JPG/DOCX, JPG/PNG→PDF.".

(** lines 183-185: the stem of the output paths, for the reading [now]
    of the clock. *)
Definition out_base (originalname : string) (now : Z) : string :=
  let ext := JS.toLowerCase (Path.extname h originalname) in
  let baseName := Path.basename_ext h originalname ext in
  Path.join h (OUTPUTS_DIR h) (baseName +:+ "-" +:+ JS.show now).

(** The [try] block. The routing chain yields [Some r] where the source
    executes [return r], and [None] where control goes on to the
    download. *)
Definition convert_try (req : Req) : M Frame Response :=
  match req_file req with
  | None => ret (Json 400 "No file uploaded.")
  | Some file =>
      let targetFormat :=
        JS.trim (JS.toLowerCase (JS.or_else (req_body_targetFormat req) "")) in
      if String.eqb targetFormat ""
      then ret (Json 400 "targetFormat is required (pdf, jpg, or docx).")
      else
        set_uploadPath (file_path file) ;;
        let uploadPath := file_path file in
        let ext := JS.toLowerCase (Path.extname h (file_originalname file)) in
        now <- lift (Fs.Date_now h) ;;
        let outBase := out_base (file_originalname file) now in
        returned <-
          (if JS.includes [".docx"; ".pptx"; ".xlsx"] ext && String.eqb targetFormat "pdf"
           then
             set_outputPath (outBase +:+ ".pdf") ;;
             lift (officeToPdf h uploadPath (outBase +:+ ".pdf")) ;;
             ret None
           else if String.eqb ext ".pdf" && String.eqb targetFormat "jpg"
           then
             set_outputDirForPdf (outBase +:+ "-pages") ;;
             lift (Fs.ensureDir (outBase +:+ "-pages")) ;;
             firstPagePath <- lift (pdfToJpg h uploadPath (outBase +:+ "-pages")) ;;
             set_outputPath firstPagePath ;;
             ret None
           else if String.eqb ext ".pdf" && String.eqb targetFormat "docx"
           then
             set_outputDirForPdf (outBase +:+ "-docx") ;;
             docxPath <- lift (pdfToDocx h uploadPath (outBase +:+ "-docx")) ;;
             set_outputPath docxPath ;;
             ret None
           else if JS.includes [".jpg"; ".jpeg"; ".png"] ext && String.eqb targetFormat "pdf"
           then
             set_outputPath (outBase +:+ ".pdf") ;;
             lift (imageToPdf h uploadPath (outBase +:+ ".pdf")) ;;
             ret None
           else
             ret (Some (Json 400 (unsupported_message ext targetFormat)))) ;;
        match returned with
        | Some r => ret r
        | None =>
            fr <- frame ;;
            let out := default "" (outputPath fr) in
            let filename := Path.basename h out in
            res_download out filename cleanup
        end
  end.

(** The [catch] block. *)
Definition convert_catch (err : Error) : M Frame Response :=
  lift (console_error ("Convert error: " +:+ message err)) ;;
  cleanup ;;
  ret (Json 500 (if String.eqb (message err) "" then "Conversion failed." else message err)).

Definition convert (req : Req) : M World Response :=
  with_frame (try_catch (convert_try req) convert_catch).

(** *** The middleware in front of the handler

    [upload.single('file')] with the storage, the size limit and the
    filter of lines 41-66. multer asks the filter first, stores an accepted
    file under the name the storage gives, and stops with a [MulterError]
    (leaving no file behind) when the part exceeds the limit; an error goes
    to the framework and the handler is not called. A request without a
    [file] part reaches the handler with [req.file] undefined. *)
Definition file_too_large : Error :=
  mkError "File too large" (Some "LIMIT_FILE_SIZE") None.

Definition upload_single (r : HttpRequest) : M World Req :=
  match part_file r with
  | None => ret (mkReq None (part_targetFormat r))
  | Some file =>
      match fileFilter file with
      | Throw e => throw e
      | Ok false => ret (mkReq None (part_targetFormat r))
      | Ok true =>
          name <- storage_filename h file ;;
          let p := Path.join h (UPLOADS_DIR h) name in
          if Z.ltb limits_fileSize (size file) then throw file_too_large
          else
            Fs.writeFile p (content file) ;;
            ret (mkReq (Some (mkStored (originalname file) (mimetype file) p (size file)))
                       (part_targetFormat r))
      end
  end.

(** Express answers an error no middleware handles with its own page: the
    error's [status] when it is a 4xx or 5xx, otherwise 500. [server.js]
    registers no error-handling middleware. *)
Definition default_error_handler (err : Error) : Response :=
  match status err with
  | Some c => if Z.leb 400 c && Z.ltb c 600 then DefaultError c err else DefaultError 500 err
  | None => DefaultError 500 err
  end.

(** [app.post('/convert', upload.single('file'), handler)] *)
Definition post_convert (r : HttpRequest) : M World Response :=
  parsed <- try_catch (req <- upload_single r ;; ret (inr req)) (fun e => ret (inl e)) ;;
  match parsed with
  | inl e => ret (default_error_handler e)
  | inr req => convert req
  end.

End Handler.

(** ** Start-up (lines 243-270) *)
Section Start.
Variable h : Host.

Definition maxTries : JS.value := JS.Num 5.

Definition is_EADDRINUSE (err : Error) : bool :=
  match code err with
  | Some c => String.eqb c "EADDRINUSE"
  | None => false
  end.

(** [tryListen(p)]. The promise is settled by a chain of [listen] calls of
    no fixed length, so the chain is cut after [fuel] calls: [Some tt] is
    a resolved promise, a thrown error a rejected one, and [None] a chain
    that is still going when the fuel runs out. *)
Fixpoint tryListen (fuel : nat) (p : JS.value) : M World (option unit) :=
  match fuel with
  | O => ret None
  | S fuel' =>
      emit (Listen p) ;;
      match listen h p with
      | None =>
          console_log ("Universal File Converter running at http://localhost:" +:+ JS.toString p) ;;
          ret (Some tt)
      | Some err =>
          if is_EADDRINUSE err && JS.lt p (JS.add (PORT h) maxTries)
          then tryListen fuel' (JS.add p (JS.Num 1))
          else throw err
      end
  end.

Definition start (fuel : nat) : M World (option unit) :=
  ensureDirs h ;;
  let port := PORT h in
  tryListen fuel port.

(** How the process stands after [start().catch(...)]. *)
Inductive Startup :=
| Serving
| Exited (exit_code : Z)
| Pending.

(** lines 267-270 *)
Definition main (fuel : nat) : M World Startup :=
  try_catch
    (r <- start fuel ;;
     ret (match r with Some _ => Serving | None => Pending end))
    (fun err =>
       console_error ("Failed to start server: " +:+ message err) ;;
       emit (Exit 1) ;;
       ret (Exited 1)).

End Start.

(** ** The specification's vocabulary *)
Module Spec.

(** The Compatibility Table: the legal pairs of source extension and
    target format, with the operation each pair selects. *)
Definition compatibility_table : list (string * string * Operation) :=
  [ (".docx", "pdf", OfficeToPdf); (".pptx", "pdf", OfficeToPdf);
    (".xlsx", "pdf", OfficeToPdf);
    (".pdf", "jpg", PdfToJpg);
    (".pdf", "docx", PdfToDocx);
    (".jpg", "pdf", ImageToPdf); (".jpeg", "pdf", ImageToPdf);
    (".png", "pdf", ImageToPdf) ].

Definition route (ext targetFormat : string) : option Operation :=
  snd <$> List.find
            (fun e : string * string * Operation =>
               String.eqb ext e.1.1 && String.eqb targetFormat e.1.2)
            compatibility_table.

(** What the PDF rasterizer is asked for. *)
Record RasterJob := mkJob {
  job_file : string;
  job_format : string;
  job_first : Z;
  job_last : Z;
  job_out_dir : string;
  job_prefix : string
}.

(** "restricted to the first page, JPEG output, with a fixed filename
    prefix" *)
Definition first_page_job (file outputDir : string) : RasterJob :=
  mkJob file "jpeg" 1 1 outputDir "page".

(** The job as a [pdftoppm] command line and as a pdf-poppler options
    object. *)
Definition pdftoppm_args (h : Host) (j : RasterJob) : list string :=
  [ "-" +:+ job_format j; "-f"; JS.show (job_first j); "-l"; JS.show (job_last j);
    job_file j; Path.join h (job_out_dir j) (job_prefix j) ].

Definition poppler_opts (j : RasterJob) : PopplerOpts :=
  mkOpts (job_format j) (job_out_dir j) (job_prefix j) (job_first j).

Definition first_page_file : string := "page-1.jpg".

(** PDF→Image in the specification's words: "create an output directory;
    invoke the PDF rasterizer ...; verify the expected first-page file
    exists; if not, fail with no output produced". *)
Definition PdfToImage (h : Host) (rasterize : M World unit) (outputDir : string)
  : M World string :=
  Fs.ensureDir outputDir ;;
  rasterize ;;
  found <- Fs.pathExists (Path.join h outputDir first_page_file) ;;
  if found then ret (Path.join h outputDir first_page_file)
  else throw (new_Error "PDF to JPG conversion produced no output.").

(** Image→PDF: "a new single-page PDF document sized exactly to the source
    image's pixel dimensions", the image "at full-page offset (0,0) and
    full size". *)
Definition single_page (image : Image) : PDFDocument :=
  [ mkPage (image_width image) (image_height image)
      [ mkDraw image 0 0 (image_width image) (image_height image) ] ].

End Spec.

(** ** Names for what the statements below speak of *)

(** The trace of a state, of the process or of a handler. *)
Class Traced (S : Type) := trace_of : S -> list Event.
#[export] Instance World_traced : Traced World := trace.
#[export] Instance Frame_traced : Traced Frame := fun fr => trace (world fr).

(** Whatever [m] does, it appends to the trace, and only events of [P]. *)
Definition emits {S} `{Traced S} {A} (P : Event -> Prop) (m : M S A) : Prop :=
  forall s, exists l, trace_of (m s).2 = (trace_of s ++ l)%list /\ Forall P l.

(** The events of the converters and of the console, as opposed to the entry
    into a conversion helper. *)
Definition inner (e : Event) : Prop :=
  match e with
  | Enter _ _ _ => False
  | _ => True
  end.

(** [m] first records [e], then only events of the converters. *)
Definition enters {S} `{Traced S} {A} (e : Event) (m : M S A) : Prop :=
  forall s, exists l, trace_of (m s).2 = (trace_of s ++ e :: l)%list /\ Forall inner l.

(** [m] returns without recording anything. *)
Definition quiet {S} `{Traced S} {A} (m : M S A) : Prop :=
  forall s, exists a s', m s = (Ok a, s') /\ trace_of s' = trace_of s.

(** The results a computation can return. *)
Definition yields {S A} (Q : A -> Prop) (m : M S A) : Prop :=
  forall s a s', m s = (Ok a, s') -> Q a.

(** How the handler ends a request: with a JSON error of status 400 or 500,
    with the download, or with nothing sent (the callback of [res.download]
    ignores the error it is given when the file cannot be sent). *)
Definition from_handler (r : Response) : Prop :=
  match r with
  | Json c _ => c = 400 \/ c = 500
  | Download _ _ | NoResponse => True
  | DefaultError _ _ => False
  end.

(** How a request the router has sent to a helper ends: as above, without
    the 400. *)
Definition not_rejected (r : Response) : Prop :=
  match r with
  | Json c _ => c = 500
  | Download _ _ | NoResponse => True
  | DefaultError _ _ => False
  end.

Section Vocabulary.
Variable h : Host.

(** The two strings the router compares (lines 177 and 183). *)
Definition ext_of (file : StoredFile) : string :=
  JS.toLowerCase (Path.extname h (file_originalname file)).

Definition target_of (body : option string) : string :=
  JS.trim (JS.toLowerCase (JS.or_else body "")).

(** The directory the handler makes for the page images of a PDF, when it
    starts in [w] (line 192). *)
Definition pages_dir (file : StoredFile) (w : World) : string :=
  out_base h (file_originalname file) (clock h (ticks w)) +:+ "-pages".

(** The working directory of [pdfToDocx] and the arguments it gives the
    renderer (lines 124 and 134-140). *)
Definition temp_dir (now : Z) : string :=
  Path.join h (OUTPUTS_DIR h) ("lo_" +:+ JS.show now).

Definition renderer_args (tempDir : string) : list string :=
  ["--headless"; "--infilter=writer_pdf_import"; "--convert-to"; "docx";
   "--outdir"; tempDir; Path.join h tempDir "in.pdf"].

(** The codec [imageToPdf] picks for a path (lines 155-157). *)
Definition codec_for (inputPath : string) : Codec :=
  if String.eqb (JS.toLowerCase (Path.extname h inputPath)) ".png" then Png else Jpg.

End Vocabulary.

(** Occurrences of a character, and decimal numerals. *)
Fixpoint occurs (c : ascii) (s : string) : bool :=
  match s with
  | EmptyString => false
  | String x r => Ascii.eqb x c || occurs c r
  end.

Definition is_digit (c : ascii) : bool :=
  let n := nat_of_ascii c in (48 <=? n)%nat && (n <=? 57)%nat.

Fixpoint digits (s : string) : bool :=
  match s with
  | EmptyString => true
  | String x r => is_digit x && digits r
  end.

(** ** Hosts and requests to run the server on *)
Module Scenario.

(** The scratch areas, empty. *)
Definition disk : FS := <["/app/uploads" := Dir]> (<["/app/outputs" := Dir]> ∅).

Definition idle : World := mkWorld disk [] 0.

(** [pdftoppm] writes the first page next to its prefix, [libreoffice] the
    document into its [--outdir]; no other command is installed. *)
Definition installed (cmd : string) (args : list string) (t : option Z) (f : FS)
  : option Error * FS :=
  if String.eqb cmd "pdftoppm"
  then (None, <[default "" (last args) +:+ "-1.jpg" := File "JFIF page 1"]> f)
  else if String.eqb cmd "libreoffice"
  then (None, <[nth 5 args "" +:+ "/in.docx" := File "DOCX"]> f)
  else (Some (Fs.system_error "ENOENT" cmd), f).

Definition not_installed (cmd : string) (args : list string) (t : option Z) (f : FS)
  : option Error * FS :=
  (Some (Fs.system_error "ENOENT" cmd), f).

(** pdf-poppler's [convert], writing the page the options ask for. *)
Definition poppler (file : string) (o : PopplerOpts) (f : FS) : option Error * FS :=
  (None, <[out_dir o +:+ "/" +:+ out_prefix o +:+ "-" +:+ JS.show (page o) +:+ ".jpg"
           := File "JFIF page 1"]> f).

Definition decode (w ht : Z) (data : string) : Error + Z * Z :=
  if String.eqb data "" then inl (new_Error "SOI not found") else inr (w, ht).

Definition host (platform : string) (port : option string)
    (clock : nat -> Z)
    (pdf_poppler : option (option (string -> PopplerOpts -> FS -> option Error * FS)))
    (exec : string -> list string -> option Z -> FS -> option Error * FS)
    (listen : JS.value -> option Error) : Host :=
  mkHost "/app" platform
    (fun v => if String.eqb v "PORT" then port else None)
    clock pdf_poppler
    (fun doc fmt => inr ("%PDF of " +:+ doc))
    exec
    (decode 640 480) (decode 800 600)
    (fun doc => "%PDF " +:+ JS.show (Z.of_nat (length doc)) +:+ " page(s)")
    (fun _ => None)
    listen.

Definition ticking (n : nat) : Z := 1700000000000 + Z.of_nat n.
Definition stuck (n : nat) : Z := 1700000000000.

Definition free (p : JS.value) : option Error := None.

(** Port 3000 is taken, under either spelling. *)
Definition port_3000_taken (p : JS.value) : option Error :=
  match p with
  | JS.Num 3000 | JS.Str "3000" =>
      Some (mkError "listen EADDRINUSE: address already in use :::3000"
                    (Some "EADDRINUSE") None)
  | _ => None
  end.

(** A Linux machine with poppler-utils and LibreOffice. *)
Definition linux : Host := host "linux" None ticking None installed free.

(** A Linux machine with no converter. *)
Definition bare_linux : Host := host "linux" None ticking None not_installed free.

(** A Mac with pdf-poppler, and one where the module does not load. *)
Definition mac : Host := host "darwin" None ticking (Some (Some poppler)) not_installed free.
Definition mac_without_poppler : Host := host "darwin" None ticking None not_installed free.

(** A Linux machine whose clock does not advance between two readings. *)
Definition same_millisecond : Host := host "linux" None stuck None installed free.

(** Every port is taken. *)
Definition taken (p : JS.value) : option Error :=
  Some (mkError "listen EADDRINUSE: address already in use" (Some "EADDRINUSE") None).

Definition crowded : Host := host "linux" None ticking None installed taken.

(** A deployment that sets [PORT=3000] while another process holds the
    port, and one that leaves [PORT] unset. *)
Definition port_from_env : Host :=
  host "linux" (Some "3000") ticking None installed port_3000_taken.
Definition port_default : Host :=
  host "linux" None ticking None installed port_3000_taken.

Definition pdf_upload : Upload := mkUpload "report.pdf" "application/pdf" 2048 "%PDF-1.7".
Definition txt_upload : Upload := mkUpload "notes.txt" "text/plain" 12 "hello".
Definition big_upload : Upload :=
  mkUpload "scan.pdf" "application/pdf" (25 * 1024 * 1024) "%PDF-1.7".

End Scenario.

(** ** Names for the statements about the clean-up, the names and the
    start-up *)

(** The three variables of the handler, in the order the clean-up block
    goes through them. *)
Definition recorded (fr : Frame) : list (option string) :=
  [uploadPath fr; outputPath fr; outputDirForPdf fr].

(** The file system after [if (v && (await fs.pathExists(v))) await
    fs.remove(v)], when the removal does not fail. *)
Definition swept (h : Host) (v : option string) (f : FS) : FS :=
  if JS.truthy v && Fs.existsSync f (default "" v) then Fs.prune h (default "" v) f else f.



(** None of the paths the handler recorded exists. *)
Definition all_gone (fr : Frame) : Prop :=
  forall p, In (Some p) (recorded fr) -> p <> "" -> fs (world fr) !! p = None.

(** A property of the three variables of the handler. *)
Definition on_vars (Q : option string -> option string -> option string -> Prop)
    (fr : Frame) : Prop :=
  Q (uploadPath fr) (outputPath fr) (outputDirForPdf fr).

(** How the [try] block ends: with the clean-up done, or with an error for
    the [catch] block; the variables are of [Q] on both. *)
Definition cleaned (Q : option string -> option string -> option string -> Prop)
    (r : Result Response) (fr : Frame) : Prop :=
  on_vars Q fr /\ match r with Ok _ => all_gone fr | Throw _ => True end.

(** The path the handler records for the output before it calls the helper
    of [op]: a file for the office and the image helper, a directory for the
    two PDF helpers (lines 189, 192, 196 and 200). *)
Definition made (op : Operation) (outBase : string) : string :=
  match op with
  | OfficeToPdf | ImageToPdf => outBase +:+ ".pdf"
  | PdfToJpg => outBase +:+ "-pages"
  | PdfToDocx => outBase +:+ "-docx"
  end.

(** The variables hold the upload [up], and the output [m] as the output
    path or as the output directory. *)
Definition holds (up m : string) (u o d : option string) : Prop :=
  u = Some up /\ (o = Some m \/ d = Some m).

(** [m], started in a state of [P], ends with a result and a state of [Q]. *)
Definition triple {S A} (P : S -> Prop) (m : M S A) (Q : Result A -> S -> Prop) : Prop :=
  forall s, P s -> Q (m s).1 (m s).2.

(** [m] keeps [P], however it ends. *)
Definition keeps {S A} (P : S -> Prop) (m : M S A) : Prop :=
  triple P m (fun _ s => P s).

(** [s] has a path separator of the host. *)
Definition separators (h : Host) (s : string) : bool :=
  existsb (Path.is_sep h) (list_ascii_of_string s).

(** The ports [start] asks for one after the other when [PORT] is unset:
    3000, 3001, ... *)
Definition candidate (j : nat) : JS.value := JS.Num (3000 + Z.of_nat j).

(** [listen] reports the port as taken. *)
Definition in_use (h : Host) (p : JS.value) : Prop :=
  exists err, listen h p = Some err /\ is_EADDRINUSE err = true.

(** The line [tryListen] logs when the server listens (line 251). *)
Definition running_at (p : JS.value) : Event :=
  ConsoleLog ("Universal File Converter running at http://localhost:" +:+ JS.toString p).

(** ** More hosts, states and requests *)
Module Cases.

Definition busy : Error := mkError "EBUSY: resource busy or locked" (Some "EBUSY") None.

Definition denied : Error := mkError "listen EACCES: permission denied" (Some "EACCES") None.

Definition address_in_use : Error :=
  mkError "listen EADDRINUSE: address already in use" (Some "EADDRINUSE") None.

(** A Linux machine on which nothing below [dir] can be removed. *)
Definition locked (dir : string) : Host :=
  mkHost "/app" "linux" (fun _ => None) Scenario.ticking None
    (fun doc fmt => inr ("%PDF of " +:+ doc))
    Scenario.installed
    (Scenario.decode 640 480) (Scenario.decode 800 600)
    (fun doc => "%PDF " +:+ JS.show (Z.of_nat (length doc)) +:+ " page(s)")
    (fun p => if String.prefix dir p then Some busy else None)
    Scenario.free.

Definition locked_uploads : Host := locked "/app/uploads/".
Definition locked_outputs : Host := locked "/app/outputs/".

(** The first [k] of the default ports are taken. *)
Definition first_taken (k : Z) (p : JS.value) : option Error :=
  match p with
  | JS.Num n => if Z.ltb n (3000 + k) then Some address_in_use else None
  | JS.Str _ => None
  end.

Definition two_taken : Host :=
  Scenario.host "linux" None Scenario.ticking None Scenario.installed (first_taken 2).

(** The process may not listen at all. *)
Definition unprivileged : Host :=
  Scenario.host "linux" None Scenario.ticking None Scenario.installed (fun _ => Some denied).

(** A file sits where the uploads directory is to be. *)
Definition blocked : World := mkWorld (<["/app/uploads" := File "not a directory"]> ∅) [] 0.

(** A request at the moment of its clean-up: the upload, the page sent and
    the directory made for the pages. *)
Definition served : Frame :=
  mkFrame (Some "/app/uploads/a-1.pdf") (Some "/app/outputs/a-2-pages/page-1.jpg")
    (Some "/app/outputs/a-2-pages")
    (mkWorld (<["/app/uploads/a-1.pdf" := File "%PDF-1.7"]>
                (<["/app/outputs/a-2-pages" := Dir]>
                   (<["/app/outputs/a-2-pages/page-1.jpg" := File "JFIF page 1"]> Scenario.disk)))
       [] 2).




(** A Linux machine whose renderer ends without an error and writes
    nothing. *)
Definition silent : Host :=
  Scenario.host "linux" None Scenario.ticking None (fun _ _ _ f => (None, f)) Scenario.free.

(** A stored PDF, and the working directory of another conversion that took
    the same reading of the clock (the third), with the document the
    renderer left there. *)
Definition shared_working_directory : World :=
  mkWorld (<["/app/outputs/lo_1700000000002/in.docx" := File "DOCX of another request"]>
             (<["/app/outputs/lo_1700000000002" := Dir]>
                (<["/app/uploads/report-17.pdf" := File "%PDF-1.7"]> Scenario.disk)))
    [] 2.

(** The uploads area with a stored PDF. *)
Definition with_report : World :=
  mkWorld (<["/app/uploads/report-1700000000000.pdf" := File "%PDF-1.7"]> Scenario.disk) [] 1.

Definition stored_report : StoredFile :=
  mkStored "report.pdf" "application/pdf" "/app/uploads/report-1700000000000.pdf" 2048.

End Cases.

(** ** The page script (the front end served from [public/])

    The script keeps one variable, [selectedFile], and otherwise reads and
    writes properties of ten elements of the page. Its functions are state
    transformers on a record of these properties; a class list is the flag of
    the one class the script toggles on it. *)
Module Client.

Definition MAX_SIZE_MB : Z := 20.
Definition MAX_SIZE_BYTES : Z := MAX_SIZE_MB * 1024 * 1024.

(** [s.endsWith(suffix)] *)
Fixpoint endsWith (s suffix : string) : bool :=
  String.eqb s suffix ||
  match s with
  | EmptyString => false
  | String _ r => endsWith r suffix
  end.

(** An element with a [hidden] class and a text: [fileInfo] with its
    [.file-name], and [formatHint]. *)
Record Box := mkBox {
  box_hidden : bool;
  box_text : string
}.

(** [messageEl]: [textContent], [className], and [hidden] in its class
    list. *)
Record Message := mkMessage {
  msg_text : string;
  msg_class : string;
  msg_hidden : bool
}.

(** [targetFormatSelect]: its value and the [disabled] flags of its options.
    The page has the options [pdf] and [jpg]; the script allows for a page
    without the option [docx]. *)
Record Select := mkSelect {
  select_value : string;
  pdf_disabled : bool;
  jpg_disabled : bool;
  docx_disabled : option bool
}.

(** [downloadLink] *)
Record Link := mkLink {
  link_hidden : bool;
  link_href : string;
  link_download : string
}.

(** The browser's [File] has the fields of the part it is sent as: [name]
    is [originalname], [type] is [mimetype]. *)
Record Dom := mkDom {
  selectedFile : option Upload;
  dropZone_dragover : bool;
  fileInfo : Box;
  fileInput_value : string;
  targetFormatSelect : Select;
  formatHint : Box;
  convertBtn_disabled : bool;
  spinner_hidden : bool;
  messageEl : Message;
  downloadLink : Link
}.

Definition set_selectedFile (v : option Upload) (d : Dom) : Dom :=
  mkDom v (dropZone_dragover d) (fileInfo d) (fileInput_value d) (targetFormatSelect d)
    (formatHint d) (convertBtn_disabled d) (spinner_hidden d) (messageEl d) (downloadLink d).

Definition set_dragover (v : bool) (d : Dom) : Dom :=
  mkDom (selectedFile d) v (fileInfo d) (fileInput_value d) (targetFormatSelect d)
    (formatHint d) (convertBtn_disabled d) (spinner_hidden d) (messageEl d) (downloadLink d).

Definition set_fileInfo (v : Box) (d : Dom) : Dom :=
  mkDom (selectedFile d) (dropZone_dragover d) v (fileInput_value d) (targetFormatSelect d)
    (formatHint d) (convertBtn_disabled d) (spinner_hidden d) (messageEl d) (downloadLink d).

Definition set_fileInput_value (v : string) (d : Dom) : Dom :=
  mkDom (selectedFile d) (dropZone_dragover d) (fileInfo d) v (targetFormatSelect d)
    (formatHint d) (convertBtn_disabled d) (spinner_hidden d) (messageEl d) (downloadLink d).

Definition set_select (v : Select) (d : Dom) : Dom :=
  mkDom (selectedFile d) (dropZone_dragover d) (fileInfo d) (fileInput_value d) v
    (formatHint d) (convertBtn_disabled d) (spinner_hidden d) (messageEl d) (downloadLink d).

Definition set_formatHint (v : Box) (d : Dom) : Dom :=
  mkDom (selectedFile d) (dropZone_dragover d) (fileInfo d) (fileInput_value d)
    (targetFormatSelect d) v (convertBtn_disabled d) (spinner_hidden d) (messageEl d)
    (downloadLink d).

Definition set_convertBtn_disabled (v : bool) (d : Dom) : Dom :=
  mkDom (selectedFile d) (dropZone_dragover d) (fileInfo d) (fileInput_value d)
    (targetFormatSelect d) (formatHint d) v (spinner_hidden d) (messageEl d) (downloadLink d).

Definition set_spinner_hidden (v : bool) (d : Dom) : Dom :=
  mkDom (selectedFile d) (dropZone_dragover d) (fileInfo d) (fileInput_value d)
    (targetFormatSelect d) (formatHint d) (convertBtn_disabled d) v (messageEl d)
    (downloadLink d).

Definition set_messageEl (v : Message) (d : Dom) : Dom :=
  mkDom (selectedFile d) (dropZone_dragover d) (fileInfo d) (fileInput_value d)
    (targetFormatSelect d) (formatHint d) (convertBtn_disabled d) (spinner_hidden d) v
    (downloadLink d).

Definition set_downloadLink (v : Link) (d : Dom) : Dom :=
  mkDom (selectedFile d) (dropZone_dragover d) (fileInfo d) (fileInput_value d)
    (targetFormatSelect d) (formatHint d) (convertBtn_disabled d) (spinner_hidden d)
    (messageEl d) v.

(** [targetFormatSelect.value = v], for a value the page has an option
    for. *)
Definition set_value (v : string) (d : Dom) : Dom :=
  let s := targetFormatSelect d in
  set_select (mkSelect v (pdf_disabled s) (jpg_disabled s) (docx_disabled s)) d.

(** [el.classList.add('hidden')] and [el.classList.remove('hidden')] on the
    download link. *)
Definition set_link_hidden (v : bool) (d : Dom) : Dom :=
  let l := downloadLink d in
  set_downloadLink (mkLink v (link_href l) (link_download l)) d.

(** lines 23-27 *)
Definition showMessage (text type : string) (d : Dom) : Dom :=
  set_messageEl
    (mkMessage text ("message " +:+ (if String.eqb type "error" then "error" else "success"))
       false) d.

(** lines 29-31 *)
Definition hideMessage (d : Dom) : Dom :=
  let m := messageEl d in
  set_messageEl (mkMessage (msg_text m) (msg_class m) true) d.

(** lines 33-35: [classList.toggle('hidden', !show)] *)
Definition showSpinner (show : bool) (d : Dom) : Dom :=
  set_spinner_hidden (negb show) d.

(** lines 37-41 *)
Definition setConvertEnabled (d : Dom) : Dom :=
  let hasFile := match selectedFile d with Some _ => true | None => false end in
  let hasFormat := negb (String.eqb (select_value (targetFormatSelect d)) "") in
  set_convertBtn_disabled (negb hasFile || negb hasFormat) d.

Definition allowed : list string :=
  [ "application/vnd.openxmlformats-officedocument.wordprocessingml.document";
    "application/vnd.openxmlformats-officedocument.presentationml.presentation";
    "application/vnd.openxmlformats-officedocument.spreadsheetml.sheet";
    "application/pdf";
    "image/jpeg";
    "image/png" ].

(** [if (docxOpt) docxOpt.disabled = v] *)
Definition set_docx (v : bool) (o : option bool) : option bool :=
  match o with
  | Some _ => Some v
  | None => None
  end.

(** The three shapes the select is given (lines 133-136, 140-143, 147-150):
    which options are disabled, and the value that replaces a value now
    disabled. *)
Definition to_pdf_only (s : Select) : Select :=
  mkSelect
    (if String.eqb (select_value s) "jpg" || String.eqb (select_value s) "docx"
     then "pdf" else select_value s)
    false true (set_docx true (docx_disabled s)).

Definition from_pdf_only (s : Select) : Select :=
  mkSelect
    (if String.eqb (select_value s) "pdf" then "jpg" else select_value s)
    true false (set_docx false (docx_disabled s)).

Definition pdf_hint : string :=
  "From PDF you can convert to JPG image (first page) or DOCX document.".

(** lines 116-161 *)
Definition updateFormatOptions (d : Dom) : Dom :=
  let opt := targetFormatSelect d in
  match selectedFile d with
  | None =>
      setConvertEnabled
        (set_formatHint (mkBox true "")
           (set_select (mkSelect "" false false (set_docx false (docx_disabled opt))) d))
  | Some file =>
      let name := JS.toLowerCase (originalname file) in
      setConvertEnabled
        (if endsWith name ".docx" || endsWith name ".pptx" || endsWith name ".xlsx"
         then set_formatHint (mkBox true "") (set_select (to_pdf_only opt) d)
         else if endsWith name ".pdf"
         then set_formatHint (mkBox false pdf_hint) (set_select (from_pdf_only opt) d)
         else if endsWith name ".jpg" || endsWith name ".jpeg" || endsWith name ".png"
         then set_formatHint (mkBox true "") (set_select (to_pdf_only opt) d)
         else
           set_formatHint (mkBox true "")
             (set_select
                (mkSelect (select_value opt) false false (set_docx false (docx_disabled opt)))
                d))
  end.

Definition too_large : string :=
  "File is too large. Maximum size is " +:+ JS.show MAX_SIZE_MB +:+ "MB.".

Definition not_supported : string :=
  "File type not supported. Use DOCX, PPTX, XLSX, PDF, JPG, or PNG.".

(** lines 43-75 *)
Definition setFile (file : option Upload) (d : Dom) : Dom :=
  match file with
  | None =>
      setConvertEnabled
        (set_fileInput_value ""
           (set_fileInfo (mkBox true (box_text (fileInfo d)))
              (set_selectedFile None d)))
  | Some f =>
      if Z.ltb MAX_SIZE_BYTES (size f) then showMessage too_large "error" d
      else if negb (JS.includes allowed (mimetype f)) then showMessage not_supported "error" d
      else
        updateFormatOptions
          (hideMessage
             (set_fileInfo (mkBox false (originalname f))
                (set_selectedFile (Some f) d)))
  end.

(** What the user and the browser do to the page: the listeners of lines
    80-114 and the callback of the timer of line 207. [Drop] and [Pick] carry
    the list of files of the event; [Choose] is the user picking an option of
    the select, which sets its value before the listener runs. *)
Inductive Gesture :=
| DragOver
| DragLeave
| Drop (files : list Upload)
| Pick (files : list Upload)
| Clear
| Choose (v : string)
| Timer.

(** lines 207-215 *)
Definition reset (d : Dom) : Dom :=
  updateFormatOptions
    (set_value ""
       (setFile None
          (set_downloadLink (mkLink true "#" "")
             (hideMessage d)))).

Definition listener (g : Gesture) (d : Dom) : Dom :=
  match g with
  | DragOver => set_dragover true d
  | DragLeave => set_dragover false d
  | Drop files =>
      let d := set_dragover false d in
      match files with
      | file :: _ => setFile (Some file) d
      | [] => d
      end
  | Pick files =>
      match files with
      | file :: _ => setFile (Some file) d
      | [] => d
      end
  | Clear => updateFormatOptions (setFile None d)
  | Choose v => setConvertEnabled (hideMessage (set_value v d))
  | Timer => reset d
  end.

(** *** The click on Convert (lines 164-222) *)

(** The request the script sends: the file and the value of the select. *)
Definition formData (d : Dom) : HttpRequest :=
  mkHttp (selectedFile d) (Some (select_value (targetFormatSelect d))).

(** Up to the [fetch]: nothing is sent without a file and a format;
    otherwise the page shows the spinner and the request goes out. *)
Definition click (d : Dom) : option (HttpRequest * Dom) :=
  match selectedFile d with
  | None => None
  | Some _ =>
      if String.eqb (select_value (targetFormatSelect d)) "" then None
      else
        Some (formData d,
              set_convertBtn_disabled true
                (showSpinner true (set_link_hidden true (hideMessage d))))
  end.

(** What comes back: a rejected [fetch] with its message, or a response with
    its status, the [error] field of its body when the body is JSON and has
    one, its [Content-Disposition] header, and the URL the browser makes for
    its blob. *)
Inductive Reply :=
| Rejected (msg : string)
| Http (code : Z) (error : option string) (disposition : option string) (url : string).

Definition quote : string := String (ascii_of_nat 34) "".

(** The characters the class of the regular expression of line 191
    excludes: the double quote, the semicolon and the line feed. *)
Definition stops (c : ascii) : bool :=
  let n := nat_of_ascii c in
  (n =? 34)%nat || (n =? 59)%nat || (n =? 10)%nat.

(** The longest prefix without a stop. *)
Fixpoint run (s : string) : string :=
  match s with
  | EmptyString => EmptyString
  | String c r => if stops c then EmptyString else String c (run r)
  end.

(** [s] without the prefix [p], when it starts with it. *)
Fixpoint strip_prefix (p s : string) : option string :=
  match p, s with
  | EmptyString, _ => Some s
  | String a p', String b s' => if Ascii.eqb a b then strip_prefix p' s' else None
  | String _ _, EmptyString => None
  end.

(** A match of the regular expression of line 191 that starts at the first
    character of [s]: the text [filename=], a double quote or none, and the
    group, which is the longest run of one or more characters outside the
    class; the closing quote is optional. The result is the group. *)
Definition filename_here (s : string) : option string :=
  match strip_prefix "filename=" s with
  | None => None
  | Some rest =>
      let rest := match strip_prefix quote rest with Some r => r | None => rest end in
      if String.eqb (run rest) "" then None else Some (run rest)
  end.

(** [disposition.match(...)]: the group of the leftmost match. *)
Fixpoint match_filename (s : string) : option string :=
  match filename_here s with
  | Some name => Some name
  | None =>
      match s with
      | EmptyString => None
      | String _ r => match_filename r
      end
  end.

(** lines 188-195: the name the download is saved under. *)
Definition download_name (disposition : option string) (value : string) : string :=
  let outName :=
    if JS.truthy disposition
    then match match_filename (default "" disposition) with
         | Some group => JS.trim group
         | None => "converted"
         end
    else "converted" in
  let ext := if String.eqb value "" then "pdf" else value in
  if negb (endsWith (JS.toLowerCase outName) ("." +:+ ext))
  then outName +:+ "." +:+ ext
  else outName.

(** The [try] block: the error it throws, or the page after the download
    was started. *)
Definition received (r : Reply) (d : Dom) : Error + Dom :=
  match r with
  | Rejected msg => inl (new_Error msg)
  | Http code error disposition url =>
      if negb (Z.leb 200 code && Z.leb code 299)
      then inl (new_Error (if JS.truthy error then default "" error
                           else "Server error: " +:+ JS.show code))
      else
        let outName := download_name disposition (select_value (targetFormatSelect d)) in
        inr (showMessage "Conversion complete. Download complete." "success"
               (set_downloadLink (mkLink false url outName) d))
  end.

(** The handler from the answer of [fetch] on, with its [catch] and
    [finally]. *)
Definition answered (r : Reply) (d : Dom) : Dom :=
  let d :=
    match received r d with
    | inr d' => d'
    | inl err =>
        showMessage (if String.eqb (message err) "" then "Conversion failed." else message err)
          "error" d
    end in
  setConvertEnabled (showSpinner false d).

(** Statements about the page. *)

(** The flag of the option the select shows. *)
Definition chosen_disabled (s : Select) : bool :=
  if String.eqb (select_value s) "pdf" then pdf_disabled s
  else if String.eqb (select_value s) "jpg" then jpg_disabled s
  else if String.eqb (select_value s) "docx" then default false (docx_disabled s)
  else false.

(** The Convert button is enabled exactly when a file is selected and a
    format is chosen. *)
Definition button_follows (d : Dom) : Prop :=
  convertBtn_disabled d =
  negb (match selectedFile d with Some _ => true | None => false end
        && negb (String.eqb (select_value (targetFormatSelect d)) "")).

(** The last character of a string. *)
Fixpoint final (s : string) : option ascii :=
  match s with
  | EmptyString => None
  | String c EmptyString => Some c
  | String _ r => final r
  end.

(** A page as it loads, and one with a PDF selected. *)
Definition fresh : Dom :=
  mkDom None false (mkBox true "") "" (mkSelect "" false false (Some false)) (mkBox true "")
    true true (mkMessage "" "message hidden" true) (mkLink true "#" "").

End Client.

(** ** The header of the download

    [res.download(path, filename, fn)] sets [Content-Disposition] to
    [contentDisposition(filename)] of the package content-disposition, with
    the type [attachment] and the fallback on. *)
Module Disposition.

Fixpoint all (p : ascii -> bool) (s : string) : bool :=
  match s with
  | EmptyString => true
  | String c r => p c && all p r
  end.

Fixpoint map (f : ascii -> ascii) (s : string) : string :=
  match s with
  | EmptyString => EmptyString
  | String c r => String (f c) (map f r)
  end.

Fixpoint flat_map (f : ascii -> string) (s : string) : string :=
  match s with
  | EmptyString => EmptyString
  | String c r => f c +:+ flat_map f r
  end.

(** The class of [TEXT_REGEXP]: U+0020-U+007E and U+0080-U+00FF. *)
Definition is_text (c : ascii) : bool :=
  let n := nat_of_ascii c in
  ((32 <=? n)%nat && (n <=? 126)%nat) || (128 <=? n)%nat.

(** The characters [NON_LATIN1_REGEXP] leaves: U+0020-U+007E and
    U+00A0-U+00FF. *)
Definition is_latin1 (c : ascii) : bool :=
  let n := nat_of_ascii c in
  ((32 <=? n)%nat && (n <=? 126)%nat) || (160 <=? n)%nat.

(** [getlatin1]: every other character becomes a question mark. *)
Definition getlatin1 (val : string) : string :=
  map (fun c => if is_latin1 c then c else "?"%char) val.

(** [qstring]: the value in double quotes, with a backslash before every
    backslash and every double quote. *)
Definition qstring (val : string) : string :=
  Client.quote
  +:+ flat_map (fun c => if Ascii.eqb c "\" || (nat_of_ascii c =? 34)%nat
                         then String "\" (String c "") else String c "") val
  +:+ Client.quote.

Definition is_hex (c : ascii) : bool :=
  let n := nat_of_ascii c in
  ((48 <=? n)%nat && (n <=? 57)%nat) || ((65 <=? n)%nat && (n <=? 70)%nat)
  || ((97 <=? n)%nat && (n <=? 102)%nat).

(** [HEX_ESCAPE_REGEXP.test]: a percent sign and two hexadecimal digits. *)
Fixpoint has_hex_escape (s : string) : bool :=
  match s with
  | EmptyString => false
  | String c r =>
      (Ascii.eqb c "%"
       && match r with
          | String a (String b _) => is_hex a && is_hex b
          | _ => false
          end)
      || has_hex_escape r
  end.

Definition hex_digit (n : nat) : ascii :=
  if (n <? 10)%nat then ascii_of_nat (48 + n) else ascii_of_nat (55 + n).

(** A percent sign and the two upper-case hexadecimal digits of a byte. *)
Definition percent (n : nat) : string :=
  String "%" (String (hex_digit (n / 16)) (String (hex_digit (n mod 16)) "")).

(** The characters that [encodeURIComponent] and then [pencode] both leave:
    letters, digits, and the marks [-], [_], [.], [!] and [~]. *)
Definition unreserved (c : ascii) : bool :=
  let n := nat_of_ascii c in
  ((48 <=? n)%nat && (n <=? 57)%nat) || ((65 <=? n)%nat && (n <=? 90)%nat)
  || ((97 <=? n)%nat && (n <=? 122)%nat)
  || (n =? 45)%nat || (n =? 95)%nat || (n =? 46)%nat || (n =? 33)%nat || (n =? 126)%nat.

(** [ustring]: the value percent-encoded as UTF-8 (two bytes for a code
    unit from U+0080 on), after the charset tag. *)
Definition ustring (val : string) : string :=
  "UTF-8''"
  +:+ flat_map (fun c =>
                  let n := nat_of_ascii c in
                  if unreserved c then String c ""
                  else if (n <? 128)%nat then percent n
                  else percent (192 + n / 64) +:+ percent (128 + n mod 64)) val.

(** [contentDisposition(filename)]: [createparams] and [format]. The
    parameter [filename] is there when the base name is text or differs from
    its fallback, and [filename*] follows it when the fallback differs, the
    name is not text, or it has a percent escape. *)
Definition contentDisposition (h : Host) (filename : string) : string :=
  let name := Path.basename h filename in
  let isQuotedString := negb (String.eqb name "") && all is_text name in
  let fallbackName := getlatin1 name in
  let hasFallback := negb (String.eqb fallbackName name) in
  "attachment"
  +:+ (if isQuotedString || hasFallback
       then "; filename=" +:+ qstring (if hasFallback then fallbackName else name)
       else "")
  +:+ (if hasFallback || negb isQuotedString || has_hex_escape name
       then "; filename*=" +:+ ustring name
       else "").

(** A character a name is sent and read back with: one of the class of
    [getlatin1] that is no double quote, backslash or semicolon (the script
    stops at the first and the last, the package escapes the first two) and
    no slash or colon (which [basename] cuts at, on one platform or the
    other). *)
Definition plain (c : ascii) : bool :=
  is_latin1 c
  && negb ((nat_of_ascii c =? 34)%nat || Ascii.eqb c "\" || Ascii.eqb c ";"
           || Ascii.eqb c "/" || Ascii.eqb c ":").

End Disposition.

(** * Properties *)

Example show_3000 : JS.show 3000 = "3000". Proof. reflexivity. Qed.
Example trim_lower : JS.trim (JS.toLowerCase "  PDF ") = "pdf". Proof. reflexivity. Qed.
Example add_str : JS.add (JS.Str "3000") (JS.Num 5) = JS.Str "30005". Proof. reflexivity. Qed.


(** ** How a computation extends the trace *)

Section Emits.
Context {S : Type} `{Traced S} (P : Event -> Prop).

Lemma emits_ret {A} (a : A) : emits P (ret a : M S A).
Proof. intros s. exists []. simpl. rewrite app_nil_r. auto. Qed.

Lemma emits_throw {A} (e : Error) : emits P (throw e : M S A).
Proof. intros s. exists []. simpl. rewrite app_nil_r. auto. Qed.

Lemma emits_bind {A B} (m : M S A) (k : A -> M S B) :
  emits P m -> (forall a, emits P (k a)) -> emits P (bind m k).
Proof.
  intros Hm Hk s. unfold bind. destruct (Hm s) as (l1 & E1 & F1).
  destruct (m s) as [[a|e] s1]; simpl in *.
  - destruct (Hk a s1) as (l2 & E2 & F2). exists (l1 ++ l2)%list.
    rewrite E2, E1, app_assoc. split; [reflexivity|]. apply Forall_app; auto.
  - exists l1. auto.
Qed.

Lemma emits_try_catch {A} (m : M S A) (k : Error -> M S A) :
  emits P m -> (forall e, emits P (k e)) -> emits P (try_catch m k).
Proof.
  intros Hm Hk s. unfold try_catch. destruct (Hm s) as (l1 & E1 & F1).
  destruct (m s) as [[a|e] s1]; simpl in *.
  - exists l1. auto.
  - destruct (Hk e s1) as (l2 & E2 & F2). exists (l1 ++ l2)%list.
    rewrite E2, E1, app_assoc. split; [reflexivity|]. apply Forall_app; auto.
Qed.

Lemma emits_try_finally {A} (m : M S A) (f : M S unit) :
  emits P m -> emits P f -> emits P (try_finally m f).
Proof.
  intros Hm Hf s. unfold try_finally. destruct (Hm s) as (l1 & E1 & F1).
  destruct (m s) as [r s1]; simpl in *.
  destruct (Hf s1) as (l2 & E2 & F2).
  exists (l1 ++ l2)%list. split.
  - destruct (f s1) as [[[]|e] s2]; simpl in *; rewrite E2, E1, app_assoc; reflexivity.
  - apply Forall_app; auto.
Qed.

Lemma emits_swallow (m : M S unit) : emits P m -> emits P (swallow m).
Proof. intros Hm. apply emits_try_catch; [assumption|]. intros _. apply emits_ret. Qed.

End Emits.

Lemma emits_silent {S} `{Traced S} {A} (P : Event -> Prop) (m : M S A) :
  (forall s, trace_of (m s).2 = trace_of s) -> emits P m.
Proof. intros E s. exists []. rewrite app_nil_r. auto. Qed.

Lemma emits_emit (P : Event -> Prop) (e : Event) : P e -> emits P (emit e).
Proof. intros Pe w. exists [e]. simpl. auto. Qed.

Lemma emits_lift {A} (P : Event -> Prop) (m : M World A) :
  emits P m -> emits P (lift m).
Proof.
  intros Hm fr. destruct (Hm (world fr)) as (l & E & F). exists l.
  unfold lift. destruct (m (world fr)) as [r w]. simpl in *. auto.
Qed.

Ltac silent := apply emits_silent; intros []; reflexivity.

Ltac emits_step :=
  first
    [ apply emits_ret | apply emits_throw
    | apply emits_emit; exact I
    | apply emits_swallow | apply emits_lift
    | apply emits_bind; [| intros ?]
    | apply emits_try_catch; [| intros ?]
    | apply emits_try_finally
    | match goal with
      | |- emits _ (if ?b then _ else _) => destruct b
      | |- emits _ (match ?x with _ => _ end) => destruct x
      | |- emits _ (let (_, _) := ?x in _) => destruct x
      end
    | silent ].

Ltac emits_auto := repeat emits_step.

Section HelpersEmit.
Variable h : Host.

Lemma emits_ensureDir p : emits inner (Fs.ensureDir p).
Proof. unfold Fs.ensureDir, read_fs, modify_fs. emits_auto. Qed.

Lemma emits_pathExists p : emits inner (Fs.pathExists p).
Proof. unfold Fs.pathExists, read_fs. emits_auto. Qed.

Lemma emits_readFile p : emits inner (Fs.readFile p).
Proof. unfold Fs.readFile, read_fs. emits_auto. Qed.

Lemma emits_writeFile p d : emits inner (Fs.writeFile p d).
Proof. unfold Fs.writeFile, read_fs, modify_fs. emits_auto. Qed.

Lemma emits_remove p : emits inner (Fs.remove h p).
Proof. unfold Fs.remove, modify_fs. emits_auto. Qed.

Lemma emits_copy p q : emits inner (Fs.copy h p q).
Proof. unfold Fs.copy, read_fs, modify_fs. emits_auto. Qed.

Lemma emits_move p q : emits inner (Fs.move h p q).
Proof. unfold Fs.move, read_fs, modify_fs. emits_auto. Qed.

Lemma emits_Date_now : emits inner (Fs.Date_now h).
Proof. silent. Qed.

Lemma emits_execFileAsync c a t : emits inner (execFileAsync h c a t).
Proof.
  unfold execFileAsync. emits_step. { emits_auto. }
  apply emits_silent. intros [f t0 n]. simpl. destruct (exec_file _ _ _ _ _). reflexivity.
Qed.
End HelpersEmit.

Section Enters.
Context {S : Type} `{Traced S}.

Lemma enters_after {A B} e (m : M S A) (k : A -> M S B) :
  quiet m -> (forall a, enters e (k a)) -> enters e (bind m k).
Proof.
  intros Hm Hk s. destruct (Hm s) as (a & s' & E & T). unfold bind. rewrite E.
  destruct (Hk a s') as (l & El & Fl). exists l. rewrite El, T. auto.
Qed.

Lemma enters_bind {A B} e (m : M S A) (k : A -> M S B) :
  enters e m -> (forall a, emits inner (k a)) -> enters e (bind m k).
Proof.
  intros Hm Hk s. destruct (Hm s) as (l & E & F). unfold bind.
  destruct (m s) as [[a|err] s1]; simpl in *.
  - destruct (Hk a s1) as (l2 & E2 & F2). exists (l ++ l2)%list.
    rewrite E2, E, <- app_assoc. split; [reflexivity|]. apply Forall_app; auto.
  - exists l. auto.
Qed.

Lemma enters_try_catch {A} e (m : M S A) (k : Error -> M S A) :
  enters e m -> (forall err, emits inner (k err)) -> enters e (try_catch m k).
Proof.
  intros Hm Hk s. destruct (Hm s) as (l & E & F). unfold try_catch.
  destruct (m s) as [[a|err] s1]; simpl in *.
  - exists l. auto.
  - destruct (Hk err s1) as (l2 & E2 & F2). exists (l ++ l2)%list.
    rewrite E2, E, <- app_assoc. split; [reflexivity|]. apply Forall_app; auto.
Qed.
End Enters.

Lemma enters_emit {A} e (k : M World A) :
  emits inner k -> enters e (bind (emit e) (fun _ => k)).
Proof.
  intros Hk [f t n]. unfold bind, emit. cbn [fs trace ticks].
  destruct (Hk (mkWorld f (t ++ [e]) n)) as (l & E & F). exists l.
  unfold trace_of, World_traced in *. rewrite E. cbn. rewrite <- app_assoc. auto.
Qed.

Lemma enters_lift {A} e (m : M World A) : enters e m -> enters e (lift m).
Proof.
  intros Hm fr. destruct (Hm (world fr)) as (l & E & F). exists l.
  unfold lift. destruct (m (world fr)) as [r w]. simpl in *. auto.
Qed.

Section OperationsEmit.
Variable h : Host.

Create HintDb emits.
Hint Resolve emits_ensureDir emits_pathExists emits_readFile emits_writeFile
  emits_remove emits_copy emits_move emits_Date_now emits_execFileAsync : emits.

Ltac emits_ops := repeat first [ solve [eauto with emits] | emits_step ].

Lemma emits_libreConvert b f : emits inner (libreConvert h b f).
Proof. unfold libreConvert. emits_ops. Qed.

Lemma emits_call_poppler c i o : emits inner (call_poppler c i o).
Proof.
  unfold call_poppler. emits_step. { emits_auto. }
  apply emits_silent. intros [f t n]. simpl. destruct (c _ _ _). reflexivity.
Qed.

Lemma emits_embed c d : emits inner (PdfLib.embed h c d).
Proof. unfold PdfLib.embed. emits_ops. Qed.

Lemma enters_officeToPdf i o : enters (Enter OfficeToPdf i o) (officeToPdf h i o).
Proof.
  unfold officeToPdf. apply enters_emit.
  pose proof emits_libreConvert. emits_ops.
Qed.

Lemma enters_pdfToJpg i o : enters (Enter PdfToJpg i o) (pdfToJpg h i o).
Proof.
  unfold pdfToJpg. apply enters_emit. pose proof emits_call_poppler. emits_ops.
Qed.

Lemma enters_pdfToDocx i o : enters (Enter PdfToDocx i o) (pdfToDocx h i o).
Proof. unfold pdfToDocx. apply enters_emit. unfold read_fs. emits_ops. Qed.

Lemma enters_imageToPdf i o : enters (Enter ImageToPdf i o) (imageToPdf h i o).
Proof.
  unfold imageToPdf. apply enters_emit. unfold PdfLib.embedPng, PdfLib.embedJpg.
  pose proof emits_embed. emits_ops.
Qed.

Lemma emits_remove_if_exists v : emits inner (remove_if_exists h v).
Proof. unfold remove_if_exists. emits_ops. Qed.

Lemma emits_cleanup : emits inner (cleanup h).
Proof.
  unfold cleanup, frame, console_error. pose proof emits_remove_if_exists. emits_ops.
Qed.

Lemma emits_res_download p n : emits inner (res_download h p n (cleanup h)).
Proof. unfold res_download. pose proof emits_cleanup. emits_ops. Qed.

Lemma emits_convert_catch e : emits inner (convert_catch h e).
Proof. unfold convert_catch, console_error. pose proof emits_cleanup. emits_ops. Qed.
End OperationsEmit.

Section Dispatch.
Variable h : Host.

Lemma quiet_set_uploadPath p : quiet (set_uploadPath p).
Proof. intros fr. eexists _, _. split; reflexivity. Qed.

Lemma quiet_set_outputPath p : quiet (set_outputPath p).
Proof. intros fr. eexists _, _. split; reflexivity. Qed.

Lemma quiet_set_outputDirForPdf p : quiet (set_outputDirForPdf p).
Proof. intros fr. eexists _, _. split; reflexivity. Qed.

Lemma emits_download_or_return (returned : option Response) :
  emits inner
    (match returned with
     | Some r => ret r
     | None =>
         fr <- frame ;;
         res_download h (default "" (outputPath fr))
           (Path.basename h (default "" (outputPath fr))) (cleanup h)
     end).
Proof.
  destruct returned; [apply emits_ret|].
  apply emits_bind; [apply emits_silent; reflexivity|].
  intros fr. apply emits_res_download.
Qed.

Lemma cleanup_returns (fr : Frame) : exists fr', cleanup h fr = (Ok tt, fr').
Proof.
  unfold cleanup, try_catch.
  match goal with |- context [bind ?m ?k fr] => destruct (bind m k fr) as [[[]|e] fr1] end.
  - eauto.
  - unfold lift, console_error, emit. eauto.
Qed.

Lemma convert_catch_returns (err : Error) (fr : Frame) :
  exists msg fr', convert_catch h err fr = (Ok (Json 500 msg), fr').
Proof.
  unfold convert_catch, bind at 1.
  destruct (lift (console_error _) fr) as [[[]|e] fr1] eqn:E.
  - unfold bind. destruct (cleanup_returns fr1) as (fr2 & ->). cbn. eauto.
  - unfold lift, console_error, emit in E. discriminate.
Qed.

Lemma handler_prefix {A} (p : string) (k : Z -> M Frame A) (c : Error -> M Frame A)
    (w : World) :
  with_frame (try_catch (set_uploadPath p ;; now <- lift (Fs.Date_now h) ;; k now) c) w =
  (let (r, fr) :=
     try_catch (k (clock h (ticks w))) c
       (mkFrame (Some p) None None (mkWorld (fs w) (trace w) (S (ticks w)))) in
   (r, world fr)).
Proof. reflexivity. Qed.

Lemma enters_at {A} (e : Event) (m : M Frame A) (fr : Frame) (t : list Event) :
  enters e m -> trace (world fr) = t ->
  exists l, trace (let (r, fr') := m fr in (r, world fr')).2 = (t ++ e :: l)%list
            /\ Forall inner l.
Proof.
  intros Hm <-. destruct (Hm fr) as (l & E & F). exists l.
  destruct (m fr) as [r fr']. auto.
Qed.

Ltac enters_handler :=
  repeat first
    [ apply enters_officeToPdf | apply enters_pdfToJpg
    | apply enters_pdfToDocx | apply enters_imageToPdf
    | apply enters_lift
    | apply enters_try_catch; [| apply emits_convert_catch]
    | apply enters_after;
        [ first [ apply quiet_set_uploadPath | apply quiet_set_outputPath
                | apply quiet_set_outputDirForPdf ] | intros ? ]
    | apply enters_bind; [| intros ?; first [ apply emits_download_or_return
                                            | solve [auto]
                                            | repeat emits_step ] ] ].

Ltac dispatched :=
  solve [ left; eexists; rewrite handler_prefix; apply enters_at;
          [enters_handler | reflexivity] ].

Ltac rejected := eexists; split; [reflexivity | split; reflexivity].

(** The [pdf] to [jpg] branch makes the directory for the pages before it
    calls the helper; where a file sits in the way the request ends in the
    [catch] block. *)
Lemma pages_branch (d input : string) (k : option Response -> M Frame Response)
    (fr : Frame) :
  let m :=
    try_catch
      (returned <-
         (set_outputDirForPdf d ;;
          lift (Fs.ensureDir d) ;;
          firstPagePath <- lift (pdfToJpg h input d) ;;
          set_outputPath firstPagePath ;;
          ret None) ;;
       k returned)
      (convert_catch h) in
  (forall r, emits inner (k r)) ->
  (exists l, trace (world (m fr).2) = (trace (world fr) ++ Enter PdfToJpg input d :: l)%list
             /\ Forall inner l)
  \/ ((exists data, fs (world fr) !! d = Some (File data))
      /\ exists msg l, (m fr).1 = Ok (Json 500 msg)
           /\ trace (world (m fr).2) = (trace (world fr) ++ l)%list /\ Forall inner l).
Proof.
  intros m Hk. subst m. destruct fr as [up out dir [f t n]].
  assert (Hm : enters (Enter PdfToJpg input d)
            (try_catch
               (returned <-
                  (firstPagePath <- lift (pdfToJpg h input d) ;;
                   set_outputPath firstPagePath ;; ret None) ;;
                k returned)
               (convert_catch h))) by enters_handler.
  pose (fr1 := mkFrame up out (Some d) (mkWorld (<[d := Dir]> f) t n)).
  destruct (Hm fr1) as (l & El & Fl).
  destruct (f !! d) as [[data|]|] eqn:E.
  - right. split; [cbn; eauto|].
    unfold try_catch, bind, set_outputDirForPdf, lift, Fs.ensureDir, read_fs, throw.
    cbn -[convert_catch]. rewrite E.
    match goal with |- context [convert_catch h ?e ?fr] =>
      destruct (emits_convert_catch h e fr) as (l' & El' & Fl');
      destruct (convert_catch_returns e fr) as (msg & fr' & Eq)
    end.
    rewrite Eq in *. exists msg, l'. auto.
  - left. exists l. split; [|assumption].
    unfold try_catch, bind, set_outputDirForPdf, lift, Fs.ensureDir, read_fs, modify_fs in *.
    cbn -[convert_catch pdfToJpg] in *. rewrite E. exact El.
  - left. exists l. split; [|assumption].
    unfold try_catch, bind, set_outputDirForPdf, lift, Fs.ensureDir, read_fs, modify_fs in *.
    cbn -[convert_catch pdfToJpg] in *. rewrite E. exact El.
Qed.

Lemma convert_dispatch (file : StoredFile) (body : option string) (w : World) :
  let after := convert h (mkReq (Some file) body) w in
  match Spec.route (ext_of h file) (target_of body) with
  | Some op =>
      (exists out l,
         trace after.2 = (trace w ++ Enter op (file_path file) out :: l)%list
         /\ Forall inner l)
      \/ (op = PdfToJpg
          /\ (exists data, fs w !! pages_dir h file w = Some (File data))
          /\ exists msg l, after.1 = Ok (Json 500 msg)
               /\ trace after.2 = (trace w ++ l)%list /\ Forall inner l)
  | None =>
      exists msg,
        after.1 = Ok (Json 400 msg) /\ fs after.2 = fs w /\ trace after.2 = trace w
  end.
Proof.
  unfold convert, convert_try. cbn [req_file req_body_targetFormat].
  fold (target_of body). fold (ext_of h file).
  generalize (target_of body) as tf, (ext_of h file) as ext. intros tf ext.
  unfold Spec.route, JS.includes. cbn [List.find existsb Spec.compatibility_table fst snd].
  destruct (String.eqb_spec tf "") as [->|Ht0].
  { repeat (match goal with |- context [String.eqb ext ?c] =>
              destruct (String.eqb_spec ext c) as [->|?] end; cbn);
      cbn; rejected. }
  destruct (String.eqb_spec tf "pdf") as [->|Ht1];
    [| destruct (String.eqb_spec tf "jpg") as [->|Ht2];
       [| destruct (String.eqb_spec tf "docx") as [->|Ht3] ] ];
    repeat (match goal with |- context [String.eqb ext ?c] =>
              destruct (String.eqb_spec ext c) as [->|?] end;
            cbn [andb orb String.eqb Ascii.eqb Bool.eqb fmap option_fmap option_map snd]).
  all: cbn [andb orb String.eqb Ascii.eqb Bool.eqb fmap option_fmap option_map snd].
  all: try (destruct w; rejected).
  all: try dispatched.
  rewrite handler_prefix.
  match goal with
  | |- context [try_catch (bind (bind (set_outputDirForPdf ?d) _) ?k) _ ?fr] =>
      destruct (pages_branch d (file_path file) k fr)
        as [(l & E & F)|(D & msg & l & E & T & F)];
      [ intros r; apply emits_download_or_return | |]
  end.
  - left. eexists _, l. split; [|exact F].
    match type of E with context [try_catch ?m ?c ?fr] =>
      destruct (try_catch m c fr) as [r fr'] end.
    exact E.
  - right. split; [reflexivity|]. split; [exact D|]. exists msg, l.
    match type of E with context [try_catch ?m ?c ?fr] =>
      destruct (try_catch m c fr) as [r fr'] end.
    auto.
Qed.
End Dispatch.

Section PdfToJpg.
Variable h : Host.
Import Spec.

Lemma ensureDir_ok (p : string) (w : World) :
  (forall d, fs w !! p <> Some (File d)) ->
  Fs.ensureDir p w = (Ok tt, mkWorld (<[p := Dir]> (fs w)) (trace w) (ticks w)).
Proof.
  intros H. unfold Fs.ensureDir, bind, read_fs, modify_fs.
  destruct (fs w !! p) as [[d|]|] eqn:E; try reflexivity.
  exfalso. exact (H d eq_refl).
Qed.

Lemma pdfToJpg_linux (input outputDir : string) (w : World) :
  isLinux h = true ->
  pdfToJpg h input outputDir w =
  (emit (Enter PdfToJpg input outputDir) ;;
   PdfToImage h
     (execFileAsync h "pdftoppm" (pdftoppm_args h (first_page_job input outputDir)) None)
     outputDir) w.
Proof.
  intros L. unfold pdfToJpg, PdfToImage. rewrite L.
  unfold bind. destruct (emit _ w) as [[[]|] w1]; [|reflexivity].
  destruct (Fs.ensureDir outputDir w1) as [[[]|] w2]; [|reflexivity].
  cbn [pdftoppm_args first_page_job job_format job_first job_last job_file
       job_out_dir job_prefix].
  change ("-" +:+ "jpeg") with "-jpeg". change (JS.show 1) with "1".
  destruct (execFileAsync _ _ _ _ w2) as [[[]|] w3]; [|reflexivity].
  destruct (Fs.pathExists _ w3) as [[[]|] w4]; reflexivity.
Qed.

Lemma pdfToJpg_library (input outputDir : string) (w : World) convert :
  isLinux h = false -> pdfConvertPoppler h = Some convert ->
  pdfToJpg h input outputDir w =
  (emit (Enter PdfToJpg input outputDir) ;;
   PdfToImage h
     (call_poppler convert input (poppler_opts (first_page_job input outputDir)))
     outputDir) w.
Proof.
  intros L C. unfold pdfToJpg, PdfToImage. rewrite L, C.
  unfold bind. destruct (emit _ w) as [[[]|] w1]; [|reflexivity].
  destruct (Fs.ensureDir outputDir w1) as [[[]|] w2]; [|reflexivity].
  cbn [poppler_opts first_page_job job_format job_first job_last job_file
       job_out_dir job_prefix].
  destruct (call_poppler _ _ _ w2) as [[[]|] w3]; [|reflexivity].
  destruct (Fs.pathExists _ w3) as [[[]|] w4]; reflexivity.
Qed.

Lemma PdfToImage_checks (rasterize : M World unit) (outputDir : string) (w w1 : World) :
  (Fs.ensureDir outputDir ;; rasterize) w = (Ok tt, w1) ->
  PdfToImage h rasterize outputDir w =
  (match fs w1 !! Path.join h outputDir first_page_file with
   | Some _ => Ok (Path.join h outputDir first_page_file)
   | None => Throw no_output_jpg
   end, w1).
Proof.
  unfold PdfToImage, bind. intros E.
  destruct (Fs.ensureDir outputDir w) as [[[]|] w2]; [|discriminate].
  destruct (rasterize w2) as [[[]|] w3]; [|discriminate].
  injection E as <-. unfold Fs.pathExists, read_fs, bind.
  destruct (fs w3 !! _); reflexivity.
Qed.

Lemma pdfToJpg_unavailable (input outputDir : string) (w : World) :
  isLinux h = false -> pdfConvertPoppler h = None ->
  (forall d, fs w !! outputDir <> Some (File d)) ->
  pdfToJpg h input outputDir w =
  (Throw not_available,
   mkWorld (<[outputDir := Dir]> (fs w))
           (trace w ++ [Enter PdfToJpg input outputDir]) (ticks w)).
Proof.
  intros L C D. unfold pdfToJpg. rewrite L, C.
  unfold bind at 1. unfold emit at 1.
  unfold bind. rewrite ensureDir_ok by exact D. reflexivity.
Qed.

(** With a rasterizer at hand, the helper asks it. *)
Lemma pdfToJpg_asks (input outputDir : string) (w : World) :
  (forall d, fs w !! outputDir <> Some (File d)) ->
  isLinux h = true \/ pdfConvertPoppler h <> None ->
  exists e, trace (pdfToJpg h input outputDir w).2 =
            (trace w ++ [Enter PdfToJpg input outputDir; e])%list.
Proof.
  intros D A. unfold pdfToJpg.
  unfold bind at 1. unfold emit at 1.
  unfold bind at 1. rewrite ensureDir_ok by exact D. cbn [fs trace ticks].
  destruct (isLinux h) eqn:L.
  - eexists. unfold bind, execFileAsync, emit, bind. cbn [fs trace ticks].
    destruct (exec_file h _ _ _ _) as [[e|] f]; cbn; [| destruct (f !! _); cbn];
      rewrite <- app_assoc; reflexivity.
  - destruct (pdfConvertPoppler h) as [convert|]; [|destruct A; congruence].
    eexists. unfold bind, call_poppler, emit, bind. cbn [fs trace ticks].
    destruct (convert _ _ _) as [[e|] f]; cbn; [| destruct (f !! _); cbn];
      rewrite <- app_assoc; reflexivity.
Qed.
End PdfToJpg.

Section FsLemmas.
Variable h : Host.

Lemma lookup_prune (dir p : string) (f : FS) :
  Fs.prune h dir f !! p = if Fs.inside h dir p then None else f !! p.
Proof.
  unfold Fs.prune. rewrite map_lookup_filter.
  destruct (f !! p) as [n|] eqn:E; cbn.
  - destruct (Fs.inside h dir p) eqn:I.
    + rewrite option_guard_False; [reflexivity|]. cbn. congruence.
    + rewrite option_guard_True; [reflexivity|]. cbn. reflexivity.
  - destruct (Fs.inside h dir p); reflexivity.
Qed.

Lemma str_app_assoc (a b c : string) : (a +:+ b) +:+ c = a +:+ (b +:+ c).
Proof.
  induction a as [|x a IH]; [reflexivity|].
  change (String x ((a +:+ b) +:+ c) = String x (a +:+ (b +:+ c))).
  rewrite IH. reflexivity.
Qed.

End FsLemmas.

Section PdfToDocx.
Variable h : Host.

Lemma pdfToDocx_runs (input outputDir : string) (w : World) (d : string) :
  let tempDir := temp_dir h (clock h (ticks w)) in
  let tempPdf := Path.join h tempDir "in.pdf" in
  let tempDocx := Path.join h tempDir "in.docx" in
  let docxPath :=
    Path.join h outputDir
      (Path.basename_ext h input (Path.extname h input) +:+ ".docx") in
  let f2 := <[tempPdf := File d]> (<[tempDir := Dir]> (<[outputDir := Dir]> (fs w))) in
  let cmd := getLibreOfficeCommand h f2 in
  let tool := exec_file h cmd (renderer_args h tempDir) (Some 60000) f2 in
  (forall x, fs w !! outputDir <> Some (File x)) ->
  (forall x, fs w !! tempDir <> Some (File x)) ->
  fs w !! input = Some (File d) ->
  remove_fails h tempDir = None ->
  pdfToDocx h input outputDir w =
  (match tool.1 with
   | Some e => Throw e
   | None =>
       match tool.2 !! tempDocx with
       | None => Throw no_output_docx
       | Some _ => Ok docxPath
       end
   end,
   mkWorld
     (Fs.prune h tempDir
        match tool.1 with
        | Some e => tool.2
        | None =>
            match tool.2 !! tempDocx with
            | None => tool.2
            | Some (File d') =>
                <[docxPath := File d']> (delete tempDocx (Fs.prune h docxPath tool.2))
            | Some Dir =>
                Fs.graft h tempDocx docxPath tool.2
                  ∪ Fs.prune h tempDocx (Fs.prune h docxPath tool.2)
            end
        end)
     (trace w ++ [Enter PdfToDocx input outputDir;
                  ExecFile cmd (renderer_args h tempDir) (Some 60000)])
     (S (ticks w))).
Proof.
  intros tempDir tempPdf tempDocx docxPath f2 cmd tool Hout Htmp Hin Hrm.
  unfold renderer_args in tool. fold tempPdf in tool.
  assert (Hne1 : outputDir <> input) by (intros ->; eapply Hout; eassumption).
  assert (Hne2 : tempDir <> input) by (intros E; eapply Htmp; rewrite E; eassumption).
  destruct w as [f t n]. cbn [fs trace ticks] in *.
  unfold pdfToDocx. fold tempDir. unfold bind at 1. unfold emit at 1. cbn [fs trace ticks].
  unfold bind at 1. rewrite (ensureDir_ok outputDir) by exact Hout. cbn [fs trace ticks].
  unfold bind at 1. unfold Fs.Date_now at 1. cbn [fs trace ticks].
  fold (temp_dir h (clock h n)). fold tempDir. fold tempPdf. fold tempDocx.
  unfold bind at 1. rewrite (ensureDir_ok tempDir); cbn [fs trace ticks].
  2:{ intros x. destruct (decide (outputDir = tempDir)) as [->|N].
      - rewrite lookup_insert_eq. discriminate.
      - rewrite lookup_insert_ne by exact N. apply Htmp. }
  unfold try_finally.
  unfold bind at 1. unfold Fs.copy at 1. unfold bind at 1, read_fs at 1. cbn [fs trace ticks].
  rewrite lookup_insert_ne by exact Hne2. rewrite lookup_insert_ne by exact Hne1.
  rewrite Hin. unfold modify_fs at 1. cbn [fs trace ticks]. fold f2.
  unfold bind at 1, read_fs at 1. cbn [fs trace ticks]. fold cmd.
  unfold bind at 1. unfold execFileAsync at 1. unfold bind at 1, emit at 1. cbn [fs trace ticks].
  fold tool.
  destruct tool as [[e|] f3]; cbn [fst snd].
  - unfold swallow, try_catch, Fs.remove. rewrite Hrm. unfold modify_fs. cbn.
    rewrite <- app_assoc. reflexivity.
  - unfold Fs.pathExists, Fs.move, bind, read_fs, modify_fs, swallow, try_catch,
      Fs.remove, throw, ret.
    cbn [fs trace ticks]. rewrite Hrm.
    destruct (f3 !! tempDocx) as [[d'|]|] eqn:E3; cbn [negb fs trace ticks];
      rewrite ?E3; cbn [fs trace ticks]; rewrite <- app_assoc; reflexivity.
Qed.
End PdfToDocx.

Section ImageToPdf.
Variable h : Host.

Lemma imageToPdf_runs (input output : string) (w : World) (bytes : string) :
  fs w !! input = Some (File bytes) ->
  imageToPdf h input output w =
  let c := codec_for h input in
  let t := (trace w ++ [Enter ImageToPdf input output; Embed c bytes])%list in
  match PdfLib.decoder h c bytes with
  | inl e => (Throw e, mkWorld (fs w) t (ticks w))
  | inr (wd, ht) =>
      match fs w !! output with
      | Some Dir => (Throw (Fs.system_error "EISDIR" output), mkWorld (fs w) t (ticks w))
      | _ =>
          (Ok tt,
           mkWorld (<[output := File (pdf_save h (Spec.single_page (mkImage c bytes wd ht)))]> (fs w))
                   t (ticks w))
      end
  end.
Proof.
  intros Hin. destruct w as [f t n]. cbn [fs trace ticks] in *.
  unfold imageToPdf, codec_for.
  unfold bind at 1, emit at 1. cbn [fs trace ticks].
  unfold bind at 1, Fs.readFile at 1, bind at 1, read_fs at 1. cbn [fs trace ticks].
  rewrite Hin. unfold ret at 1.
  destruct (String.eqb _ ".png");
    unfold PdfLib.embedPng, PdfLib.embedJpg, PdfLib.embed, bind, emit; cbn [fs trace ticks];
    (destruct (PdfLib.decoder h _ bytes) as [e|[wd ht]];
     [ unfold throw; rewrite <- app_assoc; reflexivity |]);
    unfold ret, Fs.writeFile, bind, read_fs, modify_fs, throw; cbn;
    destruct (f !! output) as [[|]|]; rewrite <- app_assoc; reflexivity.
Qed.
End ImageToPdf.

(** ** Strings: occurrences of a character, decimal numerals *)
Section Strings.

Lemma str_cons_app (x : ascii) (a b : string) : String x a +:+ b = String x (a +:+ b).
Proof. reflexivity. Qed.

Lemma occurs_app (c : ascii) (a b : string) :
  occurs c (a +:+ b) = occurs c a || occurs c b.
Proof.
  induction a as [|x a IH]; [reflexivity|].
  rewrite str_cons_app. simpl. rewrite IH, orb_assoc. reflexivity.
Qed.

Lemma str_length_app (a b : string) :
  String.length (a +:+ b) = (String.length a + String.length b)%nat.
Proof. induction a as [|x a IH]; [reflexivity|]. rewrite str_cons_app. simpl. rewrite IH. reflexivity. Qed.

Lemma str_app_inv_tail (a b e : string) : a +:+ e = b +:+ e -> a = b.
Proof.
  revert b. induction a as [|x a IH]; intros [|y b] E.
  - reflexivity.
  - apply (f_equal String.length) in E. rewrite !str_length_app in E. simpl in E. lia.
  - apply (f_equal String.length) in E. rewrite !str_length_app in E. simpl in E. lia.
  - rewrite !str_cons_app in E. injection E as -> E. f_equal. apply IH. exact E.
Qed.

(** A string is cut in one way only at its last occurrence of [c]. *)
Lemma cut_at_last (c : ascii) (a1 a2 s1 s2 : string) :
  occurs c s1 = false -> occurs c s2 = false ->
  a1 +:+ String c s1 = a2 +:+ String c s2 -> a1 = a2 /\ s1 = s2.
Proof.
  intros H1 H2. revert a2. induction a1 as [|x a1 IH]; intros [|y a2] E.
  - injection E as E. auto.
  - rewrite str_cons_app in E. injection E as _ E. rewrite E, occurs_app in H1. simpl in H1.
    rewrite Ascii.eqb_refl, orb_true_r in H1. discriminate.
  - rewrite str_cons_app in E. injection E as _ E. rewrite <- E, occurs_app in H2. simpl in H2.
    rewrite Ascii.eqb_refl, orb_true_r in H2. discriminate.
  - rewrite !str_cons_app in E. injection E as -> E. destruct (IH a2 E) as [-> ->]. auto.
Qed.

Lemma digits_uint (d : Decimal.uint) : digits (NilEmpty.string_of_uint d) = true.
Proof. induction d; simpl; auto. Qed.

Lemma digits_show (n : Z) : 0 <= n -> digits (JS.show n) = true.
Proof.
  intros Hn. unfold JS.show. destruct n as [|p|p]; [reflexivity| |lia].
  simpl. unfold NilZero.string_of_uint.
  destruct (Pos.to_uint p); try apply digits_uint. reflexivity.
Qed.

Lemma digits_lack (c : ascii) (s : string) :
  is_digit c = false -> digits s = true -> occurs c s = false.
Proof.
  intros Hc. induction s as [|x s IH]; [reflexivity|]. simpl.
  intros [Hx Hs]%andb_true_iff. rewrite (IH Hs), orb_false_r.
  destruct (Ascii.eqb_spec x c) as [->|]; [congruence|reflexivity].
Qed.

Lemma show_inj (a b : Z) : JS.show a = JS.show b -> a = b.
Proof.
  unfold JS.show. intros E. apply DecimalZ.to_int_inj.
  assert (N : forall z, Z.to_int z <> Decimal.Pos Decimal.Nil /\ Z.to_int z <> Decimal.Neg Decimal.Nil).
  { intros [|p|p]; split; simpl; try discriminate;
      intros [= H]; exact (DecimalPos.Unsigned.to_uint_nonnil p H). }
  apply (f_equal NilZero.int_of_string) in E.
  rewrite !NilZero.isi in E by apply N. congruence.
Qed.
End Strings.

(** ** The router (C3) *)


(** ** PDF to image (C7, C10) *)

(** C7. On Linux and on the other platforms alike, [pdfToJpg] is the
    specification's PDF→Image run with the platform's rasterizer: [pdftoppm]
    with the command line of the first-page job, or pdf-poppler's [convert]
    with the options of the same job. Hence both look for [page-1.jpg] in the
    output directory once the rasterizer has returned, answer with its path
    when it is there, and fail with "no output" exactly when it is not. *)
Theorem pdfToJpg_branches_agree (h : Host) (input outputDir : string) (w : World) :
  let job := Spec.first_page_job input outputDir in
  (isLinux h = true ->
   pdfToJpg h input outputDir w =
   (emit (Enter PdfToJpg input outputDir) ;;
    Spec.PdfToImage h (execFileAsync h "pdftoppm" (Spec.pdftoppm_args h job) None)
      outputDir) w)
  /\ (forall convert,
        isLinux h = false -> pdfConvertPoppler h = Some convert ->
        pdfToJpg h input outputDir w =
        (emit (Enter PdfToJpg input outputDir) ;;
         Spec.PdfToImage h (call_poppler convert input (Spec.poppler_opts job))
           outputDir) w)
  /\ (forall rasterize w1,
        (Fs.ensureDir outputDir ;; rasterize) w = (Ok tt, w1) ->
        let firstPage := Path.join h outputDir "page-1.jpg" in
        Spec.PdfToImage h rasterize outputDir w =
        (match fs w1 !! firstPage with
         | Some _ => Ok firstPage
         | None => Throw no_output_jpg
         end, w1)).
Proof.
  intros job. split; [|split].
  - apply pdfToJpg_linux.
  - intros convert L C. apply pdfToJpg_library; assumption.
  - intros rasterize w1 E. apply PdfToImage_checks. exact E.
Qed.

Lemma pdfToJpg_branches_agree_witness :
  let tool :=
    execFileAsync Scenario.linux "pdftoppm"
      ["-jpeg"; "-f"; "1"; "-l"; "1"; "/app/uploads/a.pdf"; "/app/outputs/a-pages/page"]
      None in
  pdfToJpg Scenario.linux "/app/uploads/a.pdf" "/app/outputs/a-pages" Scenario.idle =
  (emit (Enter PdfToJpg "/app/uploads/a.pdf" "/app/outputs/a-pages") ;;
   Spec.PdfToImage Scenario.linux tool "/app/outputs/a-pages") Scenario.idle
  /\ pdfToJpg Scenario.mac "/app/uploads/a.pdf" "/app/outputs/a-pages" Scenario.idle =
     (emit (Enter PdfToJpg "/app/uploads/a.pdf" "/app/outputs/a-pages") ;;
      Spec.PdfToImage Scenario.mac
        (call_poppler Scenario.poppler "/app/uploads/a.pdf"
           (mkOpts "jpeg" "/app/outputs/a-pages" "page" 1))
        "/app/outputs/a-pages") Scenario.idle
  /\ (Spec.PdfToImage Scenario.linux tool "/app/outputs/a-pages" Scenario.idle).1 =
     Ok "/app/outputs/a-pages/page-1.jpg".
Proof.
  intros tool.
  pose proof (pdfToJpg_branches_agree Scenario.linux "/app/uploads/a.pdf"
                "/app/outputs/a-pages" Scenario.idle) as (L & _ & C).
  pose proof (pdfToJpg_branches_agree Scenario.mac "/app/uploads/a.pdf"
                "/app/outputs/a-pages" Scenario.idle) as (_ & P & _).
  split; [exact (L eq_refl)|]. split; [exact (P Scenario.poppler eq_refl eq_refl)|].
  rewrite (C tool ((Fs.ensureDir "/app/outputs/a-pages" ;; tool) Scenario.idle).2).
  - vm_compute. reflexivity.
  - vm_compute. reflexivity.
Defined.

(** C10. Provided the output directory can be made: [pdfToJpg] stops with
    the "not available" error, having made the directory and nothing else and
    without having asked any rasterizer, exactly when the platform is not
    Linux and [pdfConvertPoppler] is null; and it is null whenever loading
    pdf-poppler threw. *)
Theorem pdfToJpg_without_rasterizer (h : Host) (input outputDir : string) (w : World) :
  (forall d, fs w !! outputDir <> Some (File d)) ->
  (pdf_poppler h = None -> pdfConvertPoppler h = None)
  /\ (isLinux h = false /\ pdfConvertPoppler h = None
      <-> pdfToJpg h input outputDir w =
          (Throw not_available,
           mkWorld (<[outputDir := Dir]> (fs w))
                   (trace w ++ [Enter PdfToJpg input outputDir]) (ticks w))).
Proof.
  intros D. split.
  - unfold pdfConvertPoppler. intros ->. reflexivity.
  - split.
    + intros [L C]. apply pdfToJpg_unavailable; assumption.
    + intros E.
      destruct (isLinux h) eqn:L.
      * destruct (pdfToJpg_asks h input outputDir w D) as (e & T); [left; exact L|].
        rewrite E in T. cbn in T. apply app_inv_head in T. discriminate.
      * split; [reflexivity|].
        destruct (pdfConvertPoppler h) as [c|] eqn:C; [|reflexivity].
        destruct (pdfToJpg_asks h input outputDir w D) as (e & T); [right; congruence|].
        rewrite E in T. cbn in T. apply app_inv_head in T. discriminate.
Qed.

Lemma pdfToJpg_without_rasterizer_witness :
  pdfToJpg Scenario.mac_without_poppler "/app/uploads/a.pdf" "/app/outputs/a-pages"
    Scenario.idle =
  (Throw not_available,
   mkWorld (<["/app/outputs/a-pages" := Dir]> Scenario.disk)
           [Enter PdfToJpg "/app/uploads/a.pdf" "/app/outputs/a-pages"] 0).
Proof.
  apply (pdfToJpg_without_rasterizer Scenario.mac_without_poppler "/app/uploads/a.pdf"
           "/app/outputs/a-pages" Scenario.idle).
  - intros d. vm_compute. discriminate.
  - split; reflexivity.
Defined.

(** ** Image to PDF (C4, C5) *)

(** C4. For an input [imageToPdf] accepts (the file can be read, the decoder
    picked for it takes its bytes, and the output path is not a directory),
    the helper returns and leaves at the output path the saved bytes of a
    document of one page: the page has the width and height of the image and
    holds the image drawn at (0,0) in that width and height. The decoder is
    the PNG one when the lower-cased extension is [.png] and the JPEG one
    otherwise. *)
Theorem imageToPdf_single_page (h : Host) (input output : string) (w : World)
    (bytes : string) (width height : Z) :
  let codec :=
    if String.eqb (JS.toLowerCase (Path.extname h input)) ".png" then Png else Jpg in
  let image := mkImage codec bytes width height in
  fs w !! input = Some (File bytes) ->
  PdfLib.decoder h codec bytes = inr (width, height) ->
  fs w !! output <> Some Dir ->
  imageToPdf h input output w =
  (Ok tt,
   mkWorld
     (<[output :=
          File (pdf_save h [ mkPage width height [ mkDraw image 0 0 width height ] ])]>
        (fs w))
     (trace w ++ [Enter ImageToPdf input output; Embed codec bytes])
     (ticks w)).
Proof.
  intros codec image Hin Hdec Hout.
  rewrite (imageToPdf_runs h input output w bytes Hin).
  fold (codec_for h input) in codec. cbv zeta. fold codec. rewrite Hdec.
  destruct (fs w !! output) as [[|]|]; try reflexivity. congruence.
Qed.

Lemma imageToPdf_single_page_witness :
  imageToPdf Scenario.linux "/app/uploads/photo-17.png" "/app/outputs/photo-18.pdf"
    (mkWorld (<["/app/uploads/photo-17.png" := File "PNG data"]> Scenario.disk) [] 2) =
  (Ok tt,
   mkWorld
     (<["/app/outputs/photo-18.pdf" :=
          File (pdf_save Scenario.linux
                  [ mkPage 640 480 [ mkDraw (mkImage Png "PNG data" 640 480) 0 0 640 480 ] ])]>
        (<["/app/uploads/photo-17.png" := File "PNG data"]> Scenario.disk))
     [Enter ImageToPdf "/app/uploads/photo-17.png" "/app/outputs/photo-18.pdf";
      Embed Png "PNG data"]
     2).
Proof.
  pose proof (imageToPdf_single_page Scenario.linux "/app/uploads/photo-17.png"
                "/app/outputs/photo-18.pdf"
                (mkWorld (<["/app/uploads/photo-17.png" := File "PNG data"]> Scenario.disk) [] 2)
                "PNG data" 640 480) as T.
  cbv zeta in T. apply T.
  - vm_compute. reflexivity.
  - vm_compute. reflexivity.
  - vm_compute. discriminate.
Defined.

(** The table sends a pair to [imageToPdf] only for the three image
    extensions. *)
Lemma route_image (ext tf : string) :
  Spec.route ext tf = Some ImageToPdf ->
  JS.includes [".jpg"; ".jpeg"; ".png"] ext = true /\ tf = "pdf".
Proof.
  unfold Spec.route, JS.includes.
  cbn [List.find existsb Spec.compatibility_table fst snd].
  repeat (match goal with |- context [String.eqb ext ?c] =>
            destruct (String.eqb_spec ext c) as [->|?] end; cbn);
    repeat (match goal with |- context [String.eqb tf ?c] =>
              destruct (String.eqb_spec tf c) as [->|?] end; cbn);
    cbn; intros E; try discriminate; auto.
Qed.

(** C5, as the code has it. [imageToPdf] does not check the extension: it
    takes [.png] for PNG and every other extension for JPEG, so a file whose
    extension is none of jpg, jpeg and png, and whose bytes the JPEG decoder
    takes, is converted like any JPEG. The check is the router's: the handler
    calls [imageToPdf] only for an upload whose lower-cased extension is
    [.jpg], [.jpeg] or [.png]. *)
Theorem imageToPdf_leaves_the_check_to_the_router (h : Host) :
  (forall input output w bytes width height,
      JS.includes [".jpg"; ".jpeg"; ".png"] (JS.toLowerCase (Path.extname h input)) = false ->
      fs w !! input = Some (File bytes) ->
      embed_jpg h bytes = inr (width, height) ->
      fs w !! output <> Some Dir ->
      imageToPdf h input output w =
      (Ok tt,
       mkWorld
         (<[output :=
              File (pdf_save h (Spec.single_page (mkImage Jpg bytes width height)))]> (fs w))
         (trace w ++ [Enter ImageToPdf input output; Embed Jpg bytes])
         (ticks w)))
  /\ (forall file body w input output l,
        trace (convert h (mkReq (Some file) body) w).2 = (trace w ++ l)%list ->
        In (Enter ImageToPdf input output) l ->
        JS.includes [".jpg"; ".jpeg"; ".png"] (ext_of h file) = true).
Proof.
  split.
  - intros input output w bytes width height Hext Hin Hdec Hout.
    assert (C : (if String.eqb (JS.toLowerCase (Path.extname h input)) ".png"
                 then Png else Jpg) = Jpg).
    { unfold JS.includes in Hext. cbn [existsb] in Hext.
      destruct (String.eqb _ ".png"); [|reflexivity].
      rewrite !orb_true_r in Hext. discriminate. }
    rewrite (imageToPdf_runs h input output w bytes Hin).
    unfold codec_for. rewrite C. cbv zeta. cbn [PdfLib.decoder]. rewrite Hdec.
    destruct (fs w !! output) as [[|]|]; try reflexivity. congruence.
  - intros file body w input output l T I.
    pose proof (convert_dispatch h file body w) as D. cbv zeta in D.
    destruct (Spec.route (ext_of h file) (target_of body)) as [op|] eqn:R.
    + destruct D as [(out & l' & T' & F)|(-> & _ & msg & l' & _ & T' & F)].
      * rewrite T in T'. apply app_inv_head in T'. subst l.
        destruct I as [[= -> _ _]|I].
        -- apply route_image in R. tauto.
        -- rewrite List.Forall_forall in F. destruct (F _ I).
      * rewrite T in T'. apply app_inv_head in T'. subst l.
        rewrite List.Forall_forall in F. destruct (F _ I).
    + destruct D as (msg & _ & _ & T'). rewrite T in T'.
      rewrite <- (app_nil_r (trace w)) in T' at 2. apply app_inv_head in T'. subst l.
      destruct I.
Qed.

(** A file named [.gif] that holds JPEG data goes through [imageToPdf]: no
    failure is raised for the extension, and the PDF is written. *)
Lemma imageToPdf_accepts_any_extension :
  let w := mkWorld (<["/app/uploads/anim-17.gif" := File "JFIF data"]> Scenario.disk) [] 2 in
  let after := imageToPdf Scenario.linux "/app/uploads/anim-17.gif" "/app/outputs/anim-18.pdf" w in
  JS.includes [".jpg"; ".jpeg"; ".png"]
    (JS.toLowerCase (Path.extname Scenario.linux "/app/uploads/anim-17.gif")) = false
  /\ after.1 = Ok tt
  /\ fs after.2 !! "/app/outputs/anim-18.pdf" = Some (File "%PDF 1 page(s)").
Proof. vm_compute. auto. Qed.

Lemma imageToPdf_leaves_the_check_to_the_router_witness :
  (imageToPdf Scenario.linux "/app/uploads/anim-17.gif" "/app/outputs/anim-18.pdf"
     (mkWorld (<["/app/uploads/anim-17.gif" := File "JFIF data"]> Scenario.disk) [] 2)).1
  = Ok tt.
Proof.
  destruct (imageToPdf_leaves_the_check_to_the_router Scenario.linux) as [T _].
  rewrite (T "/app/uploads/anim-17.gif" "/app/outputs/anim-18.pdf"
             (mkWorld (<["/app/uploads/anim-17.gif" := File "JFIF data"]> Scenario.disk) [] 2)
             "JFIF data" 800 600).
  - reflexivity.
  - vm_compute. reflexivity.
  - vm_compute. reflexivity.
  - vm_compute. reflexivity.
  - vm_compute. discriminate.
Defined.

(** ** PDF to office document (C6) *)

(** The working directory is not always a fresh one: it is
    [outputs/lo_<ms>], made by [ensureDir], which takes a directory that is
    already there as it is. Here the directory of this run exists before the
    run and holds the [in.docx] of another conversion; the renderer writes
    nothing, and the helper returns that other document as its output. *)
Lemma pdfToDocx_reuses_an_existing_working_directory :
  let w := Cases.shared_working_directory in
  let after :=
    pdfToDocx Cases.silent "/app/uploads/report-17.pdf" "/app/outputs/report-18-docx" w in
  temp_dir Cases.silent (clock Cases.silent (ticks w)) = "/app/outputs/lo_1700000000002"
  /\ fs w !! "/app/outputs/lo_1700000000002" = Some Dir
  /\ fs w !! "/app/outputs/lo_1700000000002/in.docx" = Some (File "DOCX of another request")
  /\ after.1 = Ok "/app/outputs/report-18-docx/report-17.docx"
  /\ fs after.2 !! "/app/outputs/report-18-docx/report-17.docx"
     = Some (File "DOCX of another request").
Proof. vm_compute. repeat split; reflexivity. Qed.

(** C6. A run of [pdfToDocx] whose two directories can be made, whose input
    is a file, and whose working directory can be removed: the renderer is
    called once, with a timeout of 60000 ms, on a file system in which the
    working directory exists and holds a copy of the input as [in.pdf]; the
    working directory is made if it is absent and taken as it is otherwise:
    apart from the output directory, the working directory and [in.pdf],
    every path is, when the renderer runs, what it was before the run, so
    that the working directory holds nothing but [in.pdf] when nothing was
    at or below it before, and holds what it held otherwise; when the
    renderer fails (not found,
    timed out, or any other error) the helper fails with that error; when it
    returns without having left [in.docx] the helper fails with the message
    of no output; when it has left [in.docx] the helper returns the output
    path, where that file now is; and on each of these outcomes nothing is
    left at or below the working directory. *)
Theorem pdfToDocx_uses_and_clears_temp_dir (h : Host) (input outputDir : string)
    (w : World) (d : string) :
  let tempDir := temp_dir h (clock h (ticks w)) in
  let tempPdf := Path.join h tempDir "in.pdf" in
  let tempDocx := Path.join h tempDir "in.docx" in
  let docxPath :=
    Path.join h outputDir
      (Path.basename_ext h input (Path.extname h input) +:+ ".docx") in
  let seen := <[tempPdf := File d]> (<[tempDir := Dir]> (<[outputDir := Dir]> (fs w))) in
  let cmd := getLibreOfficeCommand h seen in
  let tool := exec_file h cmd (renderer_args h tempDir) (Some 60000) seen in
  let after := pdfToDocx h input outputDir w in
  (forall x, fs w !! outputDir <> Some (File x)) ->
  (forall x, fs w !! tempDir <> Some (File x)) ->
  fs w !! input = Some (File d) ->
  remove_fails h tempDir = None ->
  trace after.2 =
    (trace w ++ [Enter PdfToDocx input outputDir;
                 ExecFile cmd (renderer_args h tempDir) (Some 60000)])%list
  /\ seen !! tempDir = Some Dir
  /\ seen !! tempPdf = Some (File d)
  /\ (forall p, p <> outputDir -> p <> tempDir -> p <> tempPdf -> seen !! p = fs w !! p)
  /\ ((forall p, Fs.inside h tempDir p = true -> fs w !! p = None) ->
      forall p, Fs.inside h tempDir p = true -> p <> outputDir -> seen !! p <> None ->
        p = tempDir \/ p = tempPdf)
  /\ (forall p, Fs.inside h tempDir p = true -> fs after.2 !! p = None)
  /\ (forall e, tool.1 = Some e -> after.1 = Throw e)
  /\ (tool.1 = None -> tool.2 !! tempDocx = None -> after.1 = Throw no_output_docx)
  /\ (forall d', tool.1 = None -> tool.2 !! tempDocx = Some (File d') ->
        after.1 = Ok docxPath
        /\ (Fs.inside h tempDir docxPath = false ->
            fs after.2 !! docxPath = Some (File d'))).
Proof.
  intros tempDir tempPdf tempDocx docxPath seen cmd tool after Hout Htmp Hin Hrm.
  pose proof (pdfToDocx_runs h input outputDir w d Hout Htmp Hin Hrm) as R.
  cbv zeta in R. fold tempDir tempPdf tempDocx docxPath seen cmd tool after in R.
  assert (Hne : tempPdf <> tempDir).
  { intros E. apply (f_equal String.length) in E. unfold tempPdf, Path.join in E.
    rewrite !str_length_app in E. cbn in E. lia. }
  rewrite R. cbn [fst snd fs trace].
  split; [reflexivity|].
  split; [unfold seen; rewrite lookup_insert_ne by exact Hne; apply lookup_insert_eq|].
  split; [apply lookup_insert_eq|].
  assert (Kept : forall p, p <> outputDir -> p <> tempDir -> p <> tempPdf ->
                   seen !! p = fs w !! p).
  { intros p N1 N2 N3. unfold seen. rewrite !lookup_insert_ne by congruence. reflexivity. }
  split; [exact Kept|].
  split.
  { intros Fresh p I N1 Held.
    destruct (decide (p = tempDir)) as [|N2]; [left; assumption|].
    destruct (decide (p = tempPdf)) as [|N3]; [right; assumption|].
    exfalso. apply Held. rewrite Kept by assumption. apply Fresh, I. }
  split; [intros p I; rewrite lookup_prune, I; reflexivity|].
  split; [intros e ->; reflexivity|].
  split; [intros -> ->; reflexivity|].
  intros d' -> ->. split; [reflexivity|].
  intros I. rewrite lookup_prune, I. apply lookup_insert_eq.
Qed.

Lemma pdfToDocx_uses_and_clears_temp_dir_witness :
  let w := mkWorld (<["/app/uploads/report-17.pdf" := File "%PDF-1.7"]> Scenario.disk) [] 2 in
  let after :=
    pdfToDocx Scenario.linux "/app/uploads/report-17.pdf" "/app/outputs/report-18-docx" w in
  after.1 = Ok "/app/outputs/report-18-docx/report-17.docx"
  /\ fs after.2 !! "/app/outputs/report-18-docx/report-17.docx" = Some (File "DOCX")
  /\ fs after.2 !! "/app/outputs/lo_1700000000002" = None
  /\ fs after.2 !! "/app/outputs/lo_1700000000002/in.pdf" = None.
Proof.
  intros w after.
  pose proof (pdfToDocx_uses_and_clears_temp_dir Scenario.linux
                "/app/uploads/report-17.pdf" "/app/outputs/report-18-docx" w "%PDF-1.7") as T.
  cbv zeta in T. fold after in T.
  destruct T as (_ & _ & _ & _ & _ & Gone & _ & _ & Moved).
  - intros x. vm_compute. discriminate.
  - intros x. vm_compute. discriminate.
  - vm_compute. reflexivity.
  - vm_compute. reflexivity.
  - destruct (Moved "DOCX") as [R F].
    + vm_compute. reflexivity.
    + vm_compute. reflexivity.
    + split; [exact R|]. split; [apply F; vm_compute; reflexivity|].
      split; apply Gone; vm_compute; reflexivity.
Defined.

(** ** What the handler answers (C1, C2) *)

Section Yields.
Context {S : Type}.

Lemma yields_ret {A} (Q : A -> Prop) (a : A) : Q a -> yields Q (ret a : M S A).
Proof. intros q s a' s' [= <- _]. exact q. Qed.

Lemma yields_bind {A B} (Q : B -> Prop) (m : M S A) (k : A -> M S B) :
  (forall a, yields Q (k a)) -> yields Q (bind m k).
Proof.
  intros Hk s b s'. unfold bind. destruct (m s) as [[a|e] s1]; [apply Hk|discriminate].
Qed.
Lemma yields_bind_post {A B} (P : A -> Prop) (Q : B -> Prop)
    (m : M S A) (k : A -> M S B) :
  yields P m -> (forall a, P a -> yields Q (k a)) -> yields Q (bind m k).
Proof.
  intros Hm Hk s b s'. unfold bind. destruct (m s) as [[a|e] s1] eqn:E; [|discriminate].
  apply Hk. exact (Hm _ _ _ E).
Qed.
End Yields.

(** The handler returns, and ends the request in one of the ways of
    [from_handler]. *)
Lemma handler_answers (h : Host) (req : Req) (w : World) :
  exists r w', convert h req w = (Ok r, w') /\ from_handler r.
Proof.
  unfold convert, with_frame, try_catch.
  destruct (convert_try h req (mkFrame None None None w)) as [[r|e] fr] eqn:E.
  - exists r, (world fr). split; [reflexivity|].
    revert E. generalize (mkFrame None None None w). intros fr0 E.
    assert (Y : yields from_handler (convert_try h req)); [|exact (Y _ _ _ E)].
    clear. unfold convert_try.
    destruct (req_file req) as [file|]; [|apply yields_ret; left; reflexivity].
    destruct (String.eqb _ ""); [apply yields_ret; left; reflexivity|].
    apply yields_bind. intros _. apply yields_bind. intros now.
    apply (yields_bind_post (fun r => r = None \/ exists msg, r = Some (Json 400 msg))).
    { repeat match goal with
             | |- yields _ (if ?b then _ else _) => destruct b
             | |- yields _ (bind _ _) => apply yields_bind; intros ?
             | |- yields _ (ret None) => apply yields_ret; left; reflexivity
             | |- yields _ (ret (Some _)) => apply yields_ret; right; eexists; reflexivity
             end. }
    intros returned [->|[msg ->]].
    + apply yields_bind. intros fr1. unfold res_download.
      apply yields_bind. intros sent. apply yields_bind. intros _.
      apply yields_ret. destruct sent; exact I.
    + apply yields_ret. left. reflexivity.
  - destruct (convert_catch_returns h e fr) as (msg & fr' & ->).
    exists (Json 500 msg), (world fr'). split; [reflexivity|]. right. reflexivity.
Qed.

(** A request the router sends to a helper never ends with a 400. *)
Lemma routed_request_is_not_rejected (h : Host) (file : StoredFile) (body : option string)
    (w : World) (op : Operation) :
  Spec.route (ext_of h file) (target_of body) = Some op ->
  exists r w',
    convert h (mkReq (Some file) body) w = (Ok r, w') /\ not_rejected r.
Proof.
  intros R. unfold convert, with_frame, try_catch.
  destruct (convert_try h _ (mkFrame None None None w)) as [[r|e] fr] eqn:E.
  - exists r, (world fr). split; [reflexivity|].
    revert E. generalize (mkFrame None None None w). intros fr0 E.
    assert (Y : yields not_rejected (convert_try h (mkReq (Some file) body)));
      [|exact (Y _ _ _ E)].
    clear E. unfold convert_try. cbn [req_file req_body_targetFormat].
    fold (target_of body). fold (ext_of h file).
    revert R. generalize (target_of body) as tf, (ext_of h file) as ext. intros tf ext.
    unfold Spec.route, JS.includes.
    cbn [List.find existsb Spec.compatibility_table fst snd].
    intros R.
    destruct (String.eqb_spec tf "") as [->|Ht0].
    { exfalso. revert R.
      repeat (match goal with |- context [String.eqb ext ?c] =>
                destruct (String.eqb_spec ext c) as [->|?] end; cbn);
        cbn; discriminate. }
    apply yields_bind. intros _. apply yields_bind. intros now.
    apply (yields_bind_post (fun returned : option Response => returned = None)).
    { revert R.
      destruct (String.eqb_spec tf "pdf") as [->|Ht1];
        [| destruct (String.eqb_spec tf "jpg") as [->|Ht2];
           [| destruct (String.eqb_spec tf "docx") as [->|Ht3] ] ];
        repeat (match goal with |- context [String.eqb ext ?c] =>
                  destruct (String.eqb_spec ext c) as [->|?] end;
                cbn [andb orb String.eqb Ascii.eqb Bool.eqb fmap option_fmap option_map snd]);
        cbn [andb orb String.eqb Ascii.eqb Bool.eqb fmap option_fmap option_map snd];
        intros R; try discriminate R;
        repeat match goal with
               | |- yields _ (bind _ _) => apply yields_bind; intros ?
               | |- yields _ (ret None) => apply yields_ret; reflexivity
               end. }
    intros returned ->. apply yields_bind. intros fr1. unfold res_download.
    apply yields_bind. intros sent. apply yields_bind. intros _.
    apply yields_ret. destruct sent; exact I.
  - destruct (convert_catch_returns h e fr) as (msg & fr' & ->).
    exists (Json 500 msg), (world fr'). split; reflexivity.
Qed.

(** An upload the filter refuses never reaches the handler: the framework
    answers with its own error page. *)
Lemma refused_type_goes_to_the_framework (h : Host) (file : Upload)
    (target : option string) (w : World) :
  JS.includes allowed_mimetypes (mimetype file) = false ->
  post_convert h (mkHttp (Some file) target) w =
  (Ok (DefaultError 500
         (new_Error "File type not supported. Use DOCX, PPTX, XLSX, PDF, JPG, or PNG.")),
   w).
Proof.
  intros F. unfold post_convert, upload_single, fileFilter, bind, try_catch.
  cbn [part_file]. rewrite F. reflexivity.
Qed.

(** An upload over the size limit stops in the middleware as well. *)
Lemma oversize_goes_to_the_framework (h : Host) (file : Upload)
    (target : option string) (w : World) :
  JS.includes allowed_mimetypes (mimetype file) = true ->
  limits_fileSize < size file ->
  post_convert h (mkHttp (Some file) target) w =
  (Ok (DefaultError 500 file_too_large), mkWorld (fs w) (trace w) (S (ticks w))).
Proof.
  intros F L. unfold post_convert, upload_single, fileFilter, bind, try_catch.
  cbn [part_file]. rewrite F. unfold storage_filename, bind, Fs.Date_now, ret.
  cbn [fs trace ticks]. apply Z.ltb_lt in L. rewrite L. reflexivity.
Qed.

(** C1. A request with a stored upload that the handler turns down, for a
    missing target format or for a pair outside the table, is answered with
    a 400 while its upload stays in the uploads area: the [return] statements
    of lines 179 and 203 leave the handler without the clean-up that its
    [catch] block and its download callback perform. *)
Theorem rejected_request_keeps_its_upload :
  let stored := "/app/uploads/report-1700000000000.pdf" in
  let no_target :=
    post_convert Scenario.linux (mkHttp (Some Scenario.pdf_upload) None) Scenario.idle in
  let bad_pair :=
    post_convert Scenario.linux (mkHttp (Some Scenario.pdf_upload) (Some "pdf")) Scenario.idle in
  no_target.1 = Ok (Json 400 "targetFormat is required (pdf, jpg, or docx).")
  /\ fs no_target.2 !! stored = Some (File "%PDF-1.7")
  /\ bad_pair.1 = Ok (Json 400 (unsupported_message ".pdf" "pdf"))
  /\ fs bad_pair.2 !! stored = Some (File "%PDF-1.7").
Proof. vm_compute. auto. Qed.

(** By contrast, a conversion that fails is cleaned up after. *)
Example failed_conversion_is_cleaned_up :
  let after :=
    post_convert Scenario.bare_linux (mkHttp (Some Scenario.pdf_upload) (Some "docx"))
      Scenario.idle in
  after.1 = Ok (Json 500 "ENOENT: libreoffice") /\ fs after.2 = Scenario.disk.
Proof. vm_compute. auto. Qed.

(** C2. An upload of a type outside the allow-list, and an upload over the
    size limit, are refused by the upload middleware before the handler runs;
    the error goes to the framework, which answers with status 500 and its
    own error page, not with a 400 and a JSON body. (What the handler itself
    answers is in [handler_answers], [router_follows_table] and
    [routed_request_answers].) *)
Theorem middleware_refusals_are_not_json_400 :
  let wrong_type :=
    post_convert Scenario.linux (mkHttp (Some Scenario.txt_upload) (Some "pdf")) Scenario.idle in
  let too_large :=
    post_convert Scenario.linux (mkHttp (Some Scenario.big_upload) (Some "jpg")) Scenario.idle in
  wrong_type.1 =
    Ok (DefaultError 500
          (new_Error "File type not supported. Use DOCX, PPTX, XLSX, PDF, JPG, or PNG."))
  /\ too_large.1 = Ok (DefaultError 500 file_too_large)
  /\ forall r, r = wrong_type.1 \/ r = too_large.1 ->
       exists answer, r = Ok answer
         /\ status_of answer = Some 500 /\ json_error_body answer = None.
Proof.
  vm_compute. split; [reflexivity|]. split; [reflexivity|].
  intros r [->| ->]; eexists; split; try reflexivity; split; reflexivity.
Qed.

(** ** Start-up (C8) *)

(** With [PORT] unset the port is the number 3000, and the retries stop of
    themselves: six calls of [listen] settle the promise. *)
Lemma default_port_settles (h : Host) (w : World) :
  JS.truthy (env h "PORT") = false ->
  (tryListen h 6 (PORT h) w).1 <> Ok None.
Proof.
  intros E. unfold PORT. rewrite E.
  assert (G : forall k, JS.lt (JS.Num (3000 + k)) (JS.add (JS.Num 3000) maxTries)
                        = Z.ltb k 5).
  { intros k. cbn. destruct (Z.ltb_spec (3000 + k) 3005), (Z.ltb_spec k 5); auto; lia. }
  assert (St : forall k p, p = JS.Num (3000 + k) ->
                 JS.add p (JS.Num 1) = JS.Num (3000 + (k + 1))).
  { intros k p ->. cbn. f_equal. lia. }
  change (JS.Num 3000) with (JS.Num (3000 + 0)) at 1.
  generalize (eq_refl (JS.Num (3000 + 0))).
  generalize (JS.Num (3000 + 0)) at 2 3 as p0. intros p0 E0.
  revert w.
  assert (Last : forall w p, p = JS.Num (3000 + 5) -> (tryListen h 1 p w).1 <> Ok None).
  { intros w p ->. cbn [tryListen]. unfold bind, emit. cbn [fs trace ticks].
    destruct (listen h _) as [err|]; [|discriminate].
    unfold PORT. rewrite E, (G 5). rewrite andb_false_r. discriminate. }
  assert (Step : forall n k,
             (forall w p, p = JS.Num (3000 + (k + 1)) -> (tryListen h n p w).1 <> Ok None) ->
             forall w p, p = JS.Num (3000 + k) -> (tryListen h (S n) p w).1 <> Ok None).
  { intros n k IH w p Hp. cbn [tryListen]. unfold bind at 1, emit at 1. cbn [fs trace ticks].
    destruct (listen h p) as [err|]; [|discriminate].
    destruct (_ && _); [|discriminate].
    apply IH. apply St. exact Hp. }
  intros w. eapply (Step 5%nat 0); [|symmetry; exact E0].
  apply (Step 4%nat 1), (Step 3%nat 2), (Step 2%nat 3), (Step 1%nat 4). exact Last.
Qed.

Lemma str_compare_app (s a b : string) :
  String.compare (s +:+ a) (s +:+ b) = String.compare a b.
Proof.
  induction s as [|c s IH]; [reflexivity|].
  rewrite !str_cons_app. cbn [String.compare].
  assert (R : Ascii.compare c c = Eq) by (unfold Ascii.compare; apply N.compare_refl).
  rewrite R. exact IH.
Qed.

(** With [PORT] set, [PORT + maxTries] and [p + 1] concatenate, and the
    comparison that is to stop the retries holds for every candidate: the
    candidates are the port followed by ones, the bound is the port followed
    by a five. *)
Lemma env_port_guard_never_stops (h : Host) (s : string) (k : nat) :
  PORT h = JS.Str s ->
  Nat.iter k (fun p => JS.add p (JS.Num 1)) (PORT h) =
    JS.Str (s +:+ Nat.iter k (String "1") "")
  /\ JS.lt (Nat.iter k (fun p => JS.add p (JS.Num 1)) (PORT h))
           (JS.add (PORT h) maxTries) = true.
Proof.
  intros ->.
  assert (I : Nat.iter k (fun p => JS.add p (JS.Num 1)) (JS.Str s) =
              JS.Str (s +:+ Nat.iter k (String "1") "")).
  { induction k as [|k IH].
    - cbn. f_equal. induction s as [|c s IHs]; [reflexivity|].
      rewrite str_cons_app, <- IHs. reflexivity.
    - rewrite Nat.iter_succ, IH. cbn [JS.add JS.toString]. f_equal.
      change (JS.show 1) with "1". rewrite str_app_assoc. f_equal.
      clear. induction k as [|k IH]; [reflexivity|].
      rewrite Nat.iter_succ at 1. rewrite str_cons_app, IH, <- Nat.iter_succ. reflexivity. }
  split; [exact I|]. rewrite I. cbn [JS.add JS.lt JS.toString maxTries].
  change (JS.show 5) with "5". unfold String.ltb. rewrite str_compare_app.
  destruct k; reflexivity.
Qed.

(** So with [PORT] set and every port taken the retries go on for as long as
    [listen] reports a port in use; what ends them on a real machine is
    [listen] refusing a number that is no port. *)
Lemma env_port_retries_unbounded (h : Host) (s : string) (fuel : nat) (w : World) :
  PORT h = JS.Str s ->
  (forall p, exists err, listen h p = Some err /\ is_EADDRINUSE err = true) ->
  (tryListen h fuel (PORT h) w).1 = Ok None.
Proof.
  intros P L.
  assert (G : forall k fuel w,
             (tryListen h fuel (Nat.iter k (fun p => JS.add p (JS.Num 1)) (PORT h)) w).1
             = Ok None).
  { intros k fuel'. revert k. induction fuel' as [|n IH]; intros k w'; [reflexivity|].
    cbn [tryListen]. unfold bind at 1, emit at 1. cbn [fs trace ticks].
    destruct (L (Nat.iter k (fun p => JS.add p (JS.Num 1)) (PORT h))) as (err & -> & ->).
    destruct (env_port_guard_never_stops h s k P) as [_ ->]. cbn [andb].
    apply (IH (S k)). }
  exact (G 0%nat fuel w).
Qed.

(** With [PORT] unset and every port taken, the sixth refusal is fatal. *)
Example crowded_host_exits :
  main Scenario.crowded 6 Scenario.idle =
  (Ok (Exited 1),
   mkWorld Scenario.disk
     [ Listen (JS.Num 3000); Listen (JS.Num 3001); Listen (JS.Num 3002);
       Listen (JS.Num 3003); Listen (JS.Num 3004); Listen (JS.Num 3005);
       ConsoleError "Failed to start server: listen EADDRINUSE: address already in use";
       Exit 1 ] 0).
Proof. vm_compute. reflexivity. Qed.

(** C8. With [PORT=3000] in the environment and port 3000 taken, the second
    call of [listen] is for ["30001"]: the retry appends a 1 to the string
    instead of adding 1 to the port. With [PORT] unset the same machine is
    asked for 3001. *)
Theorem env_port_is_not_incremented :
  trace (main Scenario.port_from_env 6 Scenario.idle).2 =
    [ Listen (JS.Str "3000"); Listen (JS.Str "30001");
      ConsoleLog "Universal File Converter running at http://localhost:30001" ]
  /\ trace (main Scenario.port_default 6 Scenario.idle).2 =
     [ Listen (JS.Num 3000); Listen (JS.Num 3001);
       ConsoleLog "Universal File Converter running at http://localhost:3001" ].
Proof. vm_compute. auto. Qed.

(** ** Scratch names (C9) *)

Section Names.
Variable h : Host.

Lemma str_app_swing (a b c d : string) : a +:+ b +:+ c +:+ d = (a +:+ b +:+ c) +:+ d.
Proof. rewrite !str_app_assoc. reflexivity. Qed.

Lemma str_app_empty (a : string) : a +:+ "" = a.
Proof. induction a as [|c a IH]; [reflexivity|]. rewrite str_cons_app, IH. reflexivity. Qed.

Lemma from_last_dot_none (s : string) :
  Path.from_last_dot s = None <-> occurs "." s = false.
Proof.
  induction s as [|c s IH]; [tauto|]. cbn [Path.from_last_dot occurs].
  destruct (Path.from_last_dot s) as [e|].
  - split; [discriminate|]. intros [_ O]%orb_false_iff.
    apply IH in O. discriminate.
  - destruct IH as [IH _]. rewrite (IH eq_refl), orb_false_r.
    destruct (Ascii.eqb c "."); split; congruence.
Qed.

Lemma from_last_dot_tail (a e : string) :
  occurs "." e = false ->
  Path.from_last_dot (a +:+ String "." e) = Some (String "." e).
Proof.
  intros O. induction a as [|c a IH].
  - change ("" +:+ String "." e) with (String "." e). cbn [Path.from_last_dot].
    apply from_last_dot_none in O. rewrite O. reflexivity.
  - rewrite str_cons_app. cbn [Path.from_last_dot]. rewrite IH. reflexivity.
Qed.

Lemma from_last_dot_shape (s e : string) :
  Path.from_last_dot s = Some e ->
  exists p r, s = p +:+ e /\ e = String "." r /\ occurs "." r = false.
Proof.
  revert e. induction s as [|c s IH]; [discriminate|]. intros e.
  cbn [Path.from_last_dot]. destruct (Path.from_last_dot s) as [x|] eqn:F.
  - intros [= <-]. destruct (IH x eq_refl) as (p & r & -> & -> & O).
    exists (String c p), r. auto.
  - destruct (Ascii.eqb_spec c ".") as [->|]; [|discriminate]. intros [= <-].
    exists "", s. apply from_last_dot_none in F. auto.
Qed.

Lemma from_last_dot_app (a b : string) :
  occurs "." b = false ->
  Path.from_last_dot (a +:+ b) = (fun x => x +:+ b) <$> Path.from_last_dot a.
Proof.
  intros O. induction a as [|c a IH].
  - apply from_last_dot_none in O. exact O.
  - rewrite str_cons_app. cbn [Path.from_last_dot]. rewrite IH.
    destruct (Path.from_last_dot a); [reflexivity|].
    destruct (Ascii.eqb c "."); reflexivity.
Qed.

Lemma length_last_segment (p : string) :
  (String.length (Path.last_segment h p) <= String.length p)%nat.
Proof.
  induction p as [|c p IH]; [reflexivity|]. cbn [Path.last_segment String.length].
  destruct (existsb _ _); [lia|]. destruct (Path.is_sep h c); cbn; lia.
Qed.

Lemma strip_suffix_eq (s suffix : string) :
  Path.strip_suffix s suffix =
  if String.eqb s suffix then Some ""
  else match s with
       | EmptyString => None
       | String c r => String c <$> Path.strip_suffix r suffix
       end.
Proof. destruct s; reflexivity. Qed.

Lemma strip_suffix_app (p e : string) : Path.strip_suffix (p +:+ e) e = Some p.
Proof.
  induction p as [|c p IH].
  - change ("" +:+ e) with e. rewrite strip_suffix_eq, String.eqb_refl. reflexivity.
  - rewrite str_cons_app, strip_suffix_eq.
    destruct (String.eqb_spec (String c (p +:+ e)) e) as [E|_].
    + apply (f_equal String.length) in E. cbn in E. rewrite str_length_app in E. lia.
    + rewrite IH. reflexivity.
Qed.

(** How [extname] and [basename] cut the last segment of a name. *)
Lemma stem_and_extension (name : string) :
  let seg := Path.last_segment h name in
  let e := Path.extname h name in
  let b := Path.basename_ext h name e in
  (e = "" /\ b = seg
   /\ (occurs "." seg = false \/ Path.from_last_dot seg = Some seg \/ seg = ".."))
  \/ (exists r, e = String "." r /\ occurs "." r = false /\ seg = b +:+ e /\ b <> "").
Proof.
  intros seg e b. subst e b. unfold Path.extname. fold seg.
  destruct (Path.from_last_dot seg) as [x|] eqn:F.
  - destruct (String.eqb_spec x seg) as [->|N]; cbn [orb].
    + left. unfold Path.basename_ext. cbn. auto.
    + destruct (String.eqb_spec seg "..") as [E|N'].
      * left. unfold Path.basename_ext. cbn. auto.
      * right. destruct (from_last_dot_shape seg x F) as (p & r & Es & -> & O).
        exists r. split; [reflexivity|]. split; [exact O|].
        assert (Hp : p <> "") by (intros ->; apply N; rewrite Es; reflexivity).
        unfold Path.basename_ext. fold seg.
        destruct (String.eqb_spec (String "." r) "") as [E|_]; [discriminate|].
        destruct (String.eqb_spec (String "." r) name) as [E|_].
        { exfalso. pose proof (length_last_segment name) as L. fold seg in L.
          rewrite Es, <- E, str_length_app in L. destruct p; [congruence|cbn in L; lia]. }
        rewrite Es, strip_suffix_app. destruct p; [congruence|]. auto.
  - left. unfold Path.basename_ext. cbn. apply from_last_dot_none in F. auto.
Qed.

Lemma occurs_show (c : ascii) (t : Z) :
  is_digit c = false -> 0 <= t -> occurs c (JS.show t) = false.
Proof. intros D T. apply digits_lack; [exact D|apply digits_show; exact T]. Qed.

(** A stem, a dash and a reading determine the reading. *)
Lemma dash_reading_inj (b1 b2 : string) (t1 t2 : Z) :
  0 <= t1 -> 0 <= t2 ->
  b1 +:+ "-" +:+ JS.show t1 = b2 +:+ "-" +:+ JS.show t2 -> t1 = t2.
Proof.
  intros T1 T2 E. apply show_inj.
  apply (cut_at_last "-" b1 b2); [apply occurs_show| apply occurs_show |exact E];
    auto.
Qed.

Lemma unique_name_clock (n1 n2 : string) (t1 t2 : Z) :
  0 <= t1 -> 0 <= t2 ->
  unique_name h n1 t1 = unique_name h n2 t2 -> t1 = t2.
Proof.
  intros T1 T2. unfold unique_name.
  pose proof (occurs_show "." t1 eq_refl T1) as D1.
  pose proof (occurs_show "." t2 eq_refl T2) as D2.
  assert (Tail : forall t, 0 <= t -> occurs "." ("-" +:+ JS.show t) = false).
  { intros t T. change ("-" +:+ JS.show t) with (String "-" (JS.show t)).
    cbn [occurs]. rewrite (occurs_show "." t eq_refl T). reflexivity. }
  assert (Mixed : forall b r seg t t',
             0 <= t -> 0 <= t' -> b <> "" -> occurs "." r = false ->
             (occurs "." seg = false \/ Path.from_last_dot seg = Some seg \/ seg = "..") ->
             b +:+ "-" +:+ JS.show t +:+ String "." r = seg +:+ "-" +:+ JS.show t' +:+ "" ->
             False).
  { intros b r seg t t' Ht Ht' Hb Or Hseg E.
    assert (E' : (b +:+ "-" +:+ JS.show t) +:+ String "." r = seg +:+ ("-" +:+ JS.show t')).
    { rewrite <- str_app_swing, E, str_app_empty. reflexivity. }
    pose proof (f_equal Path.from_last_dot E') as F.
    rewrite (from_last_dot_tail _ r Or), (from_last_dot_app seg _ (Tail t' Ht')) in F.
    destruct Hseg as [O|[S| ->]].
    - apply from_last_dot_none in O. rewrite O in F. discriminate.
    - rewrite S in F. cbn in F. injection F as F. rewrite <- F in E'.
      apply (f_equal String.length) in E'. rewrite !str_length_app in E'. cbn in E'.
      destruct b; [congruence|cbn in E'; lia].
    - cbn in F. injection F as F.
      assert (R : ".." +:+ "-" +:+ JS.show t' = "." +:+ String "." r)
        by (rewrite F; reflexivity).
      rewrite R in E'. apply str_app_inv_tail in E'. apply (f_equal String.length) in E'.
      rewrite !str_length_app in E'. destruct b; [congruence|cbn in E'; lia]. }
  destruct (stem_and_extension n1) as [(-> & -> & S1)|(r1 & -> & O1 & _ & B1)];
    destruct (stem_and_extension n2) as [(-> & -> & S2)|(r2 & -> & O2 & _ & B2)];
    intros E.
  - rewrite !str_app_empty in E. eapply dash_reading_inj; eassumption.
  - exfalso. symmetry in E. eapply (Mixed _ r2 _ t2 t1); eassumption.
  - exfalso. eapply (Mixed _ r1 _ t1 t2); eassumption.
  - rewrite (str_app_swing _ "-" (JS.show t1) (String "." r1)),
      (str_app_swing _ "-" (JS.show t2) (String "." r2)) in E.
    apply (cut_at_last ".") in E; [|assumption..].
    destruct E as [E _]. eapply dash_reading_inj; eassumption.
Qed.

Lemma out_base_clock (n1 n2 : string) (t1 t2 : Z) (suffix : string) :
  0 <= t1 -> 0 <= t2 ->
  out_base h n1 t1 +:+ suffix = out_base h n2 t2 +:+ suffix -> t1 = t2.
Proof.
  intros T1 T2 E. apply str_app_inv_tail in E. unfold out_base, Path.join in E.
  rewrite !(str_app_swing (OUTPUTS_DIR h) (Path.sep h)) in E.
  eapply dash_reading_inj; eassumption.
Qed.
End Names.

Lemma str_app_inv_head (a x y : string) : a +:+ x = a +:+ y -> x = y.
Proof.
  induction a as [|c a IH]; [exact (fun E => E)|].
  rewrite !str_cons_app. intros [= E]. exact (IH E).
Qed.

(** C9, as the code has it. The stored name of an upload and the stem of the
    output paths carry the reading of [Date.now()] taken when they are made,
    and nothing else sets two requests apart: whenever the readings of two
    requests differ, their upload paths differ and so do their output paths
    (the stem followed by the same ending), whatever the two file names are;
    and two uploads of one name for which the clock reads the same are given
    the same stored name. *)
Theorem scratch_names_follow_the_clock (h : Host) (n1 n2 : string) (t1 t2 : Z) :
  0 <= t1 -> 0 <= t2 -> t1 <> t2 ->
  (forall file w,
      (storage_filename h file w).1 =
      Ok (unique_name h (originalname file) (clock h (ticks w))))
  /\ Path.join h (UPLOADS_DIR h) (unique_name h n1 t1)
     <> Path.join h (UPLOADS_DIR h) (unique_name h n2 t2)
  /\ (forall ending, out_base h n1 t1 +:+ ending <> out_base h n2 t2 +:+ ending)
  /\ (forall file file' w w',
        originalname file = originalname file' ->
        clock h (ticks w) = clock h (ticks w') ->
        (storage_filename h file w).1 = (storage_filename h file' w').1).
Proof.
  intros T1 T2 N. split; [reflexivity|]. split; [|split].
  - unfold Path.join. intros E. do 2 apply str_app_inv_head in E.
    apply N. eapply unique_name_clock; eassumption.
  - intros ending E. apply N. eapply out_base_clock; eassumption.
  - intros file file' w w' En Ec. unfold storage_filename, bind, Fs.Date_now, ret.
    cbn [fst]. rewrite En, Ec. reflexivity.
Qed.

Lemma scratch_names_follow_the_clock_witness :
  Path.join Scenario.linux (UPLOADS_DIR Scenario.linux)
    (unique_name Scenario.linux "report.pdf" 1700000000000)
  <> Path.join Scenario.linux (UPLOADS_DIR Scenario.linux)
       (unique_name Scenario.linux "report.pdf" 1700000000001)
  /\ out_base Scenario.linux "report.pdf" 1700000000000 +:+ "-docx"
     <> out_base Scenario.linux "report.pdf" 1700000000001 +:+ "-docx".
Proof.
  destruct (scratch_names_follow_the_clock Scenario.linux "report.pdf" "report.pdf"
              1700000000000 1700000000001) as (_ & U & O & _); [lia | lia | lia |].
  split; [exact U | exact (O "-docx")].
Defined.

(** Two uploads of the same name within one millisecond are stored at the
    same path: the second overwrites the first, and the clean-up of the first
    request deletes the upload of the second. *)
Lemma same_millisecond_requests_collide :
  let h := Scenario.same_millisecond in
  let first := mkHttp (Some (mkUpload "report.pdf" "application/pdf" 2048 "first")) (Some "docx") in
  let second := mkHttp (Some (mkUpload "report.pdf" "application/pdf" 2048 "second")) (Some "docx") in
  let stored := mkStored "report.pdf" "application/pdf" "/app/uploads/report-1700000000000.pdf" 2048 in
  let a := upload_single h first Scenario.idle in
  let b := upload_single h second a.2 in
  first <> second
  /\ a.1 = Ok (mkReq (Some stored) (Some "docx"))
  /\ b.1 = Ok (mkReq (Some stored) (Some "docx"))
  /\ fs b.2 !! file_path stored = Some (File "second")
  /\ fs (convert h (mkReq (Some stored) (Some "docx")) b.2).2 !! file_path stored = None.
Proof.
  cbv zeta. split; [discriminate|]. vm_compute. auto.
Qed.

(** * Further properties of [server.js] *)

(** ** Office documents *)

Lemma officeToPdf_runs (h : Host) (input output : string) (w : World) :
  officeToPdf h input output w =
  let ext := JS.toLowerCase (Path.extname h input) in
  let t := (trace w ++ [Enter OfficeToPdf input output])%list in
  if negb (JS.includes [".docx"; ".pptx"; ".xlsx"] ext)
  then (Throw (new_Error ("Unsupported office format: " +:+ ext)), mkWorld (fs w) t (ticks w))
  else
    match fs w !! input with
    | None => (Throw (Fs.system_error "ENOENT" input), mkWorld (fs w) t (ticks w))
    | Some Dir => (Throw (Fs.system_error "EISDIR" input), mkWorld (fs w) t (ticks w))
    | Some (File buffer) =>
        let t' := (t ++ [LibreConvert buffer ".pdf"])%list in
        match libre_convert h buffer ".pdf" with
        | inl e => (Throw e, mkWorld (fs w) t' (ticks w))
        | inr pdf =>
            match fs w !! output with
            | Some Dir => (Throw (Fs.system_error "EISDIR" output), mkWorld (fs w) t' (ticks w))
            | _ => (Ok tt, mkWorld (<[output := File pdf]> (fs w)) t' (ticks w))
            end
        end
    end.
Proof.
  destruct w as [f t n]. cbn [fs trace ticks]. cbv zeta.
  unfold officeToPdf. unfold bind at 1, emit at 1. cbn [fs trace ticks].
  destruct (negb _); [reflexivity|].
  unfold bind at 1, Fs.readFile at 1, bind at 1, read_fs at 1. cbn [fs trace ticks].
  destruct (f !! input) as [[buffer|]|]; try reflexivity.
  unfold ret at 1, bind at 1, libreConvert, bind at 1, emit at 1. cbn [fs trace ticks].
  destruct (libre_convert h buffer ".pdf") as [e|pdf]; [reflexivity|].
  unfold ret, Fs.writeFile, bind, read_fs, modify_fs, throw. cbn [fs trace ticks].
  destruct (f !! output) as [[|]|]; reflexivity.
Qed.

(** X1. [officeToPdf] checks the extension of its input before anything
    else: for an input whose lower-cased extension is not .docx, .pptx or
    .xlsx it fails with "Unsupported office format: <ext>", whether the input
    exists or not; the file is not read, the converter is not called and the
    file system is left as it was. *)
Theorem officeToPdf_checks_the_extension_first (h : Host) (input output : string) (w : World) :
  JS.includes [".docx"; ".pptx"; ".xlsx"] (JS.toLowerCase (Path.extname h input)) = false ->
  officeToPdf h input output w =
  (Throw (new_Error ("Unsupported office format: " +:+ JS.toLowerCase (Path.extname h input))),
   mkWorld (fs w) (trace w ++ [Enter OfficeToPdf input output]) (ticks w)).
Proof. intros E. rewrite officeToPdf_runs. cbv zeta. rewrite E. reflexivity. Qed.

Lemma officeToPdf_checks_the_extension_first_witness :
  officeToPdf Scenario.linux "/app/uploads/notes-17.odt" "/app/outputs/notes-18.pdf" Scenario.idle =
  (Throw (new_Error "Unsupported office format: .odt"),
   mkWorld Scenario.disk
     [Enter OfficeToPdf "/app/uploads/notes-17.odt" "/app/outputs/notes-18.pdf"] 0).
Proof.
  pose proof (officeToPdf_checks_the_extension_first Scenario.linux
                "/app/uploads/notes-17.odt" "/app/outputs/notes-18.pdf" Scenario.idle) as T.
  apply T. vm_compute. reflexivity.
Defined.

(** X2. For an input with an office extension (in any case) that is a
    readable file, [officeToPdf] hands the bytes of the file to the converter
    once, asking for ".pdf". When the converter fails, its error is the
    helper's and nothing is written; when it returns, the output path holds
    exactly the converter's bytes and no other path has changed. *)
Theorem officeToPdf_writes_what_the_converter_returns
    (h : Host) (input output : string) (w : World) (buffer : string) :
  JS.includes [".docx"; ".pptx"; ".xlsx"] (JS.toLowerCase (Path.extname h input)) = true ->
  fs w !! input = Some (File buffer) ->
  fs w !! output <> Some Dir ->
  let after := officeToPdf h input output w in
  trace after.2 = (trace w ++ [Enter OfficeToPdf input output; LibreConvert buffer ".pdf"])%list
  /\ match libre_convert h buffer ".pdf" with
     | inl e => after.1 = Throw e /\ fs after.2 = fs w
     | inr pdf =>
         after.1 = Ok tt
         /\ fs after.2 !! output = Some (File pdf)
         /\ forall p, p <> output -> fs after.2 !! p = fs w !! p
     end.
Proof.
  intros E Hin Hout after. subst after. rewrite officeToPdf_runs. cbv zeta.
  rewrite E, Hin. cbn [negb].
  destruct (libre_convert h buffer ".pdf") as [e|pdf].
  - cbn. rewrite <- app_assoc. auto.
  - destruct (fs w !! output) as [[d|]|] eqn:O; [|congruence|];
      cbn [fst snd fs trace]; rewrite <- app_assoc;
      (split; [reflexivity|]); (split; [reflexivity|]);
      (split; [apply lookup_insert_eq|]);
      intros p N; apply lookup_insert_ne; congruence.
Qed.

Lemma officeToPdf_writes_what_the_converter_returns_witness :
  let w := mkWorld (<["/app/uploads/a-1.DOCX" := File "PK"]> Scenario.disk) [] 0 in
  let after := officeToPdf Scenario.linux "/app/uploads/a-1.DOCX" "/app/outputs/a-2.pdf" w in
  after.1 = Ok tt /\ fs after.2 !! "/app/outputs/a-2.pdf" = Some (File "%PDF of PK").
Proof.
  intros w after.
  pose proof (officeToPdf_writes_what_the_converter_returns Scenario.linux
                "/app/uploads/a-1.DOCX" "/app/outputs/a-2.pdf" w "PK") as T.
  cbv zeta in T.
  destruct T as (_ & T); [vm_compute; reflexivity | vm_compute; reflexivity
                         | vm_compute; discriminate |].
  change (libre_convert Scenario.linux "PK" ".pdf") with (@inr Error string "%PDF of PK") in T.
  destruct T as (T1 & T2 & _). split; [exact T1 | exact T2].
Defined.

(** ** The LibreOffice command *)

(** X3. [getLibreOfficeCommand] is "libreoffice" on every platform but
    Windows. On Windows it is the first of the two candidate paths (under
    %PROGRAMFILES%, then under %ProgramFiles(x86)%, each with its default when
    the variable is unset or empty) that exists, and the bare command
    "soffice" when neither exists: it never names a path that is not
    there. *)
Theorem getLibreOfficeCommand_names_an_installed_program (h : Host) (f : FS) :
  let in_dir prog :=
    Path.join h (Path.join h (Path.join h prog "LibreOffice") "program") "soffice.exe" in
  let first := in_dir (JS.or_else (env h "PROGRAMFILES") "C:\Program Files") in
  let second := in_dir (JS.or_else (env h "ProgramFiles(x86)") "C:\Program Files (x86)") in
  let cmd := getLibreOfficeCommand h f in
  (platform h <> "win32" -> cmd = "libreoffice")
  /\ (platform h = "win32" ->
      (Fs.existsSync f first = true -> cmd = first)
      /\ (Fs.existsSync f first = false -> Fs.existsSync f second = true -> cmd = second)
      /\ (Fs.existsSync f first = false -> Fs.existsSync f second = false -> cmd = "soffice")
      /\ (cmd = "soffice" \/ Fs.existsSync f cmd = true)).
Proof.
  intros in_dir first second cmd. subst cmd. unfold getLibreOfficeCommand.
  fold (in_dir (JS.or_else (env h "PROGRAMFILES") "C:\Program Files")).
  fold (in_dir (JS.or_else (env h "ProgramFiles(x86)") "C:\Program Files (x86)")).
  fold first. fold second.
  destruct (String.eqb_spec (platform h) "win32") as [W|W].
  - split; [congruence|]. intros _. cbn [List.find].
    destruct (Fs.existsSync f first) eqn:E1; [|destruct (Fs.existsSync f second) eqn:E2].
    + repeat split; try congruence. right. exact E1.
    + repeat split; try congruence. right. exact E2.
    + repeat split; try congruence. left. reflexivity.
  - split; [reflexivity|]. congruence.
Qed.

(** ** The scratch directories *)

Lemma scratch_dirs_differ (h : Host) : UPLOADS_DIR h <> OUTPUTS_DIR h.
Proof.
  unfold UPLOADS_DIR, OUTPUTS_DIR, Path.join. intros E.
  do 2 apply str_app_inv_head in E. discriminate.
Qed.


Lemma ensureDir_runs (p : string) (w : World) :
  Fs.ensureDir p w =
  match fs w !! p with
  | Some (File _) => (Throw (Fs.system_error "EEXIST" p), w)
  | _ => (Ok tt, mkWorld (<[p := Dir]> (fs w)) (trace w) (ticks w))
  end.
Proof.
  unfold Fs.ensureDir, bind, read_fs, modify_fs, throw.
  destruct (fs w !! p) as [[d|]|]; reflexivity.
Qed.

Lemma ensureDirs_runs (h : Host) (w : World) :
  ensureDirs h w =
  match fs w !! UPLOADS_DIR h with
  | Some (File _) => (Throw (Fs.system_error "EEXIST" (UPLOADS_DIR h)), w)
  | _ =>
      let w1 := mkWorld (<[UPLOADS_DIR h := Dir]> (fs w)) (trace w) (ticks w) in
      match fs w !! OUTPUTS_DIR h with
      | Some (File _) => (Throw (Fs.system_error "EEXIST" (OUTPUTS_DIR h)), w1)
      | _ => (Ok tt, mkWorld (<[OUTPUTS_DIR h := Dir]> (fs w1)) (trace w) (ticks w))
      end
  end.
Proof.
  pose proof (scratch_dirs_differ h) as N.
  unfold ensureDirs, bind. rewrite ensureDir_runs.
  destruct (fs w !! UPLOADS_DIR h) as [[d|]|]; try reflexivity;
    rewrite ensureDir_runs; cbn [fs trace ticks];
    rewrite lookup_insert_ne by exact N;
    destruct (fs w !! OUTPUTS_DIR h) as [[d|]|]; reflexivity.
Qed.

(** X4. [ensureDirs] succeeds exactly when no file sits at the path of the
    uploads or of the outputs directory. It then leaves both as directories
    and touches no other path, and it is idempotent: run again on the state
    it leaves, it changes nothing. It records no event on any outcome. *)
Theorem ensureDirs_makes_the_scratch_areas (h : Host) (w : World) :
  let after := ensureDirs h w in
  (after.1 = Ok tt <->
   (forall d, fs w !! UPLOADS_DIR h <> Some (File d))
   /\ (forall d, fs w !! OUTPUTS_DIR h <> Some (File d)))
  /\ (after.1 = Ok tt ->
      fs after.2 !! UPLOADS_DIR h = Some Dir
      /\ fs after.2 !! OUTPUTS_DIR h = Some Dir
      /\ (forall p, p <> UPLOADS_DIR h -> p <> OUTPUTS_DIR h -> fs after.2 !! p = fs w !! p)
      /\ ensureDirs h after.2 = (Ok tt, after.2))
  /\ trace after.2 = trace w.
Proof.
  pose proof (scratch_dirs_differ h) as N.
  assert (Done : forall f t n,
             f !! UPLOADS_DIR h = Some Dir -> f !! OUTPUTS_DIR h = Some Dir ->
             ensureDirs h (mkWorld f t n) = (Ok tt, mkWorld f t n)).
  { intros f t n U O. rewrite ensureDirs_runs. cbn [fs trace ticks]. rewrite U, O.
    cbn [fs]. rewrite (insert_id f _ _ U), (insert_id f _ _ O). reflexivity. }
  cbv zeta. rewrite ensureDirs_runs.
  destruct (fs w !! UPLOADS_DIR h) as [[d|]|] eqn:U.
  1:{ split; [|split; [discriminate|reflexivity]].
      split; [discriminate|]. intros [H _]. exfalso. exact (H d eq_refl). }
  all: destruct (fs w !! OUTPUTS_DIR h) as [[d|]|] eqn:O; cbn [fst snd fs trace ticks].
  1,4: split; [|split; [discriminate|reflexivity]];
       split; [discriminate|]; intros [_ H]; exfalso; exact (H d eq_refl).
  all: split; [split; [intros _; split; intros d; discriminate | reflexivity]|];
       split; [|reflexivity]; intros _;
       rewrite lookup_insert_eq, lookup_insert_ne, lookup_insert_eq by congruence;
       repeat split;
       [ intros p P1 P2; rewrite !lookup_insert_ne by congruence; reflexivity
       | apply Done;
         [ rewrite lookup_insert_ne, lookup_insert_eq by congruence; reflexivity
         | apply lookup_insert_eq ] ].
Qed.

(** ** The clean-up block *)

Lemma remove_if_exists_runs (h : Host) (v : option string) (w : World) :
  remove_if_exists h v w =
  if JS.truthy v && Fs.existsSync (fs w) (default "" v)
  then match remove_fails h (default "" v) with
       | Some e => (Throw e, w)
       | None => (Ok tt, mkWorld (Fs.prune h (default "" v) (fs w)) (trace w) (ticks w))
       end
  else (Ok tt, w).
Proof.
  unfold remove_if_exists, Fs.existsSync.
  destruct (JS.truthy v); [|reflexivity].
  unfold Fs.pathExists, Fs.remove, bind, read_fs, ret, throw, modify_fs. cbn [andb].
  destruct (fs w !! default "" v); [|reflexivity].
  destruct (remove_fails h (default "" v)); reflexivity.
Qed.

Lemma remove_if_exists_sweeps (h : Host) (v : option string) (w : World) :
  (forall p, v = Some p -> remove_fails h p = None) ->
  remove_if_exists h v w = (Ok tt, mkWorld (swept h v (fs w)) (trace w) (ticks w)).
Proof.
  intros H. rewrite remove_if_exists_runs. unfold swept.
  destruct (JS.truthy v && _) eqn:E; [|destruct w; reflexivity].
  destruct v as [p|]; [|discriminate]. cbn [from_option id]. rewrite (H p eq_refl). reflexivity.
Qed.

Lemma cleanup_sweeps (h : Host) (fr : Frame) :
  (forall p, In (Some p) (recorded fr) -> remove_fails h p = None) ->
  cleanup h fr =
  (Ok tt,
   mkFrame (uploadPath fr) (outputPath fr) (outputDirForPdf fr)
     (mkWorld
        (swept h (outputDirForPdf fr) (swept h (outputPath fr) (swept h (uploadPath fr)
           (fs (world fr)))))
        (trace (world fr)) (ticks (world fr)))).
Proof.
  intros H. destruct fr as [up out dir w]. unfold recorded in H.
  cbn [uploadPath outputPath outputDirForPdf world] in *.
  unfold cleanup, try_catch, bind, frame, lift.
  cbn [uploadPath outputPath outputDirForPdf world].
  rewrite remove_if_exists_sweeps by (intros p ->; apply H; cbn; auto).
  cbn [uploadPath outputPath outputDirForPdf world].
  rewrite remove_if_exists_sweeps by (intros p ->; apply H; cbn; auto).
  cbn [uploadPath outputPath outputDirForPdf world].
  rewrite remove_if_exists_sweeps by (intros p ->; apply H; cbn; auto).
  reflexivity.
Qed.


Lemma inside_self (h : Host) (p : string) : Fs.inside h p p = true.
Proof. unfold Fs.inside. rewrite String.eqb_refl. reflexivity. Qed.

Lemma swept_lookup (h : Host) (v : option string) (f : FS) (q : string) :
  swept h v f !! q = None \/ swept h v f !! q = f !! q.
Proof.
  unfold swept. destruct (_ && _); [|auto]. rewrite lookup_prune.
  destruct (Fs.inside h _ q); auto.
Qed.

Lemma swept_gone (h : Host) (p : string) (f : FS) :
  p <> "" -> swept h (Some p) f !! p = None.
Proof.
  intros N. unfold swept, JS.truthy, Fs.existsSync. cbn [from_option id].
  destruct (String.eqb_spec p "") as [|_]; [contradiction|]. cbn [negb andb].
  destruct (f !! p) eqn:E; [|exact E].
  rewrite lookup_prune, inside_self. reflexivity.
Qed.

Lemma swept_keeps_none (h : Host) (v : option string) (f : FS) (q : string) :
  f !! q = None -> swept h v f !! q = None.
Proof. intros E. destruct (swept_lookup h v f q) as [S|S]; congruence. Qed.

Lemma swept_outside (h : Host) (v : option string) (f : FS) (q : string) :
  (forall p, v = Some p -> Fs.inside h p q = false) ->
  swept h v f !! q = f !! q.
Proof.
  intros H. unfold swept. destruct (JS.truthy v && _) eqn:E; [|reflexivity].
  destruct v as [p|]; [|discriminate]. cbn [from_option id].
  rewrite lookup_prune, (H p eq_refl). reflexivity.
Qed.

(** X5. When none of the removals fails, the clean-up block returns without
    logging anything, and afterwards none of the paths the handler recorded
    (the upload, the output, the directory made for the output) exists; a
    path that is none of them and lies below none of them is as it was. *)
Theorem cleanup_removes_what_the_handler_recorded (h : Host) (fr : Frame) :
  (forall p, In (Some p) (recorded fr) -> remove_fails h p = None) ->
  exists fr',
    cleanup h fr = (Ok tt, fr')
    /\ recorded fr' = recorded fr
    /\ trace (world fr') = trace (world fr)
    /\ (forall p, In (Some p) (recorded fr) -> p <> "" -> fs (world fr') !! p = None)
    /\ (forall q, (forall p, In (Some p) (recorded fr) -> Fs.inside h p q = false) ->
                  fs (world fr') !! q = fs (world fr) !! q).
Proof.
  intros H. eexists. split; [apply cleanup_sweeps; exact H|].
  split; [reflexivity|]. split; [reflexivity|]. cbn [world fs]. unfold recorded. split.
  - intros p [E|[E|[E|[]]]] N.
    + apply swept_keeps_none, swept_keeps_none. rewrite E. apply swept_gone, N.
    + apply swept_keeps_none. rewrite E. apply swept_gone, N.
    + rewrite E. apply swept_gone, N.
  - intros q Q. rewrite !swept_outside; [reflexivity|..]; intros p E; apply Q; cbn; auto.
Qed.

Lemma cleanup_removes_what_the_handler_recorded_witness :
  exists fr',
    cleanup Scenario.linux Cases.served = (Ok tt, fr')
    /\ fs (world fr') !! "/app/uploads/a-1.pdf" = None
    /\ fs (world fr') !! "/app/outputs/a-2-pages" = None
    /\ fs (world fr') !! "/app/outputs" = Some Dir.
Proof.
  destruct (cleanup_removes_what_the_handler_recorded Scenario.linux Cases.served)
    as (fr' & E & _ & _ & G & K); [intros p _; reflexivity|].
  exists fr'. split; [exact E|]. split; [apply G; [vm_compute; auto|discriminate]|].
  split; [apply G; [vm_compute; auto|discriminate]|].
  rewrite K; [vm_compute; reflexivity|].
  intros p [[= <-]|[[= <-]|[[= <-]|[]]]]; vm_compute; reflexivity.
Defined.

(** X6. A removal that fails does not fail the clean-up: the error is
    logged as "Cleanup error: <message>" and the block returns. The removals
    that come after it are not attempted: when the upload exists and cannot
    be removed, the output stays where it is. *)
Theorem cleanup_stops_at_the_first_failure (h : Host) (fr : Frame) (p : string) (e : Error) :
  uploadPath fr = Some p -> p <> "" ->
  Fs.existsSync (fs (world fr)) p = true ->
  remove_fails h p = Some e ->
  cleanup h fr =
  (Ok tt,
   mkFrame (uploadPath fr) (outputPath fr) (outputDirForPdf fr)
     (mkWorld (fs (world fr))
        (trace (world fr) ++ [ConsoleError ("Cleanup error: " +:+ message e)])
        (ticks (world fr)))).
Proof.
  intros U N X R. destruct fr as [up out dir w].
  cbn [uploadPath outputPath outputDirForPdf world] in *.
  subst up. unfold cleanup, try_catch, bind, frame, lift.
  cbn [uploadPath outputPath outputDirForPdf world].
  rewrite remove_if_exists_runs. unfold JS.truthy. cbn [from_option id].
  destruct (String.eqb_spec p "") as [|_]; [contradiction|]. cbn [negb andb].
  rewrite X, R. cbn [uploadPath outputPath outputDirForPdf world].
  unfold console_error, emit. reflexivity.
Qed.

Lemma cleanup_stops_at_the_first_failure_witness :
  cleanup Cases.locked_uploads Cases.served =
  (Ok tt,
   mkFrame (uploadPath Cases.served) (outputPath Cases.served) (outputDirForPdf Cases.served)
     (mkWorld (fs (world Cases.served))
        [ConsoleError "Cleanup error: EBUSY: resource busy or locked"] 2)).
Proof.
  pose proof (cleanup_stops_at_the_first_failure Cases.locked_uploads Cases.served
                "/app/uploads/a-1.pdf" Cases.busy) as T.
  apply T; [reflexivity | discriminate | vm_compute; reflexivity | vm_compute; reflexivity].
Defined.
(** ** Start-up with [PORT] unset *)

Section Retry.
Variable h : Host.
Hypothesis unset : JS.truthy (env h "PORT") = false.

Lemma port_unset : PORT h = JS.Num 3000.
Proof. unfold PORT. rewrite unset. reflexivity. Qed.

Lemma guard_candidate (j : nat) :
  JS.lt (candidate j) (JS.add (PORT h) maxTries) = (j <? 5)%nat.
Proof.
  rewrite port_unset. unfold candidate, maxTries. cbn [JS.lt JS.add JS.toNumber].
  destruct (Z.ltb_spec (3000 + Z.of_nat j) (3000 + 5)), (Nat.ltb_spec j 5); auto; lia.
Qed.

Lemma next_candidate (j : nat) : JS.add (candidate j) (JS.Num 1) = candidate (S j).
Proof. unfold candidate. cbn [JS.add]. f_equal. lia. Qed.

(** While the candidates are in use and fewer than five retries were made,
    [tryListen] goes on to the next one. *)
Lemma tryListen_skips (k : nat) : forall (i fuel : nat) (w : World),
  (i + k <= 5)%nat ->
  (forall j, (i <= j < i + k)%nat -> in_use h (candidate j)) ->
  tryListen h (k + fuel) (candidate i) w =
  tryListen h fuel (candidate (i + k))
    (mkWorld (fs w) (trace w ++ map (fun j => Listen (candidate j)) (seq i k)) (ticks w)).
Proof.
  induction k as [|k IH]; intros i fuel w B U.
  - cbn [Nat.add seq map]. rewrite app_nil_r, Nat.add_0_r. destruct w; reflexivity.
  - cbn [Nat.add tryListen]. unfold bind at 1, emit at 1. cbn [fs trace ticks].
    destruct (U i) as (err & -> & ->); [lia|]. rewrite guard_candidate.
    destruct (Nat.ltb_spec i 5) as [_|]; [|lia]. cbn [andb].
    rewrite next_candidate, IH; [|lia|intros j J; apply U; lia].
    cbn [fs trace ticks seq map]. rewrite <- app_assoc, Nat.add_succ_r. reflexivity.
Qed.
End Retry.

Lemma ensureDirs_ok (h : Host) (w : World) :
  (forall d, fs w !! UPLOADS_DIR h <> Some (File d)) ->
  (forall d, fs w !! OUTPUTS_DIR h <> Some (File d)) ->
  ensureDirs h w =
  (Ok tt, mkWorld (<[OUTPUTS_DIR h := Dir]> (<[UPLOADS_DIR h := Dir]> (fs w))) (trace w) (ticks w)).
Proof.
  intros U O. rewrite ensureDirs_runs.
  destruct (fs w !! UPLOADS_DIR h) as [[d|]|]; [exfalso; exact (U d eq_refl)|..];
    destruct (fs w !! OUTPUTS_DIR h) as [[d|]|]; try reflexivity;
    exfalso; exact (O d eq_refl).
Qed.


Lemma start_runs (h : Host) (fuel : nat) (w : World) :
  start h fuel w =
  match ensureDirs h w with
  | (Ok _, w1) => tryListen h fuel (PORT h) w1
  | (Throw e, w1) => (Throw e, w1)
  end.
Proof. reflexivity. Qed.

Lemma main_runs (h : Host) (fuel : nat) (w : World) :
  main h fuel w =
  match start h fuel w with
  | (Ok r, w') => (Ok (match r with Some _ => Serving | None => Pending end), w')
  | (Throw err, w') =>
      (Ok (Exited 1),
       mkWorld (fs w')
         (trace w' ++ [ConsoleError ("Failed to start server: " +:+ message err); Exit 1])
         (ticks w'))
  end.
Proof.
  unfold main, try_catch, bind. destruct (start h fuel w) as [[r|err] w']; [reflexivity|].
  unfold console_error, emit, ret. cbn [fs trace ticks]. rewrite <- app_assoc. reflexivity.
Qed.

(** X7. With [PORT] unset the server takes the first free port of 3000,
    3001, ..., 3005: when the candidates before the k-th are in use and the
    k-th is free (k at most 5), [listen] is called for exactly these k+1
    candidates in order, the address of the last is logged, and the process
    is serving. *)
Theorem default_port_takes_the_first_free_candidate
    (h : Host) (w : World) (k fuel : nat) :
  JS.truthy (env h "PORT") = false ->
  (forall d, fs w !! UPLOADS_DIR h <> Some (File d)) ->
  (forall d, fs w !! OUTPUTS_DIR h <> Some (File d)) ->
  (k <= 5)%nat ->
  (forall j, (j < k)%nat -> in_use h (candidate j)) ->
  listen h (candidate k) = None ->
  main h (k + S fuel) w =
  (Ok Serving,
   mkWorld (<[OUTPUTS_DIR h := Dir]> (<[UPLOADS_DIR h := Dir]> (fs w)))
     (trace w ++ map (fun j => Listen (candidate j)) (seq 0 (S k)) ++ [running_at (candidate k)])
     (ticks w)).
Proof.
  intros E U O K B F. rewrite main_runs, start_runs.
  rewrite (ensureDirs_ok h w U O), (port_unset h E).
  change (JS.Num 3000) with (candidate 0).
  rewrite (tryListen_skips h E k 0 (S fuel)); [|lia|intros j J; apply B; lia].
  cbn [Nat.add tryListen]. unfold console_log, bind, emit, ret. cbn [fs trace ticks].
  rewrite F. cbn [fs trace ticks]. unfold running_at.
  rewrite seq_S, map_app, <- !app_assoc. reflexivity.
Qed.

Lemma default_port_takes_the_first_free_candidate_witness :
  main Cases.two_taken 3 Scenario.idle =
  (Ok Serving,
   mkWorld Scenario.disk
     [ Listen (JS.Num 3000); Listen (JS.Num 3001); Listen (JS.Num 3002);
       ConsoleLog "Universal File Converter running at http://localhost:3002" ] 0).
Proof.
  pose proof (default_port_takes_the_first_free_candidate Cases.two_taken Scenario.idle 2 0) as T.
  change (2 + 1)%nat with 3%nat in T. rewrite T.
  - vm_compute. reflexivity.
  - reflexivity.
  - intros d. vm_compute. discriminate.
  - intros d. vm_compute. discriminate.
  - lia.
  - intros j J. exists Cases.address_in_use.
    destruct j as [|[|j]]; [split; reflexivity | split; reflexivity | lia].
  - reflexivity.
Defined.

(** X8. With [PORT] unset the sixth refusal is fatal whatever its reason:
    when 3000, ..., 3004 are in use and [listen] fails for 3005, no further
    port is asked for; the error is logged and the process exits with code
    1. *)
Theorem default_port_gives_up_after_3005
    (h : Host) (w : World) (err : Error) (fuel : nat) :
  JS.truthy (env h "PORT") = false ->
  (forall d, fs w !! UPLOADS_DIR h <> Some (File d)) ->
  (forall d, fs w !! OUTPUTS_DIR h <> Some (File d)) ->
  (forall j, (j < 5)%nat -> in_use h (candidate j)) ->
  listen h (candidate 5) = Some err ->
  main h (6 + fuel) w =
  (Ok (Exited 1),
   mkWorld (<[OUTPUTS_DIR h := Dir]> (<[UPLOADS_DIR h := Dir]> (fs w)))
     (trace w ++ map (fun j => Listen (candidate j)) (seq 0 6)
        ++ [ConsoleError ("Failed to start server: " +:+ message err); Exit 1])
     (ticks w)).
Proof.
  intros E U O B F. rewrite main_runs, start_runs.
  rewrite (ensureDirs_ok h w U O), (port_unset h E).
  change (JS.Num 3000) with (candidate 0).
  change (6 + fuel)%nat with (5 + S fuel)%nat.
  rewrite (tryListen_skips h E 5 0 (S fuel)); [|lia|intros j J; apply B; lia].
  cbn [Nat.add tryListen]. unfold bind at 1, emit at 1. cbn [fs trace ticks].
  rewrite F, (guard_candidate h E 5). rewrite andb_false_r.
  unfold throw. cbn [fs trace ticks seq map]. rewrite <- !app_assoc. reflexivity.
Qed.

Lemma default_port_gives_up_after_3005_witness :
  (main Scenario.crowded 6 Scenario.idle).1 = Ok (Exited 1)
  /\ length (trace (main Scenario.crowded 6 Scenario.idle).2) = 8%nat.
Proof.
  pose proof (default_port_gives_up_after_3005 Scenario.crowded Scenario.idle
                Cases.address_in_use 0) as T.
  change (6 + 0)%nat with 6%nat in T. rewrite T.
  - split; reflexivity.
  - reflexivity.
  - intros d. vm_compute. discriminate.
  - intros d. vm_compute. discriminate.
  - intros j J. exists Cases.address_in_use. split; reflexivity.
  - reflexivity.
Defined.

(** X9. An error of [listen] other than EADDRINUSE is fatal at the first
    call, whatever [PORT] is: no other port is tried, the error is logged
    and the process exits with code 1. *)
Theorem other_listen_errors_are_fatal (h : Host) (w : World) (err : Error) (fuel : nat) :
  (forall d, fs w !! UPLOADS_DIR h <> Some (File d)) ->
  (forall d, fs w !! OUTPUTS_DIR h <> Some (File d)) ->
  listen h (PORT h) = Some err ->
  is_EADDRINUSE err = false ->
  main h (S fuel) w =
  (Ok (Exited 1),
   mkWorld (<[OUTPUTS_DIR h := Dir]> (<[UPLOADS_DIR h := Dir]> (fs w)))
     (trace w ++ [Listen (PORT h);
                  ConsoleError ("Failed to start server: " +:+ message err); Exit 1])
     (ticks w)).
Proof.
  intros U O F C. rewrite main_runs, start_runs.
  rewrite (ensureDirs_ok h w U O).
  cbn [tryListen]. unfold bind at 1, emit at 1. cbn [fs trace ticks].
  rewrite F, C. cbn [andb].
  unfold throw. cbn [fs trace ticks]. rewrite <- !app_assoc. reflexivity.
Qed.

Lemma other_listen_errors_are_fatal_witness :
  main Cases.unprivileged 6 Scenario.idle =
  (Ok (Exited 1),
   mkWorld Scenario.disk
     [ Listen (JS.Num 3000);
       ConsoleError "Failed to start server: listen EACCES: permission denied"; Exit 1 ] 0).
Proof.
  pose proof (other_listen_errors_are_fatal Cases.unprivileged Scenario.idle Cases.denied 5) as T.
  rewrite T.
  - vm_compute. reflexivity.
  - intros d. vm_compute. discriminate.
  - intros d. vm_compute. discriminate.
  - reflexivity.
  - reflexivity.
Defined.

(** X10. When a scratch directory cannot be made, because a file sits at
    its path, the server does not listen at all: the error is logged and the
    process exits with code 1. *)
Theorem blocked_scratch_area_is_fatal (h : Host) (w : World) (fuel : nat) :
  (exists d, fs w !! UPLOADS_DIR h = Some (File d))
  \/ (exists d, fs w !! OUTPUTS_DIR h = Some (File d)) ->
  exists err w',
    main h fuel w = (Ok (Exited 1), w')
    /\ trace w' =
       (trace w ++ [ConsoleError ("Failed to start server: " +:+ message err); Exit 1])%list
    /\ code err = Some "EEXIST".
Proof.
  intros B. rewrite main_runs, start_runs, ensureDirs_runs.
  destruct (fs w !! UPLOADS_DIR h) as [[d|]|] eqn:U.
  - eexists _, _. split; [reflexivity|]. split; reflexivity.
  - destruct B as [[d B]|[d B]]; [discriminate|]. rewrite B.
    eexists _, _. split; [reflexivity|]. split; reflexivity.
  - destruct B as [[d B]|[d B]]; [discriminate|]. rewrite B.
    eexists _, _. split; [reflexivity|]. split; reflexivity.
Qed.

Lemma blocked_scratch_area_is_fatal_witness :
  exists err w',
    main Scenario.linux 6 Cases.blocked = (Ok (Exited 1), w')
    /\ trace w' = [ConsoleError ("Failed to start server: " +:+ message err); Exit 1]
    /\ code err = Some "EEXIST".
Proof.
  apply (blocked_scratch_area_is_fatal Scenario.linux Cases.blocked 6).
  left. exists "not a directory". vm_compute. reflexivity.
Defined.

(** ** [pdfToDocx]: what can go wrong *)

(** X11. A PDF that is not there: [pdfToDocx] fails with the error of the
    copy before the renderer is called, and removes its working directory
    all the same; the output directory it made stays. *)
Theorem pdfToDocx_missing_input (h : Host) (input outputDir : string) (w : World) :
  let tempDir := temp_dir h (clock h (ticks w)) in
  (forall x, fs w !! outputDir <> Some (File x)) ->
  (forall x, fs w !! tempDir <> Some (File x)) ->
  fs w !! input = None -> input <> outputDir -> input <> tempDir ->
  remove_fails h tempDir = None ->
  pdfToDocx h input outputDir w =
  (Throw (Fs.system_error "ENOENT" input),
   mkWorld (Fs.prune h tempDir (<[tempDir := Dir]> (<[outputDir := Dir]> (fs w))))
     (trace w ++ [Enter PdfToDocx input outputDir]) (S (ticks w))).
Proof.
  intros tempDir Hout Htmp Hin Hne1 Hne2 Hrm.
  destruct w as [f t n]. cbn [fs trace ticks] in *.
  unfold pdfToDocx. fold tempDir. unfold bind at 1. unfold emit at 1. cbn [fs trace ticks].
  unfold bind at 1. rewrite (ensureDir_ok outputDir) by exact Hout. cbn [fs trace ticks].
  unfold bind at 1. unfold Fs.Date_now at 1. cbn [fs trace ticks].
  fold (temp_dir h (clock h n)). fold tempDir.
  unfold bind at 1. rewrite (ensureDir_ok tempDir); cbn [fs trace ticks].
  2:{ intros x. destruct (decide (outputDir = tempDir)) as [->|N].
      - rewrite lookup_insert_eq. discriminate.
      - rewrite lookup_insert_ne by exact N. apply Htmp. }
  unfold try_finally.
  unfold bind at 1. unfold Fs.copy at 1. unfold bind at 1, read_fs at 1. cbn [fs trace ticks].
  rewrite !lookup_insert_ne by congruence.
  rewrite Hin. unfold throw at 1.
  unfold swallow, try_catch, Fs.remove. rewrite Hrm. unfold modify_fs. cbn [fs trace ticks].
  reflexivity.
Qed.

Lemma pdfToDocx_missing_input_witness :
  let after :=
    pdfToDocx Scenario.linux "/app/uploads/gone-1.pdf" "/app/outputs/gone-2-docx" Scenario.idle in
  after.1 = Throw (Fs.system_error "ENOENT" "/app/uploads/gone-1.pdf")
  /\ trace after.2 = [Enter PdfToDocx "/app/uploads/gone-1.pdf" "/app/outputs/gone-2-docx"]
  /\ fs after.2 !! "/app/outputs/lo_1700000000000" = None.
Proof.
  pose proof (pdfToDocx_missing_input Scenario.linux
                "/app/uploads/gone-1.pdf" "/app/outputs/gone-2-docx" Scenario.idle) as T.
  cbv zeta in T. cbv zeta. rewrite T.
  - vm_compute. auto.
  - intros x. vm_compute. discriminate.
  - intros x. vm_compute. discriminate.
  - vm_compute. reflexivity.
  - discriminate.
  - vm_compute. discriminate.
  - reflexivity.
Defined.

(** X12. The removal of the working directory is best effort: when it fails,
    the error is dropped. The helper returns or fails as it does when the
    removal works, and the file system is left as the renderer and the move
    made it, working directory included. *)
Theorem pdfToDocx_ignores_a_failed_removal
    (h : Host) (input outputDir : string) (w : World) (d : string) (e : Error) :
  let tempDir := temp_dir h (clock h (ticks w)) in
  let tempPdf := Path.join h tempDir "in.pdf" in
  let tempDocx := Path.join h tempDir "in.docx" in
  let docxPath :=
    Path.join h outputDir
      (Path.basename_ext h input (Path.extname h input) +:+ ".docx") in
  let f2 := <[tempPdf := File d]> (<[tempDir := Dir]> (<[outputDir := Dir]> (fs w))) in
  let cmd := getLibreOfficeCommand h f2 in
  let tool := exec_file h cmd (renderer_args h tempDir) (Some 60000) f2 in
  (forall x, fs w !! outputDir <> Some (File x)) ->
  (forall x, fs w !! tempDir <> Some (File x)) ->
  fs w !! input = Some (File d) ->
  remove_fails h tempDir = Some e ->
  pdfToDocx h input outputDir w =
  (match tool.1 with
   | Some err => Throw err
   | None =>
       match tool.2 !! tempDocx with
       | None => Throw no_output_docx
       | Some _ => Ok docxPath
       end
   end,
   mkWorld
     match tool.1 with
     | Some err => tool.2
     | None =>
         match tool.2 !! tempDocx with
         | None => tool.2
         | Some (File d') =>
             <[docxPath := File d']> (delete tempDocx (Fs.prune h docxPath tool.2))
         | Some Dir =>
             Fs.graft h tempDocx docxPath tool.2
               ∪ Fs.prune h tempDocx (Fs.prune h docxPath tool.2)
         end
     end
     (trace w ++ [Enter PdfToDocx input outputDir;
                  ExecFile cmd (renderer_args h tempDir) (Some 60000)])
     (S (ticks w))).
Proof.
  intros tempDir tempPdf tempDocx docxPath f2 cmd tool Hout Htmp Hin Hrm.
  unfold renderer_args in tool. fold tempPdf in tool.
  assert (Hne1 : outputDir <> input) by (intros ->; eapply Hout; eassumption).
  assert (Hne2 : tempDir <> input) by (intros E; eapply Htmp; rewrite E; eassumption).
  destruct w as [f t n]. cbn [fs trace ticks] in *.
  unfold pdfToDocx. fold tempDir. unfold bind at 1. unfold emit at 1. cbn [fs trace ticks].
  unfold bind at 1. rewrite (ensureDir_ok outputDir) by exact Hout. cbn [fs trace ticks].
  unfold bind at 1. unfold Fs.Date_now at 1. cbn [fs trace ticks].
  fold (temp_dir h (clock h n)). fold tempDir. fold tempPdf. fold tempDocx.
  unfold bind at 1. rewrite (ensureDir_ok tempDir); cbn [fs trace ticks].
  2:{ intros x. destruct (decide (outputDir = tempDir)) as [->|N].
      - rewrite lookup_insert_eq. discriminate.
      - rewrite lookup_insert_ne by exact N. apply Htmp. }
  unfold try_finally.
  unfold bind at 1. unfold Fs.copy at 1. unfold bind at 1, read_fs at 1. cbn [fs trace ticks].
  rewrite lookup_insert_ne by exact Hne2. rewrite lookup_insert_ne by exact Hne1.
  rewrite Hin. unfold modify_fs at 1. cbn [fs trace ticks]. fold f2.
  unfold bind at 1, read_fs at 1. cbn [fs trace ticks]. fold cmd.
  unfold bind at 1. unfold execFileAsync at 1. unfold bind at 1, emit at 1. cbn [fs trace ticks].
  fold tool.
  destruct tool as [[err|] f3]; cbn [fst snd].
  - unfold swallow, try_catch, Fs.remove. rewrite Hrm. unfold throw, ret. cbn.
    rewrite <- app_assoc. reflexivity.
  - unfold Fs.pathExists, Fs.move, bind, read_fs, modify_fs, swallow, try_catch,
      Fs.remove, throw, ret.
    cbn [fs trace ticks]. rewrite Hrm.
    destruct (f3 !! tempDocx) as [[d'|]|] eqn:E3; cbn [negb fs trace ticks];
      rewrite ?E3; cbn [fs trace ticks]; rewrite <- app_assoc; reflexivity.
Qed.

Lemma pdfToDocx_ignores_a_failed_removal_witness :
  let after :=
    pdfToDocx Cases.locked_outputs "/app/uploads/report-1700000000000.pdf"
      "/app/outputs/report-1700000000001-docx" Cases.with_report in
  after.1 = Ok "/app/outputs/report-1700000000001-docx/report-1700000000000.docx"
  /\ fs after.2 !! "/app/outputs/lo_1700000000001" = Some Dir.
Proof.
  pose proof (pdfToDocx_ignores_a_failed_removal Cases.locked_outputs
                "/app/uploads/report-1700000000000.pdf"
                "/app/outputs/report-1700000000001-docx" Cases.with_report
                "%PDF-1.7" Cases.busy) as T.
  cbv zeta in T. cbv zeta. rewrite T.
  - vm_compute. auto.
  - intros x. vm_compute. discriminate.
  - intros x. vm_compute. discriminate.
  - vm_compute. reflexivity.
  - vm_compute. reflexivity.
Defined.

(** ** The names of the stored upload and of the download *)

Section Segments.
Variable h : Host.

Lemma separators_cons (c : ascii) (s : string) :
  separators h (String c s) = Path.is_sep h c || separators h s.
Proof. reflexivity. Qed.

Lemma separators_app (a b : string) :
  separators h (a +:+ b) = separators h a || separators h b.
Proof.
  induction a as [|c a IH]; [reflexivity|].
  rewrite str_cons_app, !separators_cons, IH, orb_assoc. reflexivity.
Qed.

Lemma separators_sep : separators h (Path.sep h) = true.
Proof.
  unfold Path.sep, separators, Path.is_sep. destruct (Path.win32 h); reflexivity.
Qed.

Lemma separators_occurs (s : string) :
  occurs "/" s = false -> occurs "\" s = false -> separators h s = false.
Proof.
  induction s as [|c s IH]; [reflexivity|]. cbn [occurs].
  intros [A B]%orb_false_iff [C D]%orb_false_iff.
  rewrite separators_cons, (IH B D). unfold Path.is_sep. rewrite A, C.
  rewrite andb_false_r. reflexivity.
Qed.

Lemma separators_show (t : Z) : 0 <= t -> separators h (JS.show t) = false.
Proof. intros T. apply separators_occurs; apply occurs_show; auto. Qed.

Lemma last_segment_free (p : string) : separators h (Path.last_segment h p) = false.
Proof.
  induction p as [|c p IH]; [reflexivity|]. cbn [Path.last_segment].
  fold (separators h p). destruct (separators h p) eqn:S; [exact IH|].
  destruct (Path.is_sep h c) eqn:C; [exact S|].
  rewrite separators_cons, C, S. reflexivity.
Qed.

Lemma last_segment_whole (x : string) : separators h x = false -> Path.last_segment h x = x.
Proof.
  destruct x as [|c x]; [reflexivity|]. rewrite separators_cons.
  intros [C S]%orb_false_iff. cbn [Path.last_segment]. fold (separators h x).
  rewrite S, C. reflexivity.
Qed.

Lemma last_segment_join (dir x : string) :
  separators h x = false -> Path.last_segment h (Path.join h dir x) = x.
Proof.
  intros S. unfold Path.join. induction dir as [|c dir IH].
  - change ("" +:+ Path.sep h +:+ x) with (Path.sep h +:+ x).
    unfold Path.sep. destruct (Path.win32 h) eqn:W;
      rewrite str_cons_app; change ("" +:+ x) with x;
      cbn [Path.last_segment]; fold (separators h x); rewrite S;
      unfold Path.is_sep; rewrite W; reflexivity.
  - rewrite str_cons_app. cbn [Path.last_segment].
    fold (separators h (dir +:+ Path.sep h +:+ x)).
    rewrite !separators_app, separators_sep, orb_true_r. exact IH.
Qed.

Lemma strip_suffix_some (s e b : string) : Path.strip_suffix s e = Some b -> s = b +:+ e.
Proof.
  revert b. induction s as [|c s IH]; intros b; rewrite strip_suffix_eq.
  - destruct (String.eqb_spec "" e) as [<-|]; [|discriminate]. intros [= <-]. reflexivity.
  - destruct (String.eqb_spec (String c s) e) as [<-|].
    + intros [= <-]. reflexivity.
    + destruct (Path.strip_suffix s e) as [b'|]; [|discriminate].
      intros [= <-]. rewrite str_cons_app, <- (IH b' eq_refl). reflexivity.
Qed.

Lemma basename_ext_free (p e : string) : separators h (Path.basename_ext h p e) = false.
Proof.
  unfold Path.basename_ext. pose proof (last_segment_free p) as S.
  destruct (String.eqb e ""); [exact S|]. destruct (String.eqb e p); [reflexivity|].
  destruct (Path.strip_suffix _ e) as [[|c b]|] eqn:E; try exact S.
  apply strip_suffix_some in E. rewrite E, separators_app in S.
  apply orb_false_iff in S. tauto.
Qed.

Lemma extname_free (p : string) : separators h (Path.extname h p) = false.
Proof.
  unfold Path.extname. pose proof (last_segment_free p) as S.
  destruct (Path.from_last_dot _) as [e|] eqn:F; [|reflexivity].
  destruct (_ || _); [reflexivity|].
  destruct (from_last_dot_shape _ _ F) as (a & r & E & _). rewrite E, separators_app in S.
  apply orb_false_iff in S. tauto.
Qed.

Lemma unique_name_free (name : string) (t : Z) :
  0 <= t -> separators h (unique_name h name t) = false.
Proof.
  intros T. unfold unique_name.
  rewrite !separators_app, basename_ext_free, separators_show, extname_free by exact T.
  unfold separators, Path.is_sep. cbn. rewrite andb_false_r. reflexivity.
Qed.

Lemma extname_join (dir x : string) :
  separators h x = false -> Path.extname h (Path.join h dir x) = Path.extname h x.
Proof.
  intros S. unfold Path.extname. rewrite (last_segment_join dir x S), (last_segment_whole x S).
  reflexivity.
Qed.

Lemma dash_occurs (b : string) (t : Z) (e : string) :
  occurs "-" (b +:+ "-" +:+ JS.show t +:+ e) = true.
Proof. rewrite !occurs_app. cbn. apply orb_true_r. Qed.

Lemma extname_unique_name (name : string) (t : Z) :
  0 <= t -> Path.last_segment h name <> ".." ->
  Path.extname h (unique_name h name t) = Path.extname h name.
Proof.
  intros T N.
  assert (Tail : occurs "." ("-" +:+ JS.show t) = false).
  { change ("-" +:+ JS.show t) with (String "-" (JS.show t)).
    cbn [occurs]. rewrite (occurs_show "." t eq_refl T). reflexivity. }
  pose proof (unique_name_free name t T) as Free.
  pose proof (dash_occurs (Path.basename_ext h name (Path.extname h name)) t
                (Path.extname h name)) as Dash.
  unfold Path.extname at 1. rewrite (last_segment_whole _ Free).
  revert Free Dash. unfold unique_name.
  destruct (stem_and_extension h name) as [(-> & -> & S)|(r & -> & O & Es & B)];
    intros Free Dash.
  - rewrite str_app_empty in *. rewrite (from_last_dot_app _ _ Tail).
    destruct S as [S|[S|S]]; [| |contradiction].
    + apply from_last_dot_none in S. rewrite S. reflexivity.
    + rewrite S. cbn [fmap option_fmap option_map]. rewrite String.eqb_refl. reflexivity.
  - rewrite (str_app_swing _ "-" (JS.show t) (String "." r)) in *.
    rewrite (from_last_dot_tail _ r O).
    set (b := Path.basename_ext h name (String "." r)) in *.
    destruct (String.eqb_spec (String "." r) ((b +:+ "-" +:+ JS.show t) +:+ String "." r)) as [E|_].
    { exfalso. apply (f_equal String.length) in E. rewrite !str_length_app in E.
      cbn in E. lia. }
    destruct (String.eqb_spec ((b +:+ "-" +:+ JS.show t) +:+ String "." r) "..") as [E|_].
    { rewrite E in Dash. discriminate. }
    reflexivity.
Qed.

End Segments.

(** X13. The name an upload is stored under keeps the extension of the
    original name, whatever the reading of the clock, and has no directory
    part of its own: the helpers, which look at the stored path, see the
    extension the router saw in the original name. (The one exception is an
    original name whose last segment is [..], which has no extension while
    the stored name [..-<reading>] has one.) *)
Theorem stored_upload_keeps_the_extension (h : Host) (name : string) (t : Z) :
  0 <= t -> Path.last_segment h name <> ".." ->
  let stored := Path.join h (UPLOADS_DIR h) (unique_name h name t) in
  Path.extname h stored = Path.extname h name
  /\ Path.basename h stored = unique_name h name t.
Proof.
  intros T N stored. subst stored. split.
  - rewrite (extname_join h _ _ (unique_name_free h name t T)).
    apply extname_unique_name; assumption.
  - apply last_segment_join, unique_name_free, T.
Qed.

Lemma stored_upload_keeps_the_extension_witness :
  Path.extname Scenario.linux
    (Path.join Scenario.linux (UPLOADS_DIR Scenario.linux)
       (unique_name Scenario.linux "C:\docs/annual.report.PDF" 1700000000000)) = ".PDF"
  /\ Path.extname Scenario.linux (unique_name Scenario.linux ".." 17) = ".-17".
Proof.
  split; [|reflexivity].
  destruct (stored_upload_keeps_the_extension Scenario.linux "C:\docs/annual.report.PDF"
              1700000000000) as [E _]; [lia | vm_compute; discriminate |].
  rewrite E. reflexivity.
Defined.

(** ** An office request from end to end *)

Section OfficeRequest.
Variable h : Host.




End OfficeRequest.

Section OfficeRequestTheorems.
Variable h : Host.





End OfficeRequestTheorems.


(** ** Every routed request is cleaned up *)

Section Triples.
Context {S : Type}.

Lemma triple_weaken {A} (P : S -> Prop) (m : M S A) (Q Q' : Result A -> S -> Prop) :
  triple P m Q -> (forall r s, Q r s -> Q' r s) -> triple P m Q'.
Proof. intros H W s p. apply W, H, p. Qed.

Lemma triple_seq {A B} (P : S -> Prop) (R : A -> S -> Prop) (m : M S A) (k : A -> M S B)
    (Q : Result B -> S -> Prop) :
  triple P m (fun r s => match r with Ok a => R a s | Throw e => Q (Throw e) s end) ->
  (forall a, triple (R a) (k a) Q) ->
  triple P (bind m k) Q.
Proof.
  intros Hm Hk s p. unfold bind. specialize (Hm s p).
  destruct (m s) as [[a|e] s1]; cbn [fst snd] in *; [apply Hk|]; exact Hm.
Qed.

Lemma triple_bind {A B} (P : S -> Prop) (m : M S A) (k : A -> M S B)
    (Q : Result B -> S -> Prop) :
  keeps P m -> (forall a, triple P (k a) Q) -> (forall e s, P s -> Q (Throw e) s) ->
  triple P (bind m k) Q.
Proof.
  intros Hm Hk Ht. apply (triple_seq P (fun _ => P)); [|exact Hk].
  intros s p. specialize (Hm s p). destruct (m s).1; auto.
Qed.

Lemma triple_ret {A} (P : S -> Prop) (a : A) (Q : Result A -> S -> Prop) :
  (forall s, P s -> Q (Ok a) s) -> triple P (ret a) Q.
Proof. intros H s p. apply H, p. Qed.

Lemma keeps_ret {A} (P : S -> Prop) (a : A) : keeps P (ret a).
Proof. intros s p. exact p. Qed.

Lemma triple_try_catch {A} (P U : S -> Prop) (m : M S A) (c : Error -> M S A)
    (Q : Result A -> S -> Prop) :
  triple P m (fun r s => match r with Ok a => Q (Ok a) s | Throw _ => U s end) ->
  (forall e, triple U (c e) Q) ->
  triple P (try_catch m c) Q.
Proof.
  intros Hm Hc s p. unfold try_catch. specialize (Hm s p).
  destruct (m s) as [[a|e] s1]; cbn [fst snd] in *; [exact Hm|apply Hc; exact Hm].
Qed.
End Triples.

Section Sweep.
Variable h : Host.
Hypothesis removable : forall p, remove_fails h p = None.

Section Vars.
Variable Q : option string -> option string -> option string -> Prop.

Lemma keeps_lift {A} (m : M World A) : keeps (on_vars Q) (lift m).
Proof. intros fr u. unfold lift. destruct (m (world fr)). exact u. Qed.

Lemma cleanup_all_gone :
  triple (on_vars Q) (cleanup h) (fun r fr => r = Ok tt /\ on_vars Q fr /\ all_gone fr).
Proof.
  intros fr u. rewrite cleanup_sweeps by (intros; apply removable).
  cbn [fst snd]. split; [reflexivity|]. split; [exact u|].
  unfold all_gone, recorded. cbn [uploadPath outputPath outputDirForPdf world fs].
  intros p [E|[E|[E|[]]]] N.
  - apply swept_keeps_none, swept_keeps_none. rewrite E. apply swept_gone, N.
  - apply swept_keeps_none. rewrite E. apply swept_gone, N.
  - rewrite E. apply swept_gone, N.
Qed.

Lemma cleanup_then {A} (k : M Frame A) (P : Result A -> Frame -> Prop) :
  triple (fun fr => on_vars Q fr /\ all_gone fr) k P ->
  triple (on_vars Q) (cleanup h ;; k) P.
Proof.
  intros K.
  apply (triple_seq (on_vars Q) (fun _ fr => on_vars Q fr /\ all_gone fr));
    [|intros _; exact K].
  eapply triple_weaken; [apply cleanup_all_gone|].
  intros [[]|e] fr (R & G); [exact G|discriminate].
Qed.

Lemma convert_catch_all_gone (e : Error) :
  triple (on_vars Q) (convert_catch h e) (fun _ fr => on_vars Q fr /\ all_gone fr).
Proof.
  unfold convert_catch.
  apply (triple_seq (on_vars Q) (fun _ => on_vars Q)); [intros fr u; exact u|].
  intros _. apply cleanup_then. apply triple_ret. auto.
Qed.

Lemma res_download_all_gone (p filename : string) :
  triple (on_vars Q) (res_download h p filename (cleanup h)) (cleaned Q).
Proof.
  unfold res_download. apply triple_bind; [apply keeps_lift| |intros e s u; split; [exact u|exact I]].
  intros sent. apply cleanup_then. apply triple_ret. intros fr G. exact G.
Qed.

(** The end of the [try] block, from the reading of the variables on. *)
Lemma download_all_gone :
  triple (on_vars Q)
    (fr <- frame ;;
     res_download h (default "" (outputPath fr))
       (Path.basename h (default "" (outputPath fr))) (cleanup h))
    (cleaned Q).
Proof.
  apply triple_bind; [intros fr u; exact u| |intros e s u; split; [exact u|exact I]].
  intros fr. apply res_download_all_gone.
Qed.
End Vars.

Lemma sets_outputPath {A} (Q Q' : option string -> option string -> option string -> Prop)
    (p : string) (k : M Frame A) (P : Result A -> Frame -> Prop) :
  (forall u o d, Q u o d -> Q' u (Some p) d) ->
  triple (on_vars Q') k P ->
  triple (on_vars Q) (set_outputPath p ;; k) P.
Proof.
  intros S K. apply (triple_seq _ (fun _ => on_vars Q')); [|intros _; exact K].
  intros fr q. exact (S _ _ _ q).
Qed.

Lemma sets_outputDirForPdf {A} (Q Q' : option string -> option string -> option string -> Prop)
    (p : string) (k : M Frame A) (P : Result A -> Frame -> Prop) :
  (forall u o d, Q u o d -> Q' u o (Some p)) ->
  triple (on_vars Q') k P ->
  triple (on_vars Q) (set_outputDirForPdf p ;; k) P.
Proof.
  intros S K. apply (triple_seq _ (fun _ => on_vars Q')); [|intros _; exact K].
  intros fr q. exact (S _ _ _ q).
Qed.

Variable up : string.

(** The [try] block after the upload path is recorded: for a pair of the
    table the output is recorded before the helper runs, the chain ends
    without a [return], and what follows is the download. *)
Lemma routed_chain_cleans (ext tf : string) (outBase : string) (op : Operation) :
  Spec.route ext tf = Some op ->
  triple (on_vars (fun u _ _ => u = Some up))
    (returned <-
       (if JS.includes [".docx"; ".pptx"; ".xlsx"] ext && String.eqb tf "pdf"
        then
          set_outputPath (outBase +:+ ".pdf") ;;
          lift (officeToPdf h up (outBase +:+ ".pdf")) ;;
          ret None
        else if String.eqb ext ".pdf" && String.eqb tf "jpg"
        then
          set_outputDirForPdf (outBase +:+ "-pages") ;;
          lift (Fs.ensureDir (outBase +:+ "-pages")) ;;
          firstPagePath <- lift (pdfToJpg h up (outBase +:+ "-pages")) ;;
          set_outputPath firstPagePath ;;
          ret None
        else if String.eqb ext ".pdf" && String.eqb tf "docx"
        then
          set_outputDirForPdf (outBase +:+ "-docx") ;;
          docxPath <- lift (pdfToDocx h up (outBase +:+ "-docx")) ;;
          set_outputPath docxPath ;;
          ret None
        else if JS.includes [".jpg"; ".jpeg"; ".png"] ext && String.eqb tf "pdf"
        then
          set_outputPath (outBase +:+ ".pdf") ;;
          lift (imageToPdf h up (outBase +:+ ".pdf")) ;;
          ret None
        else
          ret (Some (Json 400 (unsupported_message ext tf)))) ;;
     match returned with
     | Some r => ret r
     | None =>
         fr <- frame ;;
         let out := default "" (outputPath fr) in
         let filename := Path.basename h out in
         res_download h out filename (cleanup h)
     end)
    (cleaned (holds up (made op outBase))).
Proof.
  intros R.
  pose (Qo := fun u o (_ : option string) => u = Some up /\ o = Some (made op outBase)).
  pose (Qd := fun u (_ : option string) d => u = Some up /\ d = Some (made op outBase)).
  assert (Wo : forall r fr, cleaned Qo r fr -> cleaned (holds up (made op outBase)) r fr).
  { intros r fr [[u o] G]. split; [|exact G]. split; [exact u|left; exact o]. }
  assert (Wd : forall r fr, cleaned Qd r fr -> cleaned (holds up (made op outBase)) r fr).
  { intros r fr [[u d] G]. split; [|exact G]. split; [exact u|right; exact d]. }
  assert (File_branch : forall (m : M World unit),
             made op outBase = outBase +:+ ".pdf" ->
             triple (on_vars (fun u _ _ => u = Some up))
               (returned <-
                  (set_outputPath (outBase +:+ ".pdf") ;; lift m ;; ret None) ;;
                match returned with
                | Some r => ret r
                | None =>
                    fr <- frame ;;
                    res_download h (default "" (outputPath fr))
                      (Path.basename h (default "" (outputPath fr))) (cleanup h)
                end)
               (cleaned (holds up (made op outBase)))).
  { intros m E. eapply triple_weaken; [|exact Wo].
    apply (triple_seq _ (fun returned fr => on_vars Qo fr /\ returned = None)).
    - apply (sets_outputPath (fun u _ _ => u = Some up) Qo);
        [intros u o d ->; split; [reflexivity|f_equal; auto]|].
      apply triple_bind; [apply keeps_lift| |intros e s q; split; [exact q|exact I]].
      intros _. apply triple_ret. auto.
    - intros returned fr [q ->]. revert fr q. apply download_all_gone. }
  assert (Dir_branch : forall (ending : string) (pre : M Frame unit) (m : M World string),
             made op outBase = outBase +:+ ending ->
             keeps (on_vars Qd) pre ->
             triple (on_vars (fun u _ _ => u = Some up))
               (returned <-
                  (set_outputDirForPdf (outBase +:+ ending) ;;
                   pre ;;
                   path <- lift m ;;
                   set_outputPath path ;;
                   ret None) ;;
                match returned with
                | Some r => ret r
                | None =>
                    fr <- frame ;;
                    res_download h (default "" (outputPath fr))
                      (Path.basename h (default "" (outputPath fr))) (cleanup h)
                end)
               (cleaned (holds up (made op outBase)))).
  { intros ending pre m E Kpre. eapply triple_weaken; [|exact Wd].
    apply (triple_seq _ (fun returned fr => on_vars Qd fr /\ returned = None)).
    - apply (sets_outputDirForPdf (fun u _ _ => u = Some up) Qd);
        [intros u o d ->; split; [reflexivity|f_equal; auto]|].
      apply triple_bind; [exact Kpre| |intros e s q; split; [exact q|exact I]].
      intros _. apply triple_bind; [apply keeps_lift| |intros e s q; split; [exact q|exact I]].
      intros path. apply (sets_outputPath Qd Qd); [intros u o d q; exact q|].
      apply triple_ret. auto.
    - intros returned fr [q ->]. revert fr q. apply download_all_gone. }
  revert R. unfold Spec.route, JS.includes.
  cbn [List.find existsb Spec.compatibility_table fst snd].
  destruct (String.eqb_spec tf "pdf") as [->|Ht1];
    [| destruct (String.eqb_spec tf "jpg") as [->|Ht2];
       [| destruct (String.eqb_spec tf "docx") as [->|Ht3] ] ];
    repeat (match goal with |- context [String.eqb ext ?c] =>
              destruct (String.eqb_spec ext c) as [->|?] end;
            cbn [andb orb String.eqb Ascii.eqb Bool.eqb fmap option_fmap option_map snd]);
    cbn [andb orb String.eqb Ascii.eqb Bool.eqb fmap option_fmap option_map snd];
    intros R; try discriminate R; injection R as R;
    first
      [ apply File_branch; rewrite <- R; reflexivity
      | apply (Dir_branch "-pages" (lift (Fs.ensureDir (outBase +:+ "-pages"))));
        [rewrite <- R; reflexivity | apply keeps_lift]
      | idtac ].
  eapply triple_weaken; [|exact Wd].
  apply (triple_seq _ (fun returned fr => on_vars Qd fr /\ returned = None)).
  - apply (sets_outputDirForPdf (fun u _ _ => u = Some up) Qd);
      [intros u o d ->; split; [reflexivity|rewrite <- R; reflexivity]|].
    apply triple_bind; [apply keeps_lift| |intros e s q; split; [exact q|exact I]].
    intros path. apply (sets_outputPath Qd Qd); [intros u o d q; exact q|].
    apply triple_ret. auto.
  - intros returned fr [q ->]. revert fr q. apply download_all_gone.
Qed.

Lemma convert_cleans (file : StoredFile) (body : option string) (op : Operation) (w : World) :
  up = file_path file ->
  Spec.route (ext_of h file) (target_of body) = Some op ->
  triple (fun fr => fr = mkFrame None None None w)
    (try_catch (convert_try h (mkReq (Some file) body)) (convert_catch h))
    (fun _ fr =>
       on_vars (holds up (made op (out_base h (file_originalname file) (clock h (ticks w))))) fr
       /\ all_gone fr).
Proof.
  intros Eup R.
  set (m := made op (out_base h (file_originalname file) (clock h (ticks w)))).
  apply (triple_try_catch _ (on_vars (holds up m))); [|apply convert_catch_all_gone].
  unfold convert_try. cbn [req_file req_body_targetFormat].
  fold (target_of body). fold (ext_of h file).
  destruct (String.eqb_spec (target_of body) "") as [E|_].
  { exfalso. revert R. rewrite E. unfold Spec.route.
    cbn [List.find Spec.compatibility_table fst snd].
    rewrite !andb_false_r. discriminate. }
  rewrite <- Eup.
  apply (triple_seq _ (fun _ fr => on_vars (fun u _ _ => u = Some up) fr /\ world fr = w)).
  { intros fr ->. split; reflexivity. }
  intros _. unfold bind at 1, lift at 1, Fs.Date_now at 1. intros fr [u ->].
  cbn [fst snd].
  match goal with |- context [(?c ?f).1] =>
    pose proof (routed_chain_cleans (ext_of h file) (target_of body)
                  (out_base h (file_originalname file) (clock h (ticks w))) op R f u) as C;
    change (cleaned (holds up m) (c f).1 (c f).2) in C;
    destruct (c f) as [[r|e] s]
  end; destruct C as [V G]; cbn [fst snd]; [split; assumption|exact V].
Qed.
End Sweep.

Lemma made_not_empty (op : Operation) (outBase : string) : made op outBase <> "".
Proof. destruct op, outBase; discriminate. Qed.

(** X15. Every request the router sends to a helper is cleaned up after,
    whatever the helper and the converters do and however the request ends
    (download, nothing sent, or an error answered with a 500). The handler
    runs on its own three variables: at the end [uploadPath] is the path of
    the upload and the output the handler chose for the operation (the file
    [<base>-<ms>.pdf], or the directory [<base>-<ms>-pages] or
    [<base>-<ms>-docx]) is in [outputPath] or in [outputDirForPdf]; provided
    no removal fails, none of the paths in the three variables exists
    afterwards: the upload is gone and the output file or directory is
    gone. *)
Theorem routed_request_leaves_nothing_behind
    (h : Host) (file : StoredFile) (body : option string) (op : Operation) (w : World) :
  let req := mkReq (Some file) body in
  let up := file_path file in
  let out := made op (out_base h (file_originalname file) (clock h (ticks w))) in
  let after := try_catch (convert_try h req) (convert_catch h) (mkFrame None None None w) in
  Spec.route (ext_of h file) (target_of body) = Some op ->
  (forall p, remove_fails h p = None) ->
  convert h req w = (after.1, world after.2)
  /\ uploadPath after.2 = Some up
  /\ (outputPath after.2 = Some out \/ outputDirForPdf after.2 = Some out)
  /\ all_gone after.2
  /\ (up <> "" -> fs (convert h req w).2 !! up = None)
  /\ fs (convert h req w).2 !! out = None.
Proof.
  intros req up out after R F.
  pose proof (convert_cleans h F up file body op w eq_refl R _ eq_refl) as [[u o] G].
  fold req out after in u, o, G.
  assert (E : convert h req w = (after.1, world after.2)).
  { unfold convert, with_frame. fold after. destruct after. reflexivity. }
  split; [exact E|]. split; [exact u|]. split; [exact o|]. split; [exact G|].
  rewrite E. cbn [snd]. split.
  - intros N. apply G; [|exact N]. unfold recorded. rewrite u. left. reflexivity.
  - apply G; [|apply made_not_empty]. unfold recorded.
    destruct o as [o|o]; rewrite o; auto using in_eq, in_cons.
Qed.

Lemma routed_request_leaves_nothing_behind_witness :
  let gone := fs (convert Scenario.bare_linux (mkReq (Some Cases.stored_report) (Some "docx"))
                    Cases.with_report).2 in
  gone !! "/app/uploads/report-1700000000000.pdf" = None
  /\ gone !! "/app/outputs/report-1700000000001-docx" = None.
Proof.
  destruct (routed_request_leaves_nothing_behind Scenario.bare_linux Cases.stored_report
              (Some "docx") PdfToDocx Cases.with_report) as (_ & _ & _ & _ & U & O).
  - vm_compute. reflexivity.
  - intros p. reflexivity.
  - split; [apply U; discriminate|exact O].
Defined.


(** ** Images that cannot be converted, uploads that are refused *)

Lemma imageToPdf_unreadable (h : Host) (input output : string) (w : World) :
  (forall bytes, fs w !! input <> Some (File bytes)) ->
  imageToPdf h input output w =
  (Throw (Fs.system_error
            match fs w !! input with Some _ => "EISDIR" | None => "ENOENT" end input),
   mkWorld (fs w) (trace w ++ [Enter ImageToPdf input output]) (ticks w)).
Proof.
  intros H. unfold imageToPdf. unfold bind at 1, emit at 1.
  unfold bind at 1, Fs.readFile at 1, bind at 1, read_fs at 1. cbn [fs trace ticks].
  destruct (fs w !! input) as [[bytes|]|]; [exfalso; exact (H bytes eq_refl)|..]; reflexivity.
Qed.

(** X16. Unless its input is a file whose bytes the decoder accepts,
    [imageToPdf] fails and writes nothing: a missing input, a directory and
    bytes the decoder rejects all leave the file system as it was. *)
Theorem imageToPdf_failure_leaves_no_output (h : Host) (input output : string) (w : World) :
  (forall bytes, fs w !! input = Some (File bytes) ->
     exists e, PdfLib.decoder h (codec_for h input) bytes = inl e) ->
  exists e,
    (imageToPdf h input output w).1 = Throw e
    /\ fs (imageToPdf h input output w).2 = fs w.
Proof.
  intros H. destruct (fs w !! input) as [[bytes|]|] eqn:E.
  - destruct (H bytes eq_refl) as (e & D). exists e.
    rewrite (imageToPdf_runs h input output w bytes E). cbv zeta. rewrite D. auto.
  - eexists. rewrite imageToPdf_unreadable by (rewrite E; discriminate). auto.
  - eexists. rewrite imageToPdf_unreadable by (rewrite E; discriminate). auto.
Qed.

Lemma imageToPdf_failure_leaves_no_output_witness :
  exists e,
    (imageToPdf Scenario.linux "/app/uploads/report-1700000000000.pdf" "/app/outputs/x.pdf"
       (mkWorld (<["/app/uploads/report-1700000000000.pdf" := File ""]> Scenario.disk) [] 1)).1
    = Throw e.
Proof.
  destruct (imageToPdf_failure_leaves_no_output Scenario.linux
              "/app/uploads/report-1700000000000.pdf" "/app/outputs/x.pdf"
              (mkWorld (<["/app/uploads/report-1700000000000.pdf" := File ""]> Scenario.disk) [] 1))
    as (e & E & _).
  - intros bytes B. vm_compute in B. injection B as <-. eexists. vm_compute. reflexivity.
  - exists e. exact E.
Defined.

(** X17. An upload the middleware refuses, for its declared type or for its
    size, is not stored and does not reach the handler: the file system and
    the trace are as they were before the request, and the answer is the
    framework's. *)
Theorem refused_upload_is_not_stored (h : Host) (file : Upload) (target : option string)
    (w : World) :
  JS.includes allowed_mimetypes (mimetype file) = false \/ limits_fileSize < size file ->
  let after := post_convert h (mkHttp (Some file) target) w in
  fs after.2 = fs w /\ trace after.2 = trace w
  /\ exists e, after.1 = Ok (DefaultError 500 e).
Proof.
  intros R after. subst after.
  destruct (JS.includes allowed_mimetypes (mimetype file)) eqn:F.
  - destruct R as [R|R]; [discriminate|].
    unfold post_convert, upload_single, fileFilter, bind, try_catch.
    cbn [part_file]. rewrite F. unfold storage_filename, bind, Fs.Date_now, ret.
    cbn [fs trace ticks]. apply Z.ltb_lt in R. rewrite R. cbn. eauto.
  - unfold post_convert, upload_single, fileFilter, bind, try_catch.
    cbn [part_file]. rewrite F. cbn. eauto.
Qed.

Lemma refused_upload_is_not_stored_witness :
  fs (post_convert Scenario.linux (mkHttp (Some Scenario.big_upload) (Some "jpg"))
        Scenario.idle).2 = Scenario.disk.
Proof.
  destruct (refused_upload_is_not_stored Scenario.linux Scenario.big_upload (Some "jpg")
              Scenario.idle) as (E & _); [right; vm_compute; reflexivity|].
  exact E.
Defined.

(** X18. The handler never throws, on any request and in any state: it
    returns, and the request has ended in one of four ways: with a JSON error
    of status 400, with a JSON error of status 500, with the download, or
    with nothing sent at all. Nothing is sent only when the router has sent
    the request to a helper (the callback of [res.download] ignores the error
    it is given when the output cannot be sent): a request without a file, or
    whose extension and target are no pair of the table, always gets an
    answer. *)
Theorem handler_never_throws (h : Host) (req : Req) (w : World) :
  exists r w',
    convert h req w = (Ok r, w')
    /\ ((exists msg, r = Json 400 msg)
        \/ (exists msg, r = Json 500 msg)
        \/ (exists name data, r = Download name data)
        \/ (r = NoResponse
            /\ exists file op,
                 req_file req = Some file
                 /\ Spec.route (ext_of h file) (target_of (req_body_targetFormat req))
                    = Some op)).
Proof.
  destruct (handler_answers h req w) as (r & w' & E & F).
  exists r, w'. split; [exact E|].
  destruct r as [c msg|name data|c e|]; cbn in F.
  - destruct F as [->| ->]; [left|right; left]; eexists; reflexivity.
  - right; right; left. eauto.
  - destruct F.
  - right; right; right. split; [reflexivity|].
    destruct req as [[file|] body]; cbn [req_file req_body_targetFormat].
    + pose proof (convert_dispatch h file body w) as D. cbv zeta in D.
      rewrite E in D. cbn [fst snd] in D.
      destruct (Spec.route _ _) as [op|] eqn:R.
      * exists file, op. split; [reflexivity|exact R].
      * destruct D as (msg & D & _). discriminate.
    + exfalso. revert E. unfold convert, with_frame, try_catch, convert_try.
      cbn. discriminate.
Qed.

(** X19. A request whose extension and target are a pair of the table does
    not end with a 400, and the handler does not throw on it: it ends with
    the download, with a JSON error of status 500 (when anything on the way
    throws), or with nothing sent (when [res.download] cannot send the
    output, whose error the callback ignores). *)
Theorem routed_request_answers (h : Host) (file : StoredFile) (body : option string)
    (w : World) (op : Operation) :
  Spec.route (ext_of h file) (target_of body) = Some op ->
  exists r w',
    convert h (mkReq (Some file) body) w = (Ok r, w')
    /\ ((exists name data, r = Download name data)
        \/ (exists msg, r = Json 500 msg)
        \/ r = NoResponse).
Proof.
  intros R. destruct (routed_request_is_not_rejected h file body w op R) as (r & w' & E & F).
  exists r, w'. split; [exact E|].
  destruct r as [c msg|name data|c e|]; cbn in F.
  - right; left. exists msg. rewrite F. reflexivity.
  - left. eauto.
  - destruct F.
  - right; right. reflexivity.
Qed.

Lemma routed_request_answers_witness :
  exists r w',
    convert Scenario.linux (mkReq (Some Cases.stored_report) (Some "jpg")) Cases.with_report
    = (Ok r, w')
    /\ ((exists name data, r = Download name data)
        \/ (exists msg, r = Json 500 msg)
        \/ r = NoResponse).
Proof.
  apply (routed_request_answers Scenario.linux Cases.stored_report (Some "jpg")
           Cases.with_report PdfToJpg).
  vm_compute. reflexivity.
Defined.

(** ** A PDF sent for its first page *)
Section PagesRequest.
Variable h : Host.






End PagesRequest.




(** * The page script *)

Section ClientStrings.
Import Client.

Lemma endsWith_eq (s suffix : string) :
  endsWith s suffix =
  String.eqb s suffix || match s with EmptyString => false | String _ r => endsWith r suffix end.
Proof. destruct s; reflexivity. Qed.

Lemma endsWith_split (s suffix : string) :
  endsWith s suffix = true <-> exists p, s = p +:+ suffix.
Proof.
  split.
  - induction s as [|c s IH]; rewrite endsWith_eq.
    + rewrite orb_false_r. intros E%String.eqb_eq. exists "". rewrite <- E. reflexivity.
    + intros [E%String.eqb_eq|E]%orb_true_iff.
      * exists "". rewrite <- E. reflexivity.
      * destruct (IH E) as (p & ->). exists (String c p). reflexivity.
  - intros (p & ->). induction p as [|c p IH].
    + change ("" +:+ suffix) with suffix. rewrite endsWith_eq, String.eqb_refl. reflexivity.
    + rewrite str_cons_app, endsWith_eq, IH. apply orb_true_r.
Qed.

Lemma final_app (p e : string) : e <> "" -> final (p +:+ e) = final e.
Proof.
  intros N. induction p as [|c p IH]; [reflexivity|].
  rewrite str_cons_app. cbn [final]. rewrite IH.
  destruct (p +:+ e) eqn:E; [|reflexivity].
  exfalso. apply N. destruct p; [exact E|discriminate].
Qed.

Lemma endsWith_final (s e : string) : endsWith s e = true -> e <> "" -> final s = final e.
Proof. intros (p & ->)%endsWith_split N. apply final_app, N. Qed.

Lemma endsWith_other (s e e' : string) :
  endsWith s e = true -> e <> "" -> e' <> "" -> final e <> final e' -> endsWith s e' = false.
Proof.
  intros E N N' D. destruct (endsWith s e') eqn:E'; [|reflexivity].
  exfalso. apply D. rewrite <- (endsWith_final s e E N). apply endsWith_final; assumption.
Qed.

Lemma toLowerCase_app (a b : string) :
  JS.toLowerCase (a +:+ b) = JS.toLowerCase a +:+ JS.toLowerCase b.
Proof.
  induction a as [|c a IH]; [reflexivity|].
  rewrite str_cons_app. cbn [JS.toLowerCase]. rewrite IH. reflexivity.
Qed.

Lemma lower_lower (c : ascii) : JS.lower (JS.lower c) = JS.lower c.
Proof.
  destruct c as [[] [] [] [] [] [] [] []]; reflexivity.
Qed.

Lemma toLowerCase_twice (s : string) : JS.toLowerCase (JS.toLowerCase s) = JS.toLowerCase s.
Proof.
  induction s as [|c s IH]; [reflexivity|]. cbn [JS.toLowerCase]. rewrite lower_lower, IH.
  reflexivity.
Qed.

Lemma toLowerCase_length (s : string) : String.length (JS.toLowerCase s) = String.length s.
Proof. induction s as [|c s IH]; [reflexivity|]. cbn. rewrite IH. reflexivity. Qed.

Lemma str_app_inv_length (a b c d : string) :
  a +:+ b = c +:+ d -> String.length a = String.length c -> a = c /\ b = d.
Proof.
  revert c. induction a as [|x a IH]; intros [|y c] E L; try discriminate L.
  - auto.
  - rewrite !str_cons_app in E. injection E as -> E. injection L as L.
    destruct (IH c E L) as [-> ->]. auto.
Qed.

(** What a lower-cased string ends with is in lower case. *)
Lemma lower_ending (s e : string) :
  endsWith (JS.toLowerCase s) e = true -> JS.toLowerCase e = e.
Proof.
  intros (p & E)%endsWith_split.
  pose proof (toLowerCase_twice s) as T. rewrite E, toLowerCase_app in T.
  apply str_app_inv_length in T; [tauto|apply toLowerCase_length].
Qed.

End ClientStrings.

(** ** Selecting a file *)

(** X21. The page accepts a file exactly when the upload middleware of the
    server does: within the size limit and of a type the server's filter
    passes. An accepted file becomes the selection, its name is shown and the
    message is hidden. A refused file changes nothing but the message: the
    selection, the select and the Convert button stay as they were, and for a
    refused type the message is the very text the server's filter fails
    with. *)
Theorem setFile_mirrors_the_upload_filter (f : Upload) (d : Client.Dom) :
  (size f <= limits_fileSize -> fileFilter f = Ok true ->
   Client.selectedFile (Client.setFile (Some f) d) = Some f
   /\ Client.fileInfo (Client.setFile (Some f) d) = Client.mkBox false (originalname f)
   /\ Client.msg_hidden (Client.messageEl (Client.setFile (Some f) d)) = true)
  /\ (limits_fileSize < size f ->
      Client.setFile (Some f) d = Client.showMessage Client.too_large "error" d)
  /\ (size f <= limits_fileSize -> forall e, fileFilter f = Throw e ->
      Client.setFile (Some f) d = Client.showMessage (message e) "error" d)
  /\ (forall text,
        let d' := Client.showMessage text "error" d in
        Client.selectedFile d' = Client.selectedFile d
        /\ Client.targetFormatSelect d' = Client.targetFormatSelect d
        /\ Client.convertBtn_disabled d' = Client.convertBtn_disabled d
        /\ Client.messageEl d' = Client.mkMessage text "message error" false).
Proof.
  assert (L : Client.MAX_SIZE_BYTES = limits_fileSize) by reflexivity.
  assert (A : Client.allowed = allowed_mimetypes) by reflexivity.
  unfold fileFilter, Client.setFile. rewrite L, A. repeat split.
  - destruct (Z.ltb_spec limits_fileSize (size f)); [lia|].
    destruct (JS.includes allowed_mimetypes (mimetype f)); [|discriminate].
    cbn [negb]. unfold Client.updateFormatOptions. cbn.
    repeat match goal with |- context [if ?b then _ else _] => destruct b end; reflexivity.
  - destruct (Z.ltb_spec limits_fileSize (size f)); [lia|].
    destruct (JS.includes allowed_mimetypes (mimetype f)); [|discriminate].
    cbn [negb]. unfold Client.updateFormatOptions. cbn.
    repeat match goal with |- context [if ?b then _ else _] => destruct b end; reflexivity.
  - destruct (Z.ltb_spec limits_fileSize (size f)); [lia|].
    destruct (JS.includes allowed_mimetypes (mimetype f)); [|discriminate].
    cbn [negb]. unfold Client.updateFormatOptions. cbn.
    repeat match goal with |- context [if ?b then _ else _] => destruct b end; reflexivity.
  - intros H. destruct (Z.ltb_spec limits_fileSize (size f)); [reflexivity|lia].
  - intros H e. destruct (Z.ltb_spec limits_fileSize (size f)); [lia|].
    destruct (JS.includes allowed_mimetypes (mimetype f)); [discriminate|].
    intros [= <-]. reflexivity.
Qed.

(** ** The options of the select *)

(** X22. After [updateFormatOptions] the select never shows a disabled
    option: a value the new gating disables is replaced by one it leaves
    enabled ([pdf] for office documents and images, [jpg] for a PDF). *)
Theorem updateFormatOptions_leaves_an_enabled_choice (d : Client.Dom) :
  Client.chosen_disabled (Client.targetFormatSelect (Client.updateFormatOptions d)) = false.
Proof.
  unfold Client.updateFormatOptions, Client.setConvertEnabled.
  destruct (Client.selectedFile d) as [file|]; [|reflexivity].
  set (name := JS.toLowerCase (originalname file)).
  set (s := Client.targetFormatSelect d).
  assert (P : Client.chosen_disabled (Client.to_pdf_only s) = false).
  { unfold Client.chosen_disabled, Client.to_pdf_only. cbn [Client.select_value
      Client.pdf_disabled Client.jpg_disabled Client.docx_disabled].
    destruct (String.eqb (Client.select_value s) "jpg") eqn:J; [reflexivity|].
    destruct (String.eqb (Client.select_value s) "docx") eqn:D; [reflexivity|].
    cbn [orb]. rewrite J, D. destruct (String.eqb (Client.select_value s) "pdf"); reflexivity. }
  assert (Q : Client.chosen_disabled (Client.from_pdf_only s) = false).
  { unfold Client.chosen_disabled, Client.from_pdf_only. cbn [Client.select_value
      Client.pdf_disabled Client.jpg_disabled Client.docx_disabled].
    destruct (String.eqb (Client.select_value s) "pdf") eqn:J; [reflexivity|].
    rewrite J. destruct (String.eqb (Client.select_value s) "jpg"); [reflexivity|].
    destruct (String.eqb (Client.select_value s) "docx"); [|reflexivity].
    destruct (Client.docx_disabled s); reflexivity. }
  assert (R : Client.chosen_disabled
                (Client.mkSelect (Client.select_value s) false false
                   (Client.set_docx false (Client.docx_disabled s))) = false).
  { unfold Client.chosen_disabled. cbn [Client.select_value
      Client.pdf_disabled Client.jpg_disabled Client.docx_disabled].
    destruct (String.eqb (Client.select_value s) "pdf"); [reflexivity|].
    destruct (String.eqb (Client.select_value s) "jpg"); [reflexivity|].
    destruct (String.eqb (Client.select_value s) "docx"); [|reflexivity].
    destruct (Client.docx_disabled s); reflexivity. }
  cbn [Client.targetFormatSelect Client.set_convertBtn_disabled].
  destruct (_ || _); [exact P|]. destruct (Client.endsWith name ".pdf"); [exact Q|].
  destruct (_ || _); [exact P|exact R].
Qed.

(** X23. The gating of the page agrees with the table of the server: for a
    selected file whose lower-cased name ends in one of the seven extensions
    of the table, and a select that holds one of its options, the value the
    select shows after [updateFormatOptions] is empty or a target the table
    has for that extension. *)
Theorem gating_agrees_with_the_table (file : Upload) (d : Client.Dom) (ext : string) :
  Client.selectedFile d = Some file ->
  In (Client.select_value (Client.targetFormatSelect d)) [""; "pdf"; "jpg"; "docx"] ->
  In ext [".docx"; ".pptx"; ".xlsx"; ".pdf"; ".jpg"; ".jpeg"; ".png"] ->
  Client.endsWith (JS.toLowerCase (originalname file)) ext = true ->
  let v := Client.select_value (Client.targetFormatSelect (Client.updateFormatOptions d)) in
  v = "" \/ exists op, Spec.route ext v = Some op.
Proof.
  intros S V X E v. subst v.
  unfold Client.updateFormatOptions, Client.setConvertEnabled. rewrite S.
  cbn [Client.targetFormatSelect Client.set_convertBtn_disabled].
  set (name := JS.toLowerCase (originalname file)) in *.
  set (s := Client.targetFormatSelect d) in *.
  assert (No : forall e', e' <> "" -> Client.final ext <> Client.final e' ->
                          Client.endsWith name e' = false).
  { intros e' N D. apply (endsWith_other name ext e' E); [|exact N|exact D].
    destruct X as [<-|[<-|[<-|[<-|[<-|[<-|[<-|[]]]]]]]]; discriminate. }
  assert (P : forall e, In e [".docx"; ".pptx"; ".xlsx"; ".jpg"; ".jpeg"; ".png"] ->
                Client.select_value (Client.to_pdf_only s) = ""
                \/ exists op, Spec.route e (Client.select_value (Client.to_pdf_only s)) = Some op).
  { intros e He. unfold Client.to_pdf_only. cbn [Client.select_value].
    destruct V as [<-|[<-|[<-|[<-|[]]]]]; cbn; [left; reflexivity|right..];
      destruct He as [<-|[<-|[<-|[<-|[<-|[<-|[]]]]]]]; cbn; eauto. }
  assert (Q : Client.select_value (Client.from_pdf_only s) = ""
              \/ exists op, Spec.route ".pdf" (Client.select_value (Client.from_pdf_only s))
                            = Some op).
  { unfold Client.from_pdf_only. cbn [Client.select_value].
    destruct V as [<-|[<-|[<-|[<-|[]]]]]; cbn; eauto. }
  destruct X as [<-|[<-|[<-|[<-|[<-|[<-|[<-|[]]]]]]]].
  - rewrite E. cbn [orb Client.targetFormatSelect Client.set_convertBtn_disabled
      Client.set_formatHint Client.set_select]. apply P. cbn. auto 10.
  - rewrite E, orb_true_r. cbn [orb Client.targetFormatSelect Client.set_convertBtn_disabled
      Client.set_formatHint Client.set_select]. apply P. cbn. auto 10.
  - rewrite E, orb_true_r. cbn [orb Client.targetFormatSelect Client.set_convertBtn_disabled
      Client.set_formatHint Client.set_select]. apply P. cbn. auto 10.
  - rewrite (No ".docx"), (No ".pptx"), (No ".xlsx") by (discriminate || (cbn; congruence)).
    rewrite E.
    cbn [orb Client.targetFormatSelect Client.set_convertBtn_disabled
      Client.set_formatHint Client.set_select]. exact Q.
  - rewrite (No ".docx"), (No ".pptx"), (No ".xlsx"), (No ".pdf")
      by (discriminate || (cbn; congruence)).
    rewrite E. cbn [orb Client.targetFormatSelect Client.set_convertBtn_disabled
      Client.set_formatHint Client.set_select]. apply P. cbn. auto 10.
  - rewrite (No ".docx"), (No ".pptx"), (No ".xlsx"), (No ".pdf")
      by (discriminate || (cbn; congruence)).
    rewrite E, orb_true_r. cbn [orb Client.targetFormatSelect Client.set_convertBtn_disabled
      Client.set_formatHint Client.set_select]. apply P. cbn. auto 10.
  - rewrite (No ".docx"), (No ".pptx"), (No ".xlsx"), (No ".pdf")
      by (discriminate || (cbn; congruence)).
    rewrite E, orb_true_r. cbn [orb Client.targetFormatSelect Client.set_convertBtn_disabled
      Client.set_formatHint Client.set_select]. apply P. cbn. auto 10.
Qed.

Lemma gating_agrees_with_the_table_witness :
  let d := Client.set_value "pdf"
             (Client.set_selectedFile (Some Scenario.pdf_upload) Client.fresh) in
  Client.select_value (Client.targetFormatSelect (Client.updateFormatOptions d)) = "jpg"
  /\ exists op, Spec.route ".pdf" "jpg" = Some op.
Proof.
  intros d. split; [reflexivity|].
  destruct (gating_agrees_with_the_table Scenario.pdf_upload d ".pdf") as [E|E];
    [reflexivity | cbn; auto | cbn; auto | reflexivity | discriminate E | exact E].
Defined.

(** ** The Convert button *)

Lemma setConvertEnabled_follows (d : Client.Dom) :
  Client.button_follows (Client.setConvertEnabled d).
Proof.
  unfold Client.button_follows, Client.setConvertEnabled.
  cbn [Client.convertBtn_disabled Client.selectedFile Client.targetFormatSelect
       Client.set_convertBtn_disabled].
  rewrite negb_andb. reflexivity.
Qed.

Lemma updateFormatOptions_follows (d : Client.Dom) :
  Client.button_follows (Client.updateFormatOptions d).
Proof.
  unfold Client.updateFormatOptions.
  destruct (Client.selectedFile d); apply setConvertEnabled_follows.
Qed.

Lemma showMessage_follows (text type : string) (d : Client.Dom) :
  Client.button_follows d -> Client.button_follows (Client.showMessage text type d).
Proof. intros H. exact H. Qed.

Lemma setFile_follows (file : option Upload) (d : Client.Dom) :
  Client.button_follows d -> Client.button_follows (Client.setFile file d).
Proof.
  intros H. unfold Client.setFile. destruct file as [f|]; [|apply setConvertEnabled_follows].
  destruct (Z.ltb _ _); [exact H|]. destruct (negb _); [exact H|].
  apply updateFormatOptions_follows.
Qed.

(** X24. The Convert button is enabled exactly when a file is selected and
    a format is chosen: every listener of the page keeps it so, and so does
    the end of a conversion, however the request went. No request is sent
    without a file and a format, and the click that sends one leaves the
    button disabled with the file and the format as they were. The button
    does not stay disabled while the request is out: the listeners call
    [setConvertEnabled] whether or not a request is out, so that choosing a
    format before the answer has come enables the button again, and a click
    then sends a second request. *)
Theorem button_follows_file_and_format :
  (forall g d, Client.button_follows d -> Client.button_follows (Client.listener g d))
  /\ (forall r d, Client.button_follows (Client.answered r d))
  /\ (forall d req d',
        Client.click d = Some (req, d') ->
        Client.convertBtn_disabled d' = true
        /\ (exists file v, req = mkHttp (Some file) (Some v) /\ v <> ""
                           /\ Client.selectedFile d = Some file)
        /\ Client.selectedFile d' = Client.selectedFile d
        /\ Client.targetFormatSelect d' = Client.targetFormatSelect d)
  /\ (forall d, Client.button_follows d -> Client.convertBtn_disabled d = true ->
                Client.click d = None)
  /\ (forall d req d' v,
        Client.click d = Some (req, d') -> v <> "" ->
        let during := Client.listener (Client.Choose v) d' in
        Client.convertBtn_disabled during = false
        /\ exists d'',
             Client.click during = Some (mkHttp (Client.selectedFile d) (Some v), d'')).
Proof.
  split; [|split; [|split; [|split]]].
  - intros g d H. destruct g; cbn [Client.listener].
    + exact H.
    + exact H.
    + destruct files as [|file files]; [exact H|]. apply setFile_follows. exact H.
    + destruct files as [|file files]; [exact H|]. apply setFile_follows. exact H.
    + apply updateFormatOptions_follows.
    + apply setConvertEnabled_follows.
    + apply updateFormatOptions_follows.
  - intros r d. apply setConvertEnabled_follows.
  - intros d req d'. unfold Client.click, Client.formData.
    destruct (Client.selectedFile d) as [file|] eqn:S; [|discriminate].
    destruct (String.eqb_spec (Client.select_value (Client.targetFormatSelect d)) "") as [|N];
      [discriminate|].
    intros E. injection E as <- <-. split; [reflexivity|]. split; [|split; [exact S|reflexivity]].
    eexists _, _. split; [reflexivity|]. split; [exact N|reflexivity].
  - intros d H B. unfold Client.button_follows in H. rewrite B in H. unfold Client.click.
    destruct (Client.selectedFile d); [|reflexivity].
    destruct (String.eqb _ ""); [reflexivity|discriminate].
  - intros d req d' v. unfold Client.click at 1.
    destruct (Client.selectedFile d) as [file|] eqn:S; [|discriminate].
    destruct (String.eqb _ ""); [discriminate|].
    intros E N. injection E as _ <-. cbv zeta.
    unfold Client.listener, Client.click, Client.formData, Client.setConvertEnabled.
    cbn [Client.selectedFile Client.targetFormatSelect Client.select_value
         Client.convertBtn_disabled Client.set_convertBtn_disabled Client.hideMessage
         Client.set_messageEl Client.set_value Client.set_select Client.showSpinner
         Client.set_spinner_hidden Client.set_link_hidden Client.set_downloadLink].
    rewrite S. destruct (String.eqb_spec v "") as [E|_]; [contradiction|].
    split; [reflexivity|]. eexists. reflexivity.
Qed.

(** A PDF is selected and sent for DOCX; before the answer has come the user
    chooses JPG: the button is enabled again and a second request goes
    out. *)
Lemma second_request_during_the_first :
  let d := Client.listener (Client.Choose "docx")
             (Client.listener (Client.Pick [Scenario.pdf_upload]) Client.fresh) in
  exists d1 d2,
    Client.click d = Some (mkHttp (Some Scenario.pdf_upload) (Some "docx"), d1)
    /\ Client.convertBtn_disabled d1 = true
    /\ Client.convertBtn_disabled (Client.listener (Client.Choose "jpg") d1) = false
    /\ Client.click (Client.listener (Client.Choose "jpg") d1)
       = Some (mkHttp (Some Scenario.pdf_upload) (Some "jpg"), d2).
Proof. vm_compute. eexists _, _. repeat split. Qed.

(** ** The name of the download *)

Lemma endsWith_app (a b : string) : Client.endsWith (a +:+ b) b = true.
Proof. apply endsWith_split. exists a. reflexivity. Qed.

(** X25. The name the download is saved under always ends, up to case, in a
    dot and the target format (the value of the select, [pdf] when it is
    empty): a name of the server that ends so is kept, to any other name the
    ending is appended. *)
Theorem download_name_ends_in_the_target_format (disposition : option string) (value : string) :
  let ext := if String.eqb value "" then "pdf" else value in
  let outName := Client.download_name disposition value in
  Client.endsWith (JS.toLowerCase outName) ("." +:+ JS.toLowerCase ext) = true
  /\ forall code error url d,
       200 <= code <= 299 ->
       Client.select_value (Client.targetFormatSelect d) = value ->
       Client.downloadLink (Client.answered (Client.Http code error disposition url) d)
       = Client.mkLink false url outName.
Proof.
  intros ext outName. split.
  - subst outName. unfold Client.download_name. fold ext.
    match goal with |- context [negb (Client.endsWith (JS.toLowerCase ?n) _)] =>
      generalize n end.
    intros n. destruct (Client.endsWith (JS.toLowerCase n) ("." +:+ ext)) eqn:E; cbn [negb].
    + pose proof (lower_ending _ _ E) as L.
      change ("." +:+ ext) with (String "." ext) in L. cbn [JS.toLowerCase] in L.
      injection L as L. rewrite L. exact E.
    + rewrite toLowerCase_app.
      change (JS.toLowerCase ("." +:+ ext)) with ("." +:+ JS.toLowerCase ext).
      apply endsWith_app.
  - intros code error url d [Lo Hi] V. unfold Client.answered, Client.received.
    destruct (Z.leb_spec 200 code); [|lia]. destruct (Z.leb_spec code 299); [|lia].
    cbn [andb negb]. rewrite V. reflexivity.
Qed.

Lemma run_app (name : string) (c : ascii) (rest : string) :
  Client.run name = name -> Client.stops c = true ->
  Client.run (name +:+ String c rest) = name.
Proof.
  intros R C. induction name as [|x name IH].
  - change ("" +:+ String c rest) with (String c rest). cbn [Client.run]. rewrite C. reflexivity.
  - rewrite str_cons_app. cbn [Client.run] in *. destruct (Client.stops x); [discriminate|].
    injection R as R. rewrite (IH R). reflexivity.
Qed.

Lemma strip_prefix_app (p s : string) : Client.strip_prefix p (p +:+ s) = Some s.
Proof.
  induction p as [|c p IH]; [destruct s; reflexivity|].
  rewrite str_cons_app. cbn [Client.strip_prefix]. rewrite Ascii.eqb_refl. exact IH.
Qed.

Lemma match_filename_skip (p s : string) :
  occurs "f" p = false -> Client.match_filename (p +:+ s) = Client.match_filename s.
Proof.
  induction p as [|c p IH]; [reflexivity|]. cbn [occurs].
  intros [C O]%orb_false_iff. rewrite str_cons_app. cbn [Client.match_filename].
  unfold Client.filename_here at 1. cbn [Client.strip_prefix].
  rewrite Ascii.eqb_sym, C. exact (IH O).
Qed.

Lemma match_filename_here (s name : string) :
  Client.filename_here s = Some name -> Client.match_filename s = Some name.
Proof. intros E. destruct s; cbn [Client.match_filename]; rewrite E; reflexivity. Qed.

Lemma match_filename_attachment (name rest : string) :
  name <> "" -> Client.run name = name ->
  Client.match_filename
    ("attachment" +:+ ("; filename=" +:+ (Client.quote +:+ name +:+ Client.quote)) +:+ rest)
  = Some name.
Proof.
  intros N R.
  assert (A : "attachment" +:+ ("; filename=" +:+ (Client.quote +:+ name +:+ Client.quote)) +:+ rest =
              "attachment; " +:+ "filename=" +:+ Client.quote +:+ name +:+ Client.quote +:+ rest).
  { rewrite !str_app_assoc. reflexivity. }
  rewrite A, match_filename_skip by reflexivity.
  apply match_filename_here. unfold Client.filename_here.
  rewrite strip_prefix_app, strip_prefix_app.
  unfold Client.quote. rewrite str_cons_app.
  change ("" +:+ rest) with rest. rewrite (run_app name _ rest R) by reflexivity.
  destruct (String.eqb_spec name ""); [contradiction|reflexivity].
Qed.

Section PlainNames.
Variable name : string.
Hypothesis plain_name : Disposition.all Disposition.plain name = true.

Lemma plain_all (p : ascii -> bool) :
  (forall c, Disposition.plain c = true -> p c = true) -> Disposition.all p name = true.
Proof.
  intros I. revert plain_name. induction name as [|c s IH]; [reflexivity|].
  cbn [Disposition.all]. intros [C S]%andb_true_iff. rewrite (I c C), (IH S). reflexivity.
Qed.

Lemma plain_parts (c : ascii) :
  Disposition.plain c = true ->
  Disposition.is_latin1 c = true
  /\ (nat_of_ascii c =? 34)%nat = false /\ Ascii.eqb c "\" = false
  /\ Ascii.eqb c ";" = false /\ Ascii.eqb c "/" = false /\ Ascii.eqb c ":" = false.
Proof.
  unfold Disposition.plain. intros [L N]%andb_true_iff. apply negb_true_iff in N.
  repeat (apply orb_false_iff in N; destruct N as [N ?]). auto 10.
Qed.

Lemma plain_is_text : Disposition.all Disposition.is_text name = true.
Proof.
  apply plain_all. intros c [L _]%plain_parts. revert L.
  unfold Disposition.is_latin1, Disposition.is_text.
  intros [E|E]%orb_true_iff; [rewrite E; reflexivity|].
  apply Nat.leb_le in E. apply orb_true_iff. right. apply Nat.leb_le. lia.
Qed.

Lemma plain_getlatin1 : Disposition.getlatin1 name = name.
Proof.
  unfold Disposition.getlatin1. revert plain_name. induction name as [|c s IH]; [reflexivity|].
  cbn [Disposition.all Disposition.map]. intros [C S]%andb_true_iff.
  destruct (plain_parts c C) as (L & _). rewrite L, (IH S). reflexivity.
Qed.

Lemma plain_qstring : Disposition.qstring name = Client.quote +:+ name +:+ Client.quote.
Proof.
  unfold Disposition.qstring. f_equal. f_equal.
  revert plain_name. induction name as [|c s IH]; [reflexivity|].
  cbn [Disposition.all Disposition.flat_map]. intros [C S]%andb_true_iff.
  destruct (plain_parts c C) as (_ & Q & B & _). rewrite Q, B, (IH S). reflexivity.
Qed.

Lemma plain_run : Client.run name = name.
Proof.
  revert plain_name. induction name as [|c s IH]; [reflexivity|].
  cbn [Disposition.all Client.run]. intros [C S]%andb_true_iff.
  destruct (plain_parts c C) as (L & Q & _ & Sc & _).
  assert (St : Client.stops c = false).
  { unfold Client.stops. rewrite Q. cbn [orb].
    apply orb_false_iff. split.
    - destruct (Nat.eqb_spec (nat_of_ascii c) 59) as [E|]; [|reflexivity].
      exfalso. apply (f_equal ascii_of_nat) in E. rewrite ascii_nat_embedding in E.
      rewrite E in Sc. discriminate.
    - destruct (Nat.eqb_spec (nat_of_ascii c) 10) as [E|]; [|reflexivity].
      exfalso. rewrite <- Bool.not_false_iff_true in L. apply L.
      unfold Disposition.is_latin1. rewrite E. reflexivity. }
  rewrite St, (IH S). reflexivity.
Qed.

Lemma plain_basename (h : Host) : Path.basename h name = name.
Proof.
  unfold Path.basename.
  assert (N : existsb (Path.is_sep h) (list_ascii_of_string name) = false).
  { revert plain_name. induction name as [|c s IH]; [reflexivity|].
    cbn [Disposition.all list_ascii_of_string existsb]. intros [C S]%andb_true_iff.
    destruct (plain_parts c C) as (_ & _ & B & _ & Sl & _).
    rewrite (IH S), orb_false_r. unfold Path.is_sep. rewrite Sl, B, andb_false_r. reflexivity. }
  destruct name as [|c s]; [reflexivity|].
  cbn [list_ascii_of_string existsb] in N. apply orb_false_iff in N. destruct N as [Nc Ns].
  cbn [Path.last_segment]. rewrite Ns, Nc. reflexivity.
Qed.

(** The header of a plain name: the name in double quotes and, when it has
    a percent escape, the second parameter. *)
Lemma contentDisposition_plain (h : Host) :
  name <> "" ->
  Disposition.contentDisposition h name =
  "attachment" +:+ ("; filename=" +:+ (Client.quote +:+ name +:+ Client.quote))
  +:+ (if Disposition.has_hex_escape name
       then "; filename*=" +:+ Disposition.ustring name else "").
Proof.
  intros N. unfold Disposition.contentDisposition.
  rewrite plain_basename, plain_getlatin1, plain_is_text, String.eqb_refl.
  destruct (String.eqb_spec name ""); [contradiction|].
  cbn [negb andb orb]. rewrite plain_qstring. reflexivity.
Qed.
End PlainNames.

(** X26. The page reads back the file name the server sends. The header is
    the one the package content-disposition makes for [res.download]: the
    base name of the file name in double quotes, with a question mark for
    every character outside U+0020-U+007E and U+00A0-U+00FF and a backslash
    before a double quote or a backslash, followed by a parameter
    [filename*] when the name was changed or has a percent escape. Take a
    file name that is not empty, whose characters are all of that range and
    none of them a double quote, a backslash, a semicolon, a slash or a
    colon, and that has no white space at either end (the no-break space
    counts): from the header of that name the download is saved under the
    name when it ends, up to case, in a dot and the target format, and under
    the name with the format appended otherwise. *)
Theorem download_name_reads_the_attachment_back (h : Host) (name value : string) :
  name <> "" -> Disposition.all Disposition.plain name = true -> JS.trim name = name ->
  let ext := if String.eqb value "" then "pdf" else value in
  Client.download_name (Some (Disposition.contentDisposition h name)) value =
  if Client.endsWith (JS.toLowerCase name) ("." +:+ ext) then name else name +:+ "." +:+ ext.
Proof.
  intros N P T ext. unfold Client.download_name. fold ext.
  rewrite (contentDisposition_plain name P h N).
  assert (Tr : forall rest,
             JS.truthy (Some ("attachment" +:+ ("; filename=" +:+ (Client.quote +:+ name +:+ Client.quote)) +:+ rest))
             = true).
  { intros rest. unfold JS.truthy. rewrite !str_cons_app. reflexivity. }
  rewrite Tr. cbn [from_option id].
  rewrite (match_filename_attachment name _ N (plain_run name P)), T.
  destruct (Client.endsWith _ _); reflexivity.
Qed.

Lemma download_name_reads_the_attachment_back_witness :
  Client.download_name
    (Some (Disposition.contentDisposition Scenario.linux "Report.DOCX-1700000000001.pdf")) "pdf"
  = "Report.DOCX-1700000000001.pdf"
  /\ Client.download_name
       (Some (Disposition.contentDisposition Scenario.linux "report%20final-1700000000001")) "docx"
     = "report%20final-1700000000001.docx".
Proof.
  split.
  - pose proof (download_name_reads_the_attachment_back Scenario.linux
                  "Report.DOCX-1700000000001.pdf" "pdf") as T.
    cbv zeta in T. rewrite T; [reflexivity | discriminate | reflexivity | reflexivity].
  - pose proof (download_name_reads_the_attachment_back Scenario.linux
                  "report%20final-1700000000001" "docx") as T.
    cbv zeta in T. rewrite T; [reflexivity | discriminate | reflexivity | reflexivity].
Defined.

(** The headers of four names: a plain one, one with a percent escape, one
    with double quotes, and one with a control character (U+007F). *)
Lemma contentDisposition_examples :
  Disposition.contentDisposition Scenario.linux "plans.pdf"
  = "attachment; filename=" +:+ Client.quote +:+ "plans.pdf" +:+ Client.quote
  /\ Disposition.contentDisposition Scenario.linux "the%20plans.pdf"
     = "attachment; filename=" +:+ Client.quote +:+ "the%20plans.pdf" +:+ Client.quote
       +:+ "; filename*=UTF-8''the%2520plans.pdf"
  /\ Disposition.contentDisposition Scenario.linux
       ("the " +:+ Client.quote +:+ "plans" +:+ Client.quote +:+ ".pdf")
     = "attachment; filename=" +:+ Client.quote +:+ "the \" +:+ Client.quote +:+ "plans\"
       +:+ Client.quote +:+ ".pdf" +:+ Client.quote
  /\ Disposition.contentDisposition Scenario.linux ("a" +:+ String (ascii_of_nat 127) "b.pdf")
     = "attachment; filename=" +:+ Client.quote +:+ "a?b.pdf" +:+ Client.quote
       +:+ "; filename*=UTF-8''a%7Fb.pdf".
Proof. vm_compute. repeat split. Qed.

(** ** Errors *)

(** X27. When the request fails, by a rejected [fetch] or by a status
    outside 200-299, the page shows an error message that is never empty: the
    [error] of the JSON body when there is one, "Server error: <status>" when
    the body has none (as for the error pages of the framework), the message
    of the rejection, or "Conversion failed." when that is empty. The spinner
    is hidden again, and the selection, the select and the download link are
    left as they were, so that the user can try again. *)
Theorem failed_request_shows_an_error (r : Client.Reply) (d : Client.Dom) :
  let d' := Client.answered r d in
  let shown :=
    match r with
    | Client.Rejected msg => if String.eqb msg "" then "Conversion failed." else msg
    | Client.Http code error _ _ =>
        if JS.truthy error then default "" error else "Server error: " +:+ JS.show code
    end in
  match r with
  | Client.Http code _ _ _ => code < 200 \/ 299 < code
  | Client.Rejected _ => True
  end ->
  Client.messageEl d' = Client.mkMessage shown "message error" false
  /\ shown <> ""
  /\ Client.spinner_hidden d' = true
  /\ Client.selectedFile d' = Client.selectedFile d
  /\ Client.targetFormatSelect d' = Client.targetFormatSelect d
  /\ Client.downloadLink d' = Client.downloadLink d.
Proof.
  intros d' shown F. subst d' shown. unfold Client.answered, Client.received.
  destruct r as [msg|code error disposition url].
  - cbn [message new_Error]. split; [reflexivity|]. split; [|repeat split].
    destruct (String.eqb_spec msg ""); [discriminate|assumption].
  - assert (B : negb (Z.leb 200 code && Z.leb code 299) = true).
    { destruct (Z.leb_spec 200 code), (Z.leb_spec code 299); try reflexivity. lia. }
    rewrite B. cbn [message new_Error].
    assert (Ne : (if JS.truthy error then default "" error
                  else "Server error: " +:+ JS.show code) <> "").
    { destruct error as [e|]; cbn [JS.truthy from_option id].
      - destruct (String.eqb_spec e ""); cbn [negb]; [discriminate|assumption].
      - discriminate. }
    destruct (String.eqb_spec (if JS.truthy error then default "" error
                               else "Server error: " +:+ JS.show code) "") as [E|_];
      [contradiction|].
    split; [reflexivity|]. split; [exact Ne|repeat split].
Qed.

Lemma failed_request_shows_an_error_witness :
  Client.msg_text
    (Client.messageEl (Client.answered (Client.Http 500 None None "") Client.fresh))
  = "Server error: 500".
Proof.
  destruct (failed_request_shows_an_error (Client.Http 500 None None "") Client.fresh)
    as (E & _); [right; lia|].
  rewrite E. reflexivity.
Defined.
